(** * Lookup: a selection widget over a virtualized list

    A shallow embedding of the state machine of the [Lookup] component
    (Lookup.tsx), of the hooks it is built from ([useFilteredItems],
    [useKeyboardNavigation], [useClickOutside]) and of the row handler of
    [VirtualizedList], followed by the properties of the specification that
    were checked against them.

    Conventions of the embedding.
    - JavaScript values are the terms of [jsval].  Numbers are the integers
      (no NaN, no fractions); strings are sequences of one-byte characters
      and [toLowerCase] folds the ASCII letters.  Objects and arrays are
      identified with their contents: the embedding has no heap of
      references, so [===] on two objects compares them field by field.
      On strings, numbers, booleans, [null] and [undefined] it is the
      JavaScript [===].
    - A React state variable is a field of [state]; a [setX (v)] call is a
      record update.  Every handler of the component sets state variables to
      values computed from the variables of the render it was created in
      and never reads a variable after setting it, so running the updates in
      sequence is the batch React applies.
    - A promise is an event: [executeCallback] is split at its [await] into
      the part that runs when the call is issued and the part that runs when
      the promise of the provider settles.
    - Code that can throw returns an [outcome].
    - What has no effect on the state variables is left out: the calls on
      DOM nodes ([focus], [blur], [scrollToItem], the screen-reader
      announcement), [console.error], styling, and [e.stopPropagation]. *)

From Stdlib Require Import ZArith List String Ascii Bool Lia DecimalString.
From stdpp Require Import base list.
Import ListNotations.

Local Open Scope string_scope.
Local Open Scope Z_scope.

(** ** Strings *)

Module Str.

(** [c.toLowerCase()] on one character (ASCII letters only). *)
Definition lower_ascii (c : ascii) : ascii :=
  let n := nat_of_ascii c in
  if ((65 <=? n)%nat && (n <=? 90)%nat)%bool then ascii_of_nat (n + 32) else c.

(** [s.toLowerCase()]. *)
Fixpoint toLowerCase (s : string) : string :=
  match s with
  | EmptyString => EmptyString
  | String c rest => String (lower_ascii c) (toLowerCase rest)
  end.

(** [hay.includes(needle)]: [needle] occurs in [hay] as a substring. *)
Fixpoint includes (hay needle : string) : bool :=
  String.prefix needle hay
  || match hay with
     | EmptyString => false
     | String _ rest => includes rest needle
     end.

(** The characters of a string, each as a one-character string (what
    [Object.values] enumerates on a string). *)
Fixpoint chars (s : string) : list string :=
  match s with
  | EmptyString => []
  | String c rest => String c EmptyString :: chars rest
  end.

(** [parts.join(",")]. *)
Fixpoint join_comma (parts : list string) : string :=
  match parts with
  | [] => ""
  | [p] => p
  | p :: rest => p ++ "," ++ join_comma rest
  end.

(** The decimal form of an integer, as [String(n)] prints it. *)
Definition decimal (n : Z) : string := NilZero.string_of_int (Z.to_int n).

(** Two characters that differ at most in case. *)
Definition same_letter (a b : ascii) : Prop := lower_ascii a = lower_ascii b.

(** Two strings of the same length whose characters differ at most in
    case. *)
Inductive eq_ignoring_case : string -> string -> Prop :=
| eic_nil : eq_ignoring_case "" ""
| eic_cons a b s t :
    same_letter a b -> eq_ignoring_case s t ->
    eq_ignoring_case (String a s) (String b t).


End Str.

(** ** JavaScript values *)

#[local] Unset Elimination Schemes.
Inductive jsval : Type :=
| JUndefined
| JNull
| JBool (b : bool)
| JNum (n : Z)
| JStr (s : string)
| JObj (fields : list (string * jsval))
| JArr (elems : list jsval).
#[local] Set Elimination Schemes.

(** What a [throw] or a rejected promise carries: an [Error] object (with
    its [name] and [message]) or any other value. *)
Inductive thrown : Type :=
| ErrorObj (name message : string)
| Raised (v : jsval).

Inductive outcome (A : Type) : Type :=
| Ok (a : A)
| Throw (e : thrown).
Arguments Ok {A} a.
Arguments Throw {A} e.

Definition bind {A B} (m : outcome A) (k : A -> outcome B) : outcome B :=
  match m with
  | Ok a => k a
  | Throw e => Throw e
  end.

Notation "'let*' x ':=' m 'in' k" := (bind m (fun x => k))
  (at level 10, x name, m at level 100, k at level 200).

Module JS.

(** [typeof v]. *)
Definition typeof (v : jsval) : string :=
  match v with
  | JUndefined => "undefined"
  | JNull => "object"
  | JBool _ => "boolean"
  | JNum _ => "number"
  | JStr _ => "string"
  | JObj _ => "object"
  | JArr _ => "object"
  end.

Definition isArray (v : jsval) : bool :=
  match v with JArr _ => true | _ => false end.

(** The truth value of [v] in a condition ([!v] is its negation). *)
Definition ToBoolean (v : jsval) : bool :=
  match v with
  | JUndefined | JNull => false
  | JBool b => b
  | JNum n => negb (n =? 0)
  | JStr s => negb (String.eqb s "")
  | JObj _ | JArr _ => true
  end.

(** [a ?? b]. *)
Definition nullish (a b : jsval) : jsval :=
  match a with
  | JUndefined | JNull => b
  | _ => a
  end.

(** [String(v)].  An array prints its elements separated by commas, with
    [null] and [undefined] elements printed as the empty string. *)
Fixpoint ToString (v : jsval) : string :=
  match v with
  | JUndefined => "undefined"
  | JNull => "null"
  | JBool true => "true"
  | JBool false => "false"
  | JNum n => Str.decimal n
  | JStr s => s
  | JObj _ => "[object Object]"
  | JArr elems =>
      Str.join_comma
        (List.map (fun e => match e with
                            | JUndefined | JNull => ""
                            | _ => ToString e
                            end) elems)
  end.

(** [a === b]. *)
Fixpoint strict_eq (a b : jsval) : bool :=
  match a, b with
  | JUndefined, JUndefined => true
  | JNull, JNull => true
  | JBool x, JBool y => Bool.eqb x y
  | JNum x, JNum y => x =? y
  | JStr x, JStr y => String.eqb x y
  | JObj fa, JObj fb =>
      (fix fields_eq (fa fb : list (string * jsval)) : bool :=
         match fa, fb with
         | [], [] => true
         | (k, v) :: ra, (k', v') :: rb =>
             String.eqb k k' && strict_eq v v' && fields_eq ra rb
         | _, _ => false
         end) fa fb
  | JArr ea, JArr eb =>
      (fix elems_eq (ea eb : list jsval) : bool :=
         match ea, eb with
         | [], [] => true
         | x :: ra, y :: rb => strict_eq x y && elems_eq ra rb
         | _, _ => false
         end) ea eb
  | _, _ => false
  end.

(** The [TypeError]s of the engine, with the messages V8 gives them:
    [Object.values] of [null] or [undefined], and reading the property [k]
    of [null] or [undefined]. *)
Definition TypeError : thrown :=
  ErrorObj "TypeError" "Cannot convert undefined or null to object".

Definition TypeError_read (what k : string) : thrown :=
  ErrorObj "TypeError"
    ("Cannot read properties of " ++ what ++ " (reading '" ++ k ++ "')").

(** The own property [k] of a record, [undefined] when it has none. *)
Fixpoint own (k : string) (fields : list (string * jsval)) : jsval :=
  match fields with
  | [] => JUndefined
  | (k', v) :: rest => if String.eqb k k' then v else own k rest
  end.

(** The index a property name denotes in a sequence of [n] elements. *)
Fixpoint index_of_key (k : string) (n : nat) : option nat :=
  match n with
  | O => None
  | S m =>
      match index_of_key k m with
      | Some i => Some i
      | None => if String.eqb k (Str.decimal (Z.of_nat m)) then Some m else None
      end
  end.

(** [v[k]].  Reading a property of [null] or [undefined] throws.  Own
    properties only: the methods a value inherits from its prototype are
    not in the embedding. *)
Definition get (v : jsval) (k : string) : outcome jsval :=
  match v with
  | JUndefined => Throw (TypeError_read "undefined" k)
  | JNull => Throw (TypeError_read "null" k)
  | JBool _ | JNum _ => Ok JUndefined
  | JStr s =>
      if String.eqb k "length" then Ok (JNum (Z.of_nat (String.length s)))
      else match index_of_key k (String.length s) with
           | Some i => Ok (JStr (nth i (Str.chars s) ""))
           | None => Ok JUndefined
           end
  | JObj fields => Ok (own k fields)
  | JArr elems =>
      if String.eqb k "length" then Ok (JNum (Z.of_nat (List.length elems)))
      else match index_of_key k (List.length elems) with
           | Some i => Ok (nth i elems JUndefined)
           | None => Ok JUndefined
           end
  end.

(** The name a property key denotes: an absent key is [undefined], which
    names the property ["undefined"]. *)
Definition key_name (k : option string) : string :=
  match k with
  | Some s => s
  | None => "undefined"
  end.

(** The values of the own properties of a record, one per property name:
    a binding of a name in [seen], bound earlier, is not a property. *)
Fixpoint own_values_from (seen : list string) (fields : list (string * jsval))
  : list jsval :=
  match fields with
  | [] => []
  | (k, v) :: rest =>
      if List.existsb (String.eqb k) seen then own_values_from seen rest
      else v :: own_values_from (k :: seen) rest
  end.

Definition own_values (fields : list (string * jsval)) : list jsval :=
  own_values_from [] fields.


(** [Object.values(v)].  It throws on [null] and [undefined].  The order
    of the values of a record is the order of [fields]; the code only asks
    whether some value satisfies a test that cannot throw, which does not
    depend on the order. *)
Definition Object_values (v : jsval) : outcome (list jsval) :=
  match v with
  | JUndefined | JNull => Throw TypeError
  | JBool _ | JNum _ => Ok []
  | JStr s => Ok (List.map JStr (Str.chars s))
  | JObj fields => Ok (own_values fields)
  | JArr elems => Ok elems
  end.

(** [arr.some(p)] for a test that can throw: it stops at the first
    element that passes. *)
Fixpoint some {A} (p : A -> outcome bool) (arr : list A) : outcome bool :=
  match arr with
  | [] => Ok false
  | x :: rest =>
      let* b := p x in
      if b then Ok true else some p rest
  end.

(** [arr.filter(p)] for a test that can throw. *)
Fixpoint filter {A} (p : A -> outcome bool) (arr : list A)
  : outcome (list A) :=
  match arr with
  | [] => Ok []
  | x :: rest =>
      let* b := p x in
      let* kept := filter p rest in
      Ok (if b then x :: kept else kept)
  end.

(** [arr.find(p)] for a test that can throw; [undefined] when no element
    passes. *)
Fixpoint find (p : jsval -> outcome bool) (arr : list jsval) : outcome jsval :=
  match arr with
  | [] => Ok JUndefined
  | x :: rest =>
      let* b := p x in
      if b then Ok x else find p rest
  end.

Definition is_string (v : jsval) : bool :=
  match v with JStr _ => true | _ => false end.

(** A record: an object that is not an array. *)
Definition is_record (v : jsval) : bool :=
  match v with JObj _ => true | _ => false end.

End JS.

(** ** useFilteredItems *)

Inductive lookupType : Type := combobox | dropdown.

Module FilteredItems.

(** [filterItems (searchText, baseItems)] of the hook, closed over
    [isStringType], [matchFields] and [type]: the list it hands to
    [setFilteredItems], or what it throws. *)
Definition filterItems (isStringType : bool) (matchFields : option (list string))
    (type : lookupType) (searchText : string) (baseItems : list jsval)
  : outcome (list jsval) :=
  if String.eqb searchText "" then Ok baseItems
  else match type with
  | dropdown => Ok baseItems
  | combobox =>
      let searchLower := Str.toLowerCase searchText in
      if isStringType then
        Ok (List.filter
              (fun item =>
                 Str.includes (Str.toLowerCase (JS.ToString item)) searchLower)
              baseItems)
      else
        JS.filter
          (fun item =>
             match matchFields with
             | Some ((_ :: _) as fields) =>
                 JS.some
                   (fun field =>
                      let* value := JS.get item field in
                      Ok (Str.includes (Str.toLowerCase (JS.ToString value))
                            searchLower))
                   fields
             | _ =>
                 let* values := JS.Object_values item in
                 Ok (List.existsb
                       (fun value =>
                          Str.includes (Str.toLowerCase (JS.ToString value))
                            searchLower)
                       values)
             end)
          baseItems
  end.

End FilteredItems.

(** ** useKeyboardNavigation *)

Module KeyboardNavigation.

Inductive direction : Type := up | down.

(** The callbacks the hook is given. *)
Inductive callback : Type :=
| onOpen
| onClose
| onSelect (index : Z)
| onNavigate (d : direction) (newIndex : Z).

(** What one key press does: whether the default action of the event is
    suppressed, the callback that is called, and the row the list is asked
    to scroll to. *)
Record response : Type := {
  preventDefault : bool;
  called : option callback;
  scrollToItem : option Z;
}.

Definition ignored : response :=
  {| preventDefault := false; called := None; scrollToItem := None |}.

(** [handleKeyDown (e)] for [e.key = key]; [listRefCurrent] tells whether
    [listRef.current] is set. *)
Definition handleKeyDown (isOpen : bool) (focusedIndex itemCount : Z)
    (listRefCurrent : bool) (key : string) : response :=
  if negb isOpen then
    if (String.eqb key "ArrowDown" || String.eqb key "Enter")%bool then
      {| preventDefault := true; called := Some onOpen; scrollToItem := None |}
    else ignored
  else if String.eqb key "ArrowDown" then
    let nextIndex :=
      if focusedIndex <? itemCount - 1 then focusedIndex + 1 else focusedIndex in
    {| preventDefault := true;
       called := Some (onNavigate down nextIndex);
       scrollToItem :=
         if (listRefCurrent && negb (nextIndex =? focusedIndex))%bool
         then Some nextIndex else None |}
  else if String.eqb key "ArrowUp" then
    let nextIndex :=
      if focusedIndex >? 0 then focusedIndex - 1 else focusedIndex in
    {| preventDefault := true;
       called := Some (onNavigate up nextIndex);
       scrollToItem :=
         if (listRefCurrent && negb (nextIndex =? focusedIndex))%bool
         then Some nextIndex else None |}
  else if String.eqb key "Enter" then
    {| preventDefault := true;
       called :=
         if ((focusedIndex >=? 0) && (focusedIndex <? itemCount))%bool
         then Some (onSelect focusedIndex) else None;
       scrollToItem := None |}
  else if String.eqb key "Escape" then
    {| preventDefault := true; called := Some onClose; scrollToItem := None |}
  else if String.eqb key "Tab" then
    {| preventDefault := false; called := Some onClose; scrollToItem := None |}
  else ignored.

End KeyboardNavigation.

(** ** VirtualizedList *)

Module VirtualizedList.

Record Props : Type := {
  items : list jsval;
  selected : jsval;
  multipleSelect : bool;
  itemKey : option string;
}.

Definition isStringList (P : Props) : bool :=
  match items P with
  | first :: _ => String.eqb (JS.typeof first) "string"
  | [] => false
  end.

Definition selectedIsString (P : Props) : bool :=
  String.eqb (JS.typeof (selected P)) "string"
  || match selected P with
     | JArr (first :: _) => String.eqb (JS.typeof first) "string"
     | _ => false
     end.

Definition selectedItems (P : Props) : list jsval :=
  match selected P with
  | JArr elems => elems
  | other => [other]
  end.

(** [itemValue] of the row at [index]. *)
Definition itemValue (P : Props) (index : nat) : outcome jsval :=
  let item := nth index (items P) JUndefined in
  if isStringList P then Ok item else JS.get item (JS.key_name (itemKey P)).

(** [isSelected] of the row at [index]. *)
Definition isSelected (P : Props) (index : nat) : outcome bool :=
  let* value := itemValue P index in
  if selectedIsString P then
    Ok (List.existsb (fun s => JS.strict_eq s value) (selectedItems P))
  else
    let* found :=
      JS.find (fun s =>
                 let* k := JS.get s (JS.key_name (itemKey P)) in
                 Ok (JS.strict_eq k value))
              (selectedItems P) in
    Ok (JS.ToBoolean found).

(** [handleClick] of the row at [index]: the value it passes to [onSelect]
    (the component is always given one by [Lookup]). *)
Definition handleClick (P : Props) (index : nat) : outcome jsval :=
  let item := nth index (items P) JUndefined in
  let* value := itemValue P index in
  let* isSel := isSelected P index in
  if multipleSelect P then
    let* newSelected :=
      if isSel then
        JS.filter
          (fun s =>
             if selectedIsString P then Ok (negb (JS.strict_eq s value))
             else
               let* k := JS.get s (JS.key_name (itemKey P)) in
               Ok (negb (JS.strict_eq k value)))
          (selectedItems P)
      else
        Ok (selectedItems P ++ [if selectedIsString P then value else item])%list in
    Ok (JArr newSelected)
  else
    Ok (if selectedIsString P then value else item).

End VirtualizedList.

(** ** Lookup *)

Module Lookup.

(** The [items] prop: a static list, or a provider.  What a provider
    returns is not a function of the widget: its promises settle as events
    ([ProviderSettles] below). *)
Inductive source : Type :=
| StaticItems (list : list jsval)
| SourceCallback.

Inductive DropdownPosition : Type := Auto | Below | Above | Left | Right.

(** A width prop: absent, ['auto'] or a number of pixels. *)
Inductive widthProp : Type := WidthUnset | WidthAuto | WidthPx (px : Z).

(** The props the state machine reads.  [onSelect] tells whether the host
    gave a callback; the values it is called with are recorded in the
    [notified] field of the state. *)
Record LookupProps : Type := {
  items : source;
  onSelect : bool;
  type : lookupType;
  multipleSelect : bool;
  itemKey : option string;
  matchFields : option (list string);
  rowHeight : Z;
  dropdownPosition : DropdownPosition;
  maxHeight : Z;
  disabled : bool;
  dropdownWidth : widthProp;
  debounceMs : option Z;
  minSearchLength : Z;
}.

(** A call of the provider: the text it was called with, the
    [AbortController] whose signal its continuation holds, and whether its
    promise is still pending. *)
Record request : Type := {
  searchText : string;
  signal : nat;
  pending : bool;
}.

(** The state variables of the component, its two refs, and the part of the
    environment the refs point into: the [aborted] flag of every
    [AbortController] created so far, the timeouts set so far (with the text
    their callback closed over; [None] once cleared or fired), the calls of
    the provider, and the values [onSelect] was called with, oldest first. *)
Record state : Type := {
  inputValue : string;
  isOpen : bool;
  isFocused : bool;
  isLoading : bool;
  error : option string;
  displayedSelected : jsval;
  focusedIndex : Z;
  workingSelected : jsval;
  filteredItems : list jsval;
  resolvedPosition : DropdownPosition;
  debounceTimeoutRef : option nat;
  abortControllerRef : option nat;
  controllers : list bool;
  timers : list (option string);
  requests : list request;
  notified : list jsval;
}.

Definition setInputValue (v : string) (st : state) : state :=
  {| inputValue := v;
     isOpen := isOpen st;
     isFocused := isFocused st;
     isLoading := isLoading st;
     error := error st;
     displayedSelected := displayedSelected st;
     focusedIndex := focusedIndex st;
     workingSelected := workingSelected st;
     filteredItems := filteredItems st;
     resolvedPosition := resolvedPosition st;
     debounceTimeoutRef := debounceTimeoutRef st;
     abortControllerRef := abortControllerRef st;
     controllers := controllers st;
     timers := timers st;
     requests := requests st;
     notified := notified st |}.

Definition setIsOpen (v : bool) (st : state) : state :=
  {| inputValue := inputValue st;
     isOpen := v;
     isFocused := isFocused st;
     isLoading := isLoading st;
     error := error st;
     displayedSelected := displayedSelected st;
     focusedIndex := focusedIndex st;
     workingSelected := workingSelected st;
     filteredItems := filteredItems st;
     resolvedPosition := resolvedPosition st;
     debounceTimeoutRef := debounceTimeoutRef st;
     abortControllerRef := abortControllerRef st;
     controllers := controllers st;
     timers := timers st;
     requests := requests st;
     notified := notified st |}.

Definition setIsFocused (v : bool) (st : state) : state :=
  {| inputValue := inputValue st;
     isOpen := isOpen st;
     isFocused := v;
     isLoading := isLoading st;
     error := error st;
     displayedSelected := displayedSelected st;
     focusedIndex := focusedIndex st;
     workingSelected := workingSelected st;
     filteredItems := filteredItems st;
     resolvedPosition := resolvedPosition st;
     debounceTimeoutRef := debounceTimeoutRef st;
     abortControllerRef := abortControllerRef st;
     controllers := controllers st;
     timers := timers st;
     requests := requests st;
     notified := notified st |}.

Definition setIsLoading (v : bool) (st : state) : state :=
  {| inputValue := inputValue st;
     isOpen := isOpen st;
     isFocused := isFocused st;
     isLoading := v;
     error := error st;
     displayedSelected := displayedSelected st;
     focusedIndex := focusedIndex st;
     workingSelected := workingSelected st;
     filteredItems := filteredItems st;
     resolvedPosition := resolvedPosition st;
     debounceTimeoutRef := debounceTimeoutRef st;
     abortControllerRef := abortControllerRef st;
     controllers := controllers st;
     timers := timers st;
     requests := requests st;
     notified := notified st |}.

Definition setError (v : option string) (st : state) : state :=
  {| inputValue := inputValue st;
     isOpen := isOpen st;
     isFocused := isFocused st;
     isLoading := isLoading st;
     error := v;
     displayedSelected := displayedSelected st;
     focusedIndex := focusedIndex st;
     workingSelected := workingSelected st;
     filteredItems := filteredItems st;
     resolvedPosition := resolvedPosition st;
     debounceTimeoutRef := debounceTimeoutRef st;
     abortControllerRef := abortControllerRef st;
     controllers := controllers st;
     timers := timers st;
     requests := requests st;
     notified := notified st |}.

Definition setDisplayedSelected (v : jsval) (st : state) : state :=
  {| inputValue := inputValue st;
     isOpen := isOpen st;
     isFocused := isFocused st;
     isLoading := isLoading st;
     error := error st;
     displayedSelected := v;
     focusedIndex := focusedIndex st;
     workingSelected := workingSelected st;
     filteredItems := filteredItems st;
     resolvedPosition := resolvedPosition st;
     debounceTimeoutRef := debounceTimeoutRef st;
     abortControllerRef := abortControllerRef st;
     controllers := controllers st;
     timers := timers st;
     requests := requests st;
     notified := notified st |}.

Definition setFocusedIndex (v : Z) (st : state) : state :=
  {| inputValue := inputValue st;
     isOpen := isOpen st;
     isFocused := isFocused st;
     isLoading := isLoading st;
     error := error st;
     displayedSelected := displayedSelected st;
     focusedIndex := v;
     workingSelected := workingSelected st;
     filteredItems := filteredItems st;
     resolvedPosition := resolvedPosition st;
     debounceTimeoutRef := debounceTimeoutRef st;
     abortControllerRef := abortControllerRef st;
     controllers := controllers st;
     timers := timers st;
     requests := requests st;
     notified := notified st |}.

Definition setWorkingSelected (v : jsval) (st : state) : state :=
  {| inputValue := inputValue st;
     isOpen := isOpen st;
     isFocused := isFocused st;
     isLoading := isLoading st;
     error := error st;
     displayedSelected := displayedSelected st;
     focusedIndex := focusedIndex st;
     workingSelected := v;
     filteredItems := filteredItems st;
     resolvedPosition := resolvedPosition st;
     debounceTimeoutRef := debounceTimeoutRef st;
     abortControllerRef := abortControllerRef st;
     controllers := controllers st;
     timers := timers st;
     requests := requests st;
     notified := notified st |}.

Definition setFilteredItems (v : list jsval) (st : state) : state :=
  {| inputValue := inputValue st;
     isOpen := isOpen st;
     isFocused := isFocused st;
     isLoading := isLoading st;
     error := error st;
     displayedSelected := displayedSelected st;
     focusedIndex := focusedIndex st;
     workingSelected := workingSelected st;
     filteredItems := v;
     resolvedPosition := resolvedPosition st;
     debounceTimeoutRef := debounceTimeoutRef st;
     abortControllerRef := abortControllerRef st;
     controllers := controllers st;
     timers := timers st;
     requests := requests st;
     notified := notified st |}.

Definition setResolvedPosition (v : DropdownPosition) (st : state) : state :=
  {| inputValue := inputValue st;
     isOpen := isOpen st;
     isFocused := isFocused st;
     isLoading := isLoading st;
     error := error st;
     displayedSelected := displayedSelected st;
     focusedIndex := focusedIndex st;
     workingSelected := workingSelected st;
     filteredItems := filteredItems st;
     resolvedPosition := v;
     debounceTimeoutRef := debounceTimeoutRef st;
     abortControllerRef := abortControllerRef st;
     controllers := controllers st;
     timers := timers st;
     requests := requests st;
     notified := notified st |}.

Definition set_debounceTimeoutRef (v : option nat) (st : state) : state :=
  {| inputValue := inputValue st;
     isOpen := isOpen st;
     isFocused := isFocused st;
     isLoading := isLoading st;
     error := error st;
     displayedSelected := displayedSelected st;
     focusedIndex := focusedIndex st;
     workingSelected := workingSelected st;
     filteredItems := filteredItems st;
     resolvedPosition := resolvedPosition st;
     debounceTimeoutRef := v;
     abortControllerRef := abortControllerRef st;
     controllers := controllers st;
     timers := timers st;
     requests := requests st;
     notified := notified st |}.

Definition set_abortControllerRef (v : option nat) (st : state) : state :=
  {| inputValue := inputValue st;
     isOpen := isOpen st;
     isFocused := isFocused st;
     isLoading := isLoading st;
     error := error st;
     displayedSelected := displayedSelected st;
     focusedIndex := focusedIndex st;
     workingSelected := workingSelected st;
     filteredItems := filteredItems st;
     resolvedPosition := resolvedPosition st;
     debounceTimeoutRef := debounceTimeoutRef st;
     abortControllerRef := v;
     controllers := controllers st;
     timers := timers st;
     requests := requests st;
     notified := notified st |}.

Definition set_controllers (v : list bool) (st : state) : state :=
  {| inputValue := inputValue st;
     isOpen := isOpen st;
     isFocused := isFocused st;
     isLoading := isLoading st;
     error := error st;
     displayedSelected := displayedSelected st;
     focusedIndex := focusedIndex st;
     workingSelected := workingSelected st;
     filteredItems := filteredItems st;
     resolvedPosition := resolvedPosition st;
     debounceTimeoutRef := debounceTimeoutRef st;
     abortControllerRef := abortControllerRef st;
     controllers := v;
     timers := timers st;
     requests := requests st;
     notified := notified st |}.

Definition set_timers (v : list (option string)) (st : state) : state :=
  {| inputValue := inputValue st;
     isOpen := isOpen st;
     isFocused := isFocused st;
     isLoading := isLoading st;
     error := error st;
     displayedSelected := displayedSelected st;
     focusedIndex := focusedIndex st;
     workingSelected := workingSelected st;
     filteredItems := filteredItems st;
     resolvedPosition := resolvedPosition st;
     debounceTimeoutRef := debounceTimeoutRef st;
     abortControllerRef := abortControllerRef st;
     controllers := controllers st;
     timers := v;
     requests := requests st;
     notified := notified st |}.

Definition set_requests (v : list request) (st : state) : state :=
  {| inputValue := inputValue st;
     isOpen := isOpen st;
     isFocused := isFocused st;
     isLoading := isLoading st;
     error := error st;
     displayedSelected := displayedSelected st;
     focusedIndex := focusedIndex st;
     workingSelected := workingSelected st;
     filteredItems := filteredItems st;
     resolvedPosition := resolvedPosition st;
     debounceTimeoutRef := debounceTimeoutRef st;
     abortControllerRef := abortControllerRef st;
     controllers := controllers st;
     timers := timers st;
     requests := v;
     notified := notified st |}.

Definition set_notified (v : list jsval) (st : state) : state :=
  {| inputValue := inputValue st;
     isOpen := isOpen st;
     isFocused := isFocused st;
     isLoading := isLoading st;
     error := error st;
     displayedSelected := displayedSelected st;
     focusedIndex := focusedIndex st;
     workingSelected := workingSelected st;
     filteredItems := filteredItems st;
     resolvedPosition := resolvedPosition st;
     debounceTimeoutRef := debounceTimeoutRef st;
     abortControllerRef := abortControllerRef st;
     controllers := controllers st;
     timers := timers st;
     requests := requests st;
     notified := v |}.

Definition baseItems (P : LookupProps) : list jsval :=
  match items P with
  | StaticItems l => l
  | SourceCallback => []
  end.

Definition isCallback (P : LookupProps) : bool :=
  match items P with
  | StaticItems _ => false
  | SourceCallback => true
  end.

Definition isStringType (P : LookupProps) : bool :=
  match baseItems P with
  | first :: _ => String.eqb (JS.typeof first) "string"
  | [] => false
  end.

(** The state after the first render, for the initial [selected] prop. *)
Definition initial (P : LookupProps) (selected : jsval) : state :=
  {| inputValue := "";
     isOpen := false;
     isFocused := false;
     isLoading := false;
     error := None;
     displayedSelected := selected;
     focusedIndex := -1;
     workingSelected := JNull;
     filteredItems := if isCallback P then [] else baseItems P;
     resolvedPosition := Below;
     debounceTimeoutRef := None;
     abortControllerRef := None;
     controllers := [];
     timers := [];
     requests := [];
     notified := [] |}.

(** A selection as an array: empty when the value is falsy, the value
    itself when it is an array, the one-element array of it otherwise. *)
Definition asArray (v : jsval) : list jsval :=
  if negb (JS.ToBoolean v) then []
  else match v with
       | JArr elems => elems
       | other => [other]
       end.

Definition selectedArray (st : state) : list jsval :=
  asArray (displayedSelected st).

Definition activeSelectedArray (P : LookupProps) (st : state) : list jsval :=
  if negb (multipleSelect P) then selectedArray st
  else asArray (JS.nullish (workingSelected st) (displayedSelected st)).

(** [onSelect?.(v)]. *)
Definition notify (P : LookupProps) (v : jsval) (st : state) : state :=
  if onSelect P then set_notified (notified st ++ [v])%list st else st.

(** *** The asynchronous provider *)

(** How the promise of a provider call settles. *)
Inductive settlement : Type :=
| Fulfilled (results : jsval)
| Rejected (reason : thrown).

(** [signal.aborted] of the controller [c]. *)
Definition aborted (st : state) (c : nat) : bool :=
  match controllers st !! c with
  | Some flag => flag
  | None => false
  end.

(** [executeCallback] up to its [await], for the text [value] the handler
    closed over: the previous controller is aborted, a new one is made
    current, and the provider is called unless the text is too short. *)
Definition executeCallback (P : LookupProps) (value : string) (st : state)
  : state :=
  let st :=
    match abortControllerRef st with
    | Some previous => set_controllers (<[previous := true]> (controllers st)) st
    | None => st
    end in
  let current := List.length (controllers st) in
  let st := set_controllers (controllers st ++ [false])%list st in
  let st := set_abortControllerRef (Some current) st in
  if Z.of_nat (String.length value) <? minSearchLength P then
    setIsLoading false (setFilteredItems [] st)
  else
    let st := setIsLoading true st in
    set_requests
      (requests st ++ [{| searchText := value; signal := current; pending := true |}])%list
      st.

(** The two checks on what the provider resolved with. *)
Definition validateResults (results : jsval) : outcome (list jsval) :=
  match results with
  | JArr elems =>
      match elems with
      | firstItem :: _ =>
          let isString := String.eqb (JS.typeof firstItem) "string" in
          let isObject :=
            (String.eqb (JS.typeof firstItem) "object"
             && negb (JS.strict_eq firstItem JNull))%bool in
          if (negb isString && negb isObject)%bool
          then Throw (ErrorObj "Error" "Items must be strings or objects")
          else Ok elems
      | [] => Ok elems
      end
  | _ => Throw (ErrorObj "Error" "Async callback must return an array of items")
  end.

(** The [catch] block of [executeCallback]. *)
Definition catchBlock (e : thrown) (st : state) : state :=
  match e with
  | ErrorObj name message =>
      if String.eqb name "AbortError" then st
      else setFilteredItems [] (setError (Some message) st)
  | Raised _ =>
      setFilteredItems []
        (setError (Some "Failed to load items. Please try again.") st)
  end.

(** [executeCallback] from its [await] on, for the request [r] and the way
    its promise settled: the [try] body, the [catch] block, and the
    [finally] block, which runs on every path. *)
Definition resume (P : LookupProps) (r : request) (how : settlement) (st : state)
  : state :=
  let st :=
    match how with
    | Fulfilled results =>
        if aborted st (signal r) then st
        else
          match
            (let* elems := validateResults results in
             let* shown :=
               FilteredItems.filterItems (isStringType P) (matchFields P) (type P)
                 (searchText r) elems in
             Ok (elems, shown))
          with
          | Ok (elems, shown) =>
              let st := setFilteredItems shown st in
              if (0 <? List.length elems)%nat then setFocusedIndex 0 st else st
          | Throw e => catchBlock e st
          end
    | Rejected e => catchBlock e st
    end in
  setIsLoading false st.

(** *** Handlers *)

Definition handleInputChange (P : LookupProps) (value : string) (st : state)
  : state :=
  let st := setInputValue value st in
  let st := setIsOpen true st in
  let st := setFocusedIndex (-1) st in
  let st := setError None st in
  match type P with
  | dropdown => st
  | combobox =>
      if isCallback P then
        let st :=
          match debounceTimeoutRef st with
          | Some t => set_timers (<[t := None]> (timers st)) st
          | None => st
          end in
        match debounceMs P with
        | Some ms =>
            if ms =? 0 then executeCallback P value st
            else
              let t := List.length (timers st) in
              set_debounceTimeoutRef (Some t)
                (set_timers (timers st ++ [Some value])%list st)
        | None => executeCallback P value st
        end
      else
        match
          FilteredItems.filterItems (isStringType P) (matchFields P) (type P)
            value (baseItems P)
        with
        | Ok shown => setFilteredItems shown st
        | Throw _ => st
        end
  end.

Definition handleSelectItem (P : LookupProps) (selected : jsval) (st : state)
  : state :=
  if multipleSelect P then
    let st := setWorkingSelected selected st in
    let st := notify P selected st in
    setInputValue "" st
  else
    let st := setDisplayedSelected selected st in
    let st := notify P selected st in
    let st := setInputValue "" st in
    let st := setIsOpen false st in
    setIsFocused false st.

(** [arr.filter((_, i) => i !== index)]. *)
Fixpoint without_index {A} (index : nat) (arr : list A) : list A :=
  match arr, index with
  | [], _ => []
  | _ :: rest, O => rest
  | x :: rest, S i => x :: without_index i rest
  end.

Definition handleRemoveSelected (P : LookupProps) (index : nat) (st : state)
  : state :=
  if (negb (multipleSelect P) || (List.length (selectedArray st) =? 0)%nat)%bool
  then st
  else
    let newSelected := without_index index (selectedArray st) in
    let valueToSet :=
      match newSelected with
      | [only] => only
      | _ => JArr newSelected
      end in
    notify P valueToSet (setDisplayedSelected valueToSet st).

Definition handleClearAll (P : LookupProps) (st : state) : state :=
  if negb (multipleSelect P) then st
  else
    let st := setDisplayedSelected (JArr []) st in
    let st := notify P (JArr []) st in
    setInputValue "" st.

Definition handleNavigate (newIndex : Z) (st : state) : state :=
  setFocusedIndex newIndex st.

Definition handleKeyboardSelect (P : LookupProps) (index : Z) (st : state)
  : outcome state :=
  if ((index >=? 0) && (index <? Z.of_nat (List.length (filteredItems st))))%bool
  then
    let item := nth (Z.to_nat index) (filteredItems st) JUndefined in
    if multipleSelect P then
      let key := JS.key_name (itemKey P) in
      let* itemValue := if isStringType P then Ok item else JS.get item key in
      let* isAlreadySelected :=
        JS.some
          (fun s =>
             if isStringType P then Ok (JS.strict_eq s item)
             else let* k := JS.get s key in Ok (JS.strict_eq k itemValue))
          (activeSelectedArray P st) in
      let* newSelected :=
        if isAlreadySelected then
          JS.filter
            (fun s =>
               if isStringType P then Ok (negb (JS.strict_eq s item))
               else let* k := JS.get s key in Ok (negb (JS.strict_eq k itemValue)))
            (activeSelectedArray P st)
        else Ok (activeSelectedArray P st ++ [item])%list in
      Ok (handleSelectItem P (JArr newSelected) st)
    else Ok (handleSelectItem P item st)
  else Ok st.

Definition handleKeyboardClose (P : LookupProps) (st : state) : state :=
  let commit :=
    (multipleSelect P && negb (JS.strict_eq (workingSelected st) JNull))%bool in
  let working := workingSelected st in
  let st := setIsOpen false st in
  let st := setFocusedIndex (-1) st in
  if commit then setWorkingSelected JNull (setDisplayedSelected working st)
  else st.

Definition handleFocus (P : LookupProps) (st : state) : state :=
  let displayed := displayedSelected st in
  let empty := String.eqb (inputValue st) "" in
  let st := setIsFocused true st in
  let st := setIsOpen true st in
  let st := setFocusedIndex (-1) st in
  let st := setError None st in
  let st := if multipleSelect P then setWorkingSelected displayed st else st in
  if (negb (isCallback P) && empty)%bool then setFilteredItems (baseItems P) st
  else st.

Definition handleBlur (P : LookupProps) (st : state) : state :=
  let commit :=
    (multipleSelect P && negb (JS.strict_eq (workingSelected st) JNull))%bool in
  let working := workingSelected st in
  let st := setIsFocused false st in
  let st := setIsOpen false st in
  if commit then setWorkingSelected JNull (setDisplayedSelected working st)
  else st.

Definition handleSingleValueClick (st : state) : state :=
  if isOpen st then setIsFocused false (setIsOpen false st)
  else setIsFocused true (setIsOpen true st).

Definition handleClickOutside (P : LookupProps) (st : state) : state :=
  let commit :=
    (multipleSelect P && negb (JS.strict_eq (workingSelected st) JNull))%bool in
  let working := workingSelected st in
  let st := setIsOpen false st in
  let st := setIsFocused false st in
  if commit then setWorkingSelected JNull (setDisplayedSelected working st)
  else st.

Definition handleInputBoxClick (P : LookupProps) (st : state) : state :=
  if disabled P then st
  else match type P with
  | dropdown =>
      let displayed := displayedSelected st in
      let empty := String.eqb (inputValue st) "" in
      let st := setIsOpen (negb (isOpen st)) st in
      let st := setIsFocused true st in
      let st := setFocusedIndex (-1) st in
      let st := if multipleSelect P then setWorkingSelected displayed st else st in
      if (negb (isCallback P) && empty)%bool then setFilteredItems (baseItems P) st
      else st
  | combobox => st
  end.

(** *** The list the component renders *)

Definition getStringListSelected (P : LookupProps) (st : state) : jsval :=
  if multipleSelect P then
    let active := JS.nullish (workingSelected st) (displayedSelected st) in
    if JS.isArray active then active else JArr []
  else if String.eqb (JS.typeof (displayedSelected st)) "string"
       then displayedSelected st else JStr "".

Definition getObjectListSelected (P : LookupProps) (st : state) : jsval :=
  if multipleSelect P then
    let active := JS.nullish (workingSelected st) (displayedSelected st) in
    if JS.isArray active then active else JArr []
  else match displayedSelected st with
       | JArr elems => JS.nullish (nth 0 elems JUndefined) (JObj [])
       | other => JS.nullish other (JObj [])
       end.

(** The list is on screen: the dropdown is open, nothing is loading and
    there is at least one candidate. *)
Definition listRendered (st : state) : bool :=
  (isOpen st && negb (isLoading st)
   && negb (List.length (filteredItems st) =? 0)%nat)%bool.

(** The props [Lookup] renders [VirtualizedList] with. *)
Definition listProps (P : LookupProps) (st : state) : VirtualizedList.Props :=
  if isStringType P then
    {| VirtualizedList.items := filteredItems st;
       VirtualizedList.selected := getStringListSelected P st;
       VirtualizedList.multipleSelect := multipleSelect P;
       VirtualizedList.itemKey := None |}
  else
    {| VirtualizedList.items := filteredItems st;
       VirtualizedList.selected := getObjectListSelected P st;
       VirtualizedList.multipleSelect := multipleSelect P;
       VirtualizedList.itemKey := itemKey P |}.

(** A press on the row at [index]: the row's [handleClick] calls
    [handleSelectItem]. *)
Definition handleRowClick (P : LookupProps) (index : nat) (st : state)
  : outcome state :=
  let* chosen := VirtualizedList.handleClick (listProps P st) index in
  Ok (handleSelectItem P chosen st).

(** [handleKeyDown] of the hook, wired to the callbacks of [Lookup]. *)
Definition handleKeyDown (P : LookupProps) (key : string) (st : state)
  : outcome state :=
  let r :=
    KeyboardNavigation.handleKeyDown (isOpen st) (focusedIndex st)
      (Z.of_nat (List.length (filteredItems st))) (listRendered st) key in
  match KeyboardNavigation.called r with
  | Some KeyboardNavigation.onOpen => Ok (setFocusedIndex 0 (setIsOpen true st))
  | Some KeyboardNavigation.onClose => Ok (handleKeyboardClose P st)
  | Some (KeyboardNavigation.onSelect index) => handleKeyboardSelect P index st
  | Some (KeyboardNavigation.onNavigate _ newIndex) => Ok (handleNavigate newIndex st)
  | None => Ok st
  end.

(** *** Placement *)

(** What the placement effect measures: the size of the window and the
    bounding box of the container, in pixels. *)
Record viewport : Type := {
  innerHeight : Z;
  innerWidth : Z;
  rect_top : Z;
  rect_bottom : Z;
  rect_left : Z;
  rect_right : Z;
  rect_width : Z;
}.

Definition listHeight (P : LookupProps) (st : state) : Z :=
  let hasContent := (0 <? List.length (filteredItems st))%nat in
  Z.min (if hasContent then Z.of_nat (List.length (filteredItems st)) * rowHeight P
         else 0)
        (maxHeight P).

(** [Math.min(listHeight || maxHeight, maxHeight)]. *)
Definition estimatedHeight (P : LookupProps) (st : state) : Z :=
  Z.min (if listHeight P st =? 0 then maxHeight P else listHeight P st)
        (maxHeight P).

Definition estimatedWidth (P : LookupProps) (g : viewport) : Z :=
  match dropdownWidth P with
  | WidthAuto => rect_width g
  | WidthPx px => px
  | WidthUnset => rect_width g
  end.

Definition chooseAutoPosition
    (availableBottom availableTop availableRight availableLeft availableFromTop
     estimatedHeight estimatedWidth : Z) : DropdownPosition :=
  if availableBottom >=? estimatedHeight then Below
  else
    let canFitRight :=
      ((availableRight >=? estimatedWidth)
       && (availableFromTop >=? estimatedHeight))%bool in
    let canFitLeft :=
      ((availableLeft >=? estimatedWidth)
       && (availableFromTop >=? estimatedHeight))%bool in
    if (canFitRight && canFitLeft)%bool then
      if availableLeft >? availableRight then Left else Right
    else if canFitRight then Right
    else if canFitLeft then Left
    else if availableTop >=? estimatedHeight then Above
    else Below.

(** The placement the effect resolves for the measures [g]. *)
Definition resolvePosition (P : LookupProps) (st : state) (g : viewport)
  : DropdownPosition :=
  let availableBottom := innerHeight g - rect_bottom g in
  let availableTop := rect_top g in
  let availableRight := innerWidth g - rect_right g in
  let availableLeft := rect_left g in
  let availableFromTop := innerHeight g - rect_top g in
  match dropdownPosition P with
  | Auto =>
      chooseAutoPosition availableBottom availableTop availableRight
        availableLeft availableFromTop (estimatedHeight P st) (estimatedWidth P g)
  | fixed => fixed
  end.

(** The placement effect: it does nothing while the dropdown is closed. *)
Definition positionEffect (P : LookupProps) (g : viewport) (st : state) : state :=
  if isOpen st then setResolvedPosition (resolvePosition P st g) st else st.

(** *** Events *)

Inductive event : Type :=
| InputChange (value : string)
| InputFocus
| InputBlur
| KeyDown (key : string)
| MouseDownOutside
| InputBoxClick
| SingleValueClick
| RowMouseDown (index : nat)
| PillRemove (index : nat)
| ClearAllClick
| TimerFires (timer : nat)
| ProviderSettles (call : nat) (how : settlement)
| SelectedProp (selected : jsval)
| Layout (g : viewport).

(** The input element is in the page and takes events. *)
Definition inputLive (P : LookupProps) : bool :=
  match type P with
  | combobox => negb (disabled P)
  | dropdown => false
  end.

(** A handler that throws leaves the state as it was. *)
Definition settled (st : state) (r : outcome state) : state :=
  match r with
  | Ok st' => st'
  | Throw _ => st
  end.

(** One event.  An event on an element that is not on screen, the firing
    of a timeout that was cleared and the settling of a promise that has
    settled do not happen: they leave the state as it is. *)
Definition step (P : LookupProps) (st : state) (ev : event) : state :=
  match ev with
  | InputChange value =>
      if inputLive P then handleInputChange P value st else st
  | InputFocus => if inputLive P then handleFocus P st else st
  | InputBlur => if inputLive P then handleBlur P st else st
  | KeyDown key =>
      if inputLive P then settled st (handleKeyDown P key st) else st
  | MouseDownOutside => handleClickOutside P st
  | InputBoxClick => handleInputBoxClick P st
  | SingleValueClick =>
      if (negb (multipleSelect P)
          && (0 <? List.length (selectedArray st))%nat
          && (negb (isFocused st)
              || match type P with dropdown => true | combobox => false end))%bool
      then handleSingleValueClick st else st
  | RowMouseDown index =>
      if (listRendered st && (index <? List.length (filteredItems st))%nat)%bool
      then settled st (handleRowClick P index st) else st
  | PillRemove index =>
      if (multipleSelect P && negb (isFocused st)
          && (index <? List.length (selectedArray st))%nat)%bool
      then handleRemoveSelected P index st else st
  | ClearAllClick =>
      if (multipleSelect P && (0 <? List.length (selectedArray st))%nat)%bool
      then handleClearAll P st else st
  | TimerFires timer =>
      match timers st !! timer with
      | Some (Some value) =>
          executeCallback P value (set_timers (<[timer := None]> (timers st)) st)
      | _ => st
      end
  | ProviderSettles call how =>
      match requests st !! call with
      | Some r =>
          if pending r then
            resume P r how
              (set_requests
                 (<[call := {| searchText := searchText r;
                               signal := signal r;
                               pending := false |}]> (requests st)) st)
          else st
      | None => st
      end
  | SelectedProp selected => setDisplayedSelected selected st
  | Layout g => positionEffect P g st
  end.

(** A sequence of events, from the state [st]. *)
Definition run (P : LookupProps) (st : state) (evs : list event) : state :=
  List.fold_left (step P) evs st.

End Lookup.

(** ** The specification's vocabulary

    The notions the properties below are stated with, written from the
    words of the specification and not from the code. *)

Module Spec.

Import Lookup.

(** The ways the dropdown closes. *)
Inductive closing : Type := ByOutsideClick | ByBlur | ByEscape | ByTab.

(** The handler a way of closing runs. *)
Definition close (P : LookupProps) (c : closing) (st : state) : outcome state :=
  match c with
  | ByOutsideClick => Ok (handleClickOutside P st)
  | ByBlur => Ok (handleBlur P st)
  | ByEscape => handleKeyDown P "Escape" st
  | ByTab => handleKeyDown P "Tab" st
  end.

(** What the three closing handlers do to the two layers of the
    selection. *)
Definition merged (st st' : state) : Prop :=
  isOpen st' = false
  /\ (workingSelected st <> JNull ->
      displayedSelected st' = workingSelected st
      /\ workingSelected st' = JNull)
  /\ (workingSelected st = JNull ->
      displayedSelected st' = displayedSelected st
      /\ workingSelected st' = JNull).

(** Where ArrowDown and ArrowUp send the focus index, as the specification
    words it. *)
Definition arrowDown_target (focusIndex itemCount : Z) : Z :=
  Z.min (focusIndex + 1) (itemCount - 1).

Definition arrowUp_target (focusIndex : Z) : Z :=
  Z.max (focusIndex - 1) 0.

(** The estimated height as the specification words it. *)
Definition worded_estimatedHeight (count rowHeight maxHeight : Z) : Z :=
  Z.min (count * rowHeight) maxHeight.

(** The room around the trigger, and the size the dropdown is estimated to
    take. *)
Record room : Type := {
  spaceBelow : Z;
  spaceAbove : Z;
  spaceRight : Z;
  spaceLeft : Z;
  spaceFromTop : Z;
  height : Z;
  width : Z;
}.

Definition fitsBelow (r : room) : Prop := spaceBelow r >= height r.
Definition fitsAbove (r : room) : Prop := spaceAbove r >= height r.
Definition fitsRight (r : room) : Prop :=
  spaceRight r >= width r /\ spaceFromTop r >= height r.
Definition fitsLeft (r : room) : Prop :=
  spaceLeft r >= width r /\ spaceFromTop r >= height r.

(** The priority order of the ['auto'] placement. *)
Inductive auto_policy (r : room) : DropdownPosition -> Prop :=
| policy_below :
    fitsBelow r -> auto_policy r Below
| policy_right :
    ~ fitsBelow r -> fitsRight r ->
    (fitsLeft r -> ~ spaceLeft r > spaceRight r) ->
    auto_policy r Right
| policy_left :
    ~ fitsBelow r -> fitsLeft r ->
    (fitsRight r -> spaceLeft r > spaceRight r) ->
    auto_policy r Left
| policy_above :
    ~ fitsBelow r -> ~ fitsRight r -> ~ fitsLeft r -> fitsAbove r ->
    auto_policy r Above
| policy_fallback :
    ~ fitsBelow r -> ~ fitsRight r -> ~ fitsLeft r -> ~ fitsAbove r ->
    auto_policy r Below.

(** The room the placement effect measures. *)
Definition measured (g : viewport) (estimatedHeight estimatedWidth : Z) : room :=
  {| spaceBelow := innerHeight g - rect_bottom g;
     spaceAbove := rect_top g;
     spaceRight := innerWidth g - rect_right g;
     spaceLeft := rect_left g;
     spaceFromTop := innerHeight g - rect_top g;
     height := estimatedHeight;
     width := estimatedWidth |}.

(** A value [typeof] calls an object and that is not [null]: a record or an
    array. *)
Definition is_nonnull_object (v : jsval) : bool :=
  match v with
  | JObj _ | JArr _ => true
  | _ => false
  end.

Definition string_or_object (v : jsval) : bool :=
  (JS.is_string v || is_nonnull_object v)%bool.


(** The same with the condition on the first element only. *)
Definition first_element_checked (results : jsval) : bool :=
  match results with
  | JArr [] => true
  | JArr (first :: _) => string_or_object first
  | _ => false
  end.

(** The transition from [st] to [st'] called [onSelect] once, with [v]. *)
Definition passed (st st' : state) (v : jsval) : Prop :=
  notified st' = (notified st ++ [v])%list.


(** [shown] is what is left of [candidates] when exactly the items that
    satisfy [keep] are kept, in their order. *)
Inductive kept (keep : jsval -> Prop) : list jsval -> list jsval -> Prop :=
| kept_nil : kept keep [] []
| kept_in item candidates shown :
    keep item -> kept keep candidates shown ->
    kept keep (item :: candidates) (item :: shown)
| kept_out item candidates shown :
    ~ keep item -> kept keep candidates shown ->
    kept keep (item :: candidates) shown.





(** The identity of an item: a string is its own identity, a record has
    the value of its item key. *)
Definition identity (P : LookupProps) (item : jsval) : jsval :=
  if isStringType P then item
  else match item with
       | JObj fields => JS.own (JS.key_name (itemKey P)) fields
       | _ => JUndefined
       end.

(** [s] has the identity of [item]. *)
Definition same_item (P : LookupProps) (item s : jsval) : bool :=
  JS.strict_eq (identity P s) (identity P item).

(** A selection with [item] toggled: the entries with its identity are
    taken out if there are any, and the item is added at the end
    otherwise. *)
Definition toggled (P : LookupProps) (item : jsval) (selection : list jsval)
  : list jsval :=
  if List.existsb (same_item P item) selection
  then List.filter (fun s => negb (same_item P item s)) selection
  else (selection ++ [item])%list.


(** The value [v] of a layer of the selection holds the items [A]: it is
    the array of them, or it is [undefined] and there are none. *)
Definition holds (v : jsval) (A : list jsval) : Prop :=
  v = JArr A \/ (v = JUndefined /\ A = []).

(** The state [st] shows the list with the items [A] selected: the
    Tentative Selection or, when there is none, the Committed Selection
    holds them. *)
Definition active (st : state) (A : list jsval) : Prop :=
  holds (JS.nullish (workingSelected st) (displayedSelected st)) A.

End Spec.

(** ** Scenarios

    The widgets and sessions the properties are exercised on. *)

Module Scenario.

Import Lookup.

(** The two-item string combobox of the specification's scenarios,
    single-select. *)
Definition singleProps : LookupProps :=
  {| items := StaticItems [JStr "Alpha"; JStr "Beta"];
     onSelect := true; type := combobox; multipleSelect := false;
     itemKey := None; matchFields := None; rowHeight := 32;
     dropdownPosition := Below; maxHeight := 300; disabled := false;
     dropdownWidth := WidthUnset; debounceMs := None;
     minSearchLength := 0 |}.

(** The same, multi-select. *)
Definition multiProps : LookupProps :=
  {| items := StaticItems [JStr "Alpha"; JStr "Beta"];
     onSelect := true; type := combobox; multipleSelect := true;
     itemKey := None; matchFields := None; rowHeight := 32;
     dropdownPosition := Below; maxHeight := 300; disabled := false;
     dropdownWidth := WidthUnset; debounceMs := None;
     minSearchLength := 0 |}.

(** The same, with placement ['auto'] and a dropdown 140 pixels wide. *)
Definition autoProps : LookupProps :=
  {| items := StaticItems [JStr "Alpha"; JStr "Beta"];
     onSelect := true; type := combobox; multipleSelect := false;
     itemKey := None; matchFields := None; rowHeight := 32;
     dropdownPosition := Auto; maxHeight := 300; disabled := false;
     dropdownWidth := WidthPx 140; debounceMs := None;
     minSearchLength := 0 |}.

(** A combobox over an asynchronous provider, with placement ['auto']. *)
Definition asyncProps : LookupProps :=
  {| items := SourceCallback;
     onSelect := true; type := combobox; multipleSelect := false;
     itemKey := None; matchFields := None; rowHeight := 32;
     dropdownPosition := Auto; maxHeight := 300; disabled := false;
     dropdownWidth := WidthPx 140; debounceMs := None;
     minSearchLength := 0 |}.

(** A window 800 by 500 with the trigger near its bottom edge. *)
Definition nearBottom : viewport :=
  {| innerHeight := 500; innerWidth := 800;
     rect_top := 420; rect_bottom := 450;
     rect_left := 10; rect_right := 210; rect_width := 200 |}.

(** The session of the specification's scenario: focus, then a press on
    the row of "Beta". *)
Definition betaPicked : state :=
  run multiProps (initial multiProps JUndefined) [InputFocus; RowMouseDown 1%nat].

(** Two calls of the provider in flight: the first, for "a", superseded by
    the second, for "ab". *)
Definition twoCalls : list event :=
  [InputFocus; InputChange "a"; InputChange "ab"].

(** A first call has put "apple" on screen; a second call, for "ap", is
    superseded by a third, for "app". *)
Definition staleCall : list event :=
  [InputFocus; InputChange "a";
   ProviderSettles 0 (Fulfilled (JArr [JStr "apple"]));
   InputChange "ap"; InputChange "app"].

(** The fruit combobox of the demonstration page: records matched by name
    and colour. *)
Definition fruits : list jsval :=
  [JObj [("name", JStr "Apple"); ("color", JStr "Red")];
   JObj [("name", JStr "Banana"); ("color", JStr "Yellow")];
   JObj [("name", JStr "Fig"); ("color", JStr "Green")]].

Definition fruitProps : LookupProps :=
  {| items := StaticItems fruits;
     onSelect := true; type := combobox; multipleSelect := true;
     itemKey := Some "name"; matchFields := Some ["name"; "color"];
     rowHeight := 32; dropdownPosition := Below; maxHeight := 300;
     disabled := false; dropdownWidth := WidthUnset; debounceMs := None;
     minSearchLength := 0 |}.


(** The provider combobox with a debounce of 300 milliseconds and a
    minimum search length of 2. *)
Definition debounceProps : LookupProps :=
  {| items := SourceCallback;
     onSelect := true; type := combobox; multipleSelect := false;
     itemKey := None; matchFields := None; rowHeight := 32;
     dropdownPosition := Below; maxHeight := 300; disabled := false;
     dropdownWidth := WidthUnset; debounceMs := Some 300;
     minSearchLength := 2 |}.

(** The multi-select dropdown of the tests. *)
Definition dropdownMultiProps : LookupProps :=
  {| items := StaticItems [JStr "One"; JStr "Two"];
     onSelect := true; type := dropdown; multipleSelect := true;
     itemKey := None; matchFields := None; rowHeight := 32;
     dropdownPosition := Below; maxHeight := 300; disabled := false;
     dropdownWidth := WidthUnset; debounceMs := None;
     minSearchLength := 0 |}.

End Scenario.

(** ** What the component shows, and its teardown *)

Module LookupView.

Import Lookup.

(** The flags that decide which parts of the input box are rendered. *)
Definition shouldHideInput (P : LookupProps) (st : state) : bool :=
  ((multipleSelect P && (0 <? List.length (selectedArray st))%nat
    && negb (isFocused st))
   || (negb (multipleSelect P) && (0 <? List.length (selectedArray st))%nat
       && negb (isFocused st)))%bool.

Definition shouldShowSingleValue (P : LookupProps) (st : state) : bool :=
  (negb (multipleSelect P) && (0 <? List.length (selectedArray st))%nat
   && (negb (isFocused st)
       || match type P with dropdown => true | combobox => false end))%bool.

(** The [show] prop [LookupPills] is rendered with. *)
Definition showPills (P : LookupProps) (st : state) : bool :=
  (multipleSelect P && (0 <? List.length (selectedArray st))%nat
   && negb (isFocused st))%bool.

Definition shouldShowClearButton (P : LookupProps) (st : state) : bool :=
  (multipleSelect P && (0 <? List.length (selectedArray st))%nat)%bool.

Definition shouldShowError (st : state) : bool :=
  match error st with
  | Some message => negb (String.eqb message "")
  | None => false
  end.

(** The cleanup of the effect that runs when the component is unmounted:
    the current controller is aborted and the debounce timeout cleared. *)
Definition cleanup (st : state) : state :=
  let st :=
    match abortControllerRef st with
    | Some current => set_controllers (<[current := true]> (controllers st)) st
    | None => st
    end in
  match debounceTimeoutRef st with
  | Some t => set_timers (<[t := None]> (timers st)) st
  | None => st
  end.

End LookupView.

(** ** Invariants of the sessions *)

Module Invariant.

Import Lookup.

(** The states a widget goes through: what a sequence of events makes of
    the state after the first render. *)
Definition reachable (P : LookupProps) (st : state) : Prop :=
  exists selected evs, st = run P (initial P selected) evs.

(** Only the timeout the ref points to can be pending. *)
Definition one_timer (st : state) : Prop :=
  forall t value,
    timers st !! t = Some (Some value) -> debounceTimeoutRef st = Some t.

(** The ref points to a controller that exists, every other controller is
    aborted, and the signal of every call is one of the controllers. *)
Definition one_controller (st : state) : Prop :=
  (forall c, abortControllerRef st = Some c ->
             (c < List.length (controllers st))%nat)
  /\ (forall c, controllers st !! c = Some false ->
                abortControllerRef st = Some c)
  /\ (forall i r, requests st !! i = Some r ->
                  (signal r < List.length (controllers st))%nat).

(** The loading flag is set only while some call is pending. *)
Definition loading_has_call (st : state) : Prop :=
  isLoading st = true ->
  exists i r, requests st !! i = Some r /\ pending r = true.

(** The events that come from the asynchronous machinery rather than from
    the user or the host. *)
Definition is_async (ev : event) : bool :=
  match ev with
  | TimerFires _ | ProviderSettles _ _ => true
  | _ => false
  end.

(** The events whose handler can call [onSelect]. *)
Definition can_notify (ev : event) : bool :=
  match ev with
  | KeyDown _ | RowMouseDown _ | PillRemove _ | ClearAllClick => true
  | _ => false
  end.

(** The part of the state the asynchronous machinery lives in. *)
Definition machinery (st : state)
  : option nat * option nat * list bool * list (option string) * list request
    * bool * option string :=
  (debounceTimeoutRef st, abortControllerRef st, controllers st, timers st,
   requests st, isLoading st, error st).

(** The signals of two calls are two controllers. *)
Definition distinct_signals (st : state) : Prop :=
  forall i j ri rj,
    requests st !! i = Some ri -> requests st !! j = Some rj ->
    signal ri = signal rj -> i = j.

(** The two invariants of the calls of the provider. *)
Definition calls_ok (st : state) : Prop :=
  one_controller st /\ distinct_signals st.

(** The request [r] once its promise has settled. *)
Definition done (r : request) : request :=
  {| searchText := searchText r; signal := signal r; pending := false |}.

(** The timeouts once the one the ref points to is cleared. *)
Definition cleared (st : state) : list (option string) :=
  match debounceTimeoutRef st with
  | Some t => <[t := None]> (timers st)
  | None => timers st
  end.

(** The number of timeouts that are pending. *)
Definition pending_timers (st : state) : nat :=
  List.length (List.filter (fun t => match t with Some _ => true | None => false end)
                 (timers st)).

End Invariant.

(** * Properties *)

Import Lookup.
Import Scenario.

(** ** Values *)

Lemma strict_eq_null (v : jsval) : JS.strict_eq v JNull = true <-> v = JNull.
Proof. destruct v; simpl; split; intro H; try discriminate; reflexivity. Qed.

Lemma strict_eq_null_false (v : jsval) :
  JS.strict_eq v JNull = false <-> v <> JNull.
Proof.
  destruct v; simpl; split; intro H; try discriminate; try congruence; auto.
Qed.

(** ** Keyboard navigation *)

Lemma ArrowDown_target (focusIndex itemCount : Z) (listRef : bool) :
  KeyboardNavigation.called
    (KeyboardNavigation.handleKeyDown true focusIndex itemCount listRef "ArrowDown")
  = Some (KeyboardNavigation.onNavigate KeyboardNavigation.down
            (if focusIndex <? itemCount - 1 then focusIndex + 1 else focusIndex)).
Proof. reflexivity. Qed.

Lemma ArrowUp_target (focusIndex itemCount : Z) (listRef : bool) :
  KeyboardNavigation.called
    (KeyboardNavigation.handleKeyDown true focusIndex itemCount listRef "ArrowUp")
  = Some (KeyboardNavigation.onNavigate KeyboardNavigation.up
            (if focusIndex >? 0 then focusIndex - 1 else focusIndex)).
Proof. reflexivity. Qed.

(** C4, as the code has it.  While the dropdown is open, ArrowDown sends the
    focus index to [min (focusIndex + 1) (itemCount - 1)] when the index is
    at most [itemCount - 1] and leaves it where it is otherwise; ArrowUp
    sends it to [max (focusIndex - 1) 0] when the index is at least [0] and
    leaves it at [-1] ("none") otherwise.  Neither key wraps around: ArrowDown
    never lowers the index, ArrowUp never raises it, and from an index within
    [-1 .. itemCount - 1] both stay within it. *)
Theorem C4_arrows_clamp (focusIndex itemCount : Z) (listRef : bool) :
  let after_down :=
    if focusIndex <=? itemCount - 1
    then Spec.arrowDown_target focusIndex itemCount else focusIndex in
  let after_up :=
    if 0 <=? focusIndex then Spec.arrowUp_target focusIndex else focusIndex in
  KeyboardNavigation.called
    (KeyboardNavigation.handleKeyDown true focusIndex itemCount listRef "ArrowDown")
    = Some (KeyboardNavigation.onNavigate KeyboardNavigation.down after_down)
  /\ KeyboardNavigation.called
       (KeyboardNavigation.handleKeyDown true focusIndex itemCount listRef "ArrowUp")
     = Some (KeyboardNavigation.onNavigate KeyboardNavigation.up after_up)
  /\ focusIndex <= after_down <= focusIndex + 1
  /\ focusIndex - 1 <= after_up <= focusIndex
  /\ (-1 <= focusIndex <= itemCount - 1 ->
      -1 <= after_down <= itemCount - 1 /\ -1 <= after_up <= itemCount - 1).
Proof.
  cbv zeta. rewrite ArrowDown_target, ArrowUp_target.
  unfold Spec.arrowDown_target, Spec.arrowUp_target.
  destruct (Z.ltb_spec focusIndex (itemCount - 1));
    destruct (Z.leb_spec focusIndex (itemCount - 1));
    destruct (Z.gtb_spec focusIndex 0);
    destruct (Z.leb_spec 0 focusIndex);
    repeat split; try (do 2 f_equal; lia); lia.
Qed.

Lemma C4_arrows_clamp_witness :
  -1 <= 1 <= 3 - 1 /\ -1 <= 2 <= 3 - 1 /\ -1 <= 0 <= 3 - 1.
Proof.
  pose proof (C4_arrows_clamp 1 3 true) as H. cbv zeta in H.
  destruct H as (_ & _ & _ & _ & H).
  split; [lia|]. exact (H ltac:(lia)).
Defined.

(** C4 as worded fails: after the input takes focus the dropdown is open
    with no row focused ([-1]); ArrowUp leaves the index at [-1], where the
    formula [max (focusIndex - 1) 0] gives [0]. *)
Lemma C4_counterexample :
  let P := singleProps in
  let st := step P (initial P JUndefined) InputFocus in
  isOpen st = true
  /\ focusedIndex st = -1
  /\ focusedIndex (step P st (KeyDown "ArrowUp")) = -1
  /\ focusedIndex (step P st (KeyDown "ArrowUp"))
     <> Spec.arrowUp_target (focusedIndex st).
Proof. vm_compute. repeat split; congruence. Qed.

(** ** Placement *)

Section Placement.

Variables (P : LookupProps) (st : state) (g : viewport).

Let count : Z := Z.of_nat (List.length (filteredItems st)).

Lemma listHeight_min :
  listHeight P st = Z.min (count * rowHeight P) (maxHeight P).
Proof.
  unfold listHeight, count.
  destruct (filteredItems st) as [|x l]; simpl List.length; [reflexivity|].
  reflexivity.
Qed.

Lemma estimatedHeight_cases :
  estimatedHeight P st =
    if Spec.worded_estimatedHeight count (rowHeight P) (maxHeight P) =? 0
    then maxHeight P
    else Spec.worded_estimatedHeight count (rowHeight P) (maxHeight P).
Proof.
  unfold estimatedHeight, Spec.worded_estimatedHeight.
  rewrite listHeight_min.
  destruct (Z.eqb_spec (Z.min (count * rowHeight P) (maxHeight P)) 0); lia.
Qed.

Lemma chooseAutoPosition_policy (r : Spec.room) (pos : DropdownPosition) :
  chooseAutoPosition (Spec.spaceBelow r) (Spec.spaceAbove r) (Spec.spaceRight r)
    (Spec.spaceLeft r) (Spec.spaceFromTop r) (Spec.height r) (Spec.width r) = pos
  <-> Spec.auto_policy r pos.
Proof.
  unfold chooseAutoPosition. split.
  - intros <-.
    destruct (Z.geb_spec (Spec.spaceBelow r) (Spec.height r));
      [constructor; unfold Spec.fitsBelow; lia|].
    destruct (Z.geb_spec (Spec.spaceRight r) (Spec.width r));
      destruct (Z.geb_spec (Spec.spaceFromTop r) (Spec.height r));
      destruct (Z.geb_spec (Spec.spaceLeft r) (Spec.width r));
      destruct (Z.gtb_spec (Spec.spaceLeft r) (Spec.spaceRight r));
      destruct (Z.geb_spec (Spec.spaceAbove r) (Spec.height r));
      simpl;
      constructor; unfold Spec.fitsBelow, Spec.fitsRight, Spec.fitsLeft,
        Spec.fitsAbove; lia.
  - intros H.
    destruct H; unfold Spec.fitsBelow, Spec.fitsRight, Spec.fitsLeft,
      Spec.fitsAbove in *;
      destruct (Z.geb_spec (Spec.spaceBelow r) (Spec.height r));
      destruct (Z.geb_spec (Spec.spaceRight r) (Spec.width r));
      destruct (Z.geb_spec (Spec.spaceFromTop r) (Spec.height r));
      destruct (Z.geb_spec (Spec.spaceLeft r) (Spec.width r));
      destruct (Z.gtb_spec (Spec.spaceLeft r) (Spec.spaceRight r));
      destruct (Z.geb_spec (Spec.spaceAbove r) (Spec.height r));
      simpl; try reflexivity; exfalso; lia.
Qed.

(** C8, as the code has it.  The estimated height is
    [min (count * rowHeight) maxHeight], except that the configured maximum is
    taken instead when that minimum is zero (an empty candidate set).  With
    placement ['auto'] the resolved placement is the one the priority order
    gives for the measured room and that height: below if it fits below;
    else right or left if it fits there, the left only with strictly more
    room when both fit; else above if it fits there; else below.  A fixed
    placement is resolved to itself, and an open dropdown takes the resolved
    placement. *)
Theorem C8_placement :
  estimatedHeight P st =
    (if Spec.worded_estimatedHeight count (rowHeight P) (maxHeight P) =? 0
     then maxHeight P
     else Spec.worded_estimatedHeight count (rowHeight P) (maxHeight P))
  /\ (dropdownPosition P = Auto ->
      forall pos,
        resolvePosition P st g = pos
        <-> Spec.auto_policy
              (Spec.measured g (estimatedHeight P st) (estimatedWidth P g)) pos)
  /\ (dropdownPosition P <> Auto -> resolvePosition P st g = dropdownPosition P)
  /\ (isOpen st = true ->
      resolvedPosition (positionEffect P g st) = resolvePosition P st g).
Proof.
  split; [apply estimatedHeight_cases|].
  split; [|split].
  - intros HA pos. unfold resolvePosition. rewrite HA.
    apply (chooseAutoPosition_policy
             (Spec.measured g (estimatedHeight P st) (estimatedWidth P g))).
  - intros HA. unfold resolvePosition.
    destruct (dropdownPosition P); congruence.
  - intros HO. unfold positionEffect. rewrite HO. reflexivity.
Qed.

End Placement.

Lemma C8_placement_witness :
  resolvePosition autoProps (step autoProps (initial autoProps JUndefined) InputFocus)
    nearBottom = Right
  /\ resolvedPosition
       (positionEffect autoProps nearBottom
          (step autoProps (initial autoProps JUndefined) InputFocus)) = Right.
Proof.
  pose proof (C8_placement autoProps
                (step autoProps (initial autoProps JUndefined) InputFocus)
                nearBottom) as (_ & HA & _ & HO).
  specialize (HA eq_refl Right). specialize (HO eq_refl).
  split.
  - apply HA. apply Spec.policy_right; vm_compute; intuition discriminate.
  - rewrite HO. apply HA.
    apply Spec.policy_right; vm_compute; intuition discriminate.
Defined.

(** C8 as worded fails on an empty candidate set: the worded height is [0],
    which fits below any trigger, but the code estimates the configured
    maximum (300), which here fits only above. *)
Lemma C8_counterexample :
  let P := asyncProps in
  let st := step P (initial P JUndefined) InputFocus in
  isOpen st = true
  /\ filteredItems st = []
  /\ Spec.worded_estimatedHeight 0 (rowHeight P) (maxHeight P) = 0
  /\ estimatedHeight P st = 300
  /\ Spec.auto_policy
       (Spec.measured nearBottom
          (Spec.worded_estimatedHeight 0 (rowHeight P) (maxHeight P))
          (estimatedWidth P nearBottom)) Below
  /\ resolvePosition P st nearBottom = Above
  /\ ~ Spec.auto_policy
         (Spec.measured nearBottom
            (Spec.worded_estimatedHeight 0 (rowHeight P) (maxHeight P))
            (estimatedWidth P nearBottom))
         (resolvePosition P st nearBottom).
Proof.
  cbv zeta. repeat split; try (vm_compute; reflexivity).
  - apply Spec.policy_below. vm_compute. discriminate.
  - intros H.
    assert (HB : Spec.fitsBelow
                   (Spec.measured nearBottom
                      (Spec.worded_estimatedHeight 0 32 300) 140))
      by (vm_compute; discriminate).
    inversion H; contradiction.
Qed.

(** ** Closing the dropdown *)

Section Closing.

Variable P : LookupProps.

Ltac merge_cases st :=
  destruct (JS.strict_eq (workingSelected st) JNull) eqn:E; simpl;
  [apply strict_eq_null in E | apply strict_eq_null_false in E];
  repeat split; intros; simpl; congruence.

Lemma handleClickOutside_merges (st : state) :
  multipleSelect P = true -> Spec.merged st (handleClickOutside P st).
Proof.
  intros HM. unfold Spec.merged, handleClickOutside. rewrite HM. simpl.
  merge_cases st.
Qed.

Lemma handleBlur_merges (st : state) :
  multipleSelect P = true -> Spec.merged st (handleBlur P st).
Proof.
  intros HM. unfold Spec.merged, handleBlur. rewrite HM. simpl.
  merge_cases st.
Qed.

Lemma handleKeyboardClose_merges (st : state) :
  multipleSelect P = true -> Spec.merged st (handleKeyboardClose P st).
Proof.
  intros HM. unfold Spec.merged, handleKeyboardClose. rewrite HM. simpl.
  merge_cases st.
Qed.

Lemma Escape_closes (st : state) :
  isOpen st = true -> handleKeyDown P "Escape" st = Ok (handleKeyboardClose P st).
Proof.
  intros HO. unfold handleKeyDown, KeyboardNavigation.handleKeyDown.
  rewrite HO. reflexivity.
Qed.

Lemma Tab_closes (st : state) :
  isOpen st = true -> handleKeyDown P "Tab" st = Ok (handleKeyboardClose P st).
Proof.
  intros HO. unfold handleKeyDown, KeyboardNavigation.handleKeyDown.
  rewrite HO. reflexivity.
Qed.

(** Every way of closing runs the same merge of the two layers. *)
Lemma close_merges (st : state) (c : Spec.closing) :
  multipleSelect P = true ->
  isOpen st = true ->
  exists st',
    Spec.close P c st = Ok st'
    /\ isOpen st' = false
    /\ (workingSelected st <> JNull ->
        displayedSelected st' = workingSelected st
        /\ workingSelected st' = JNull)
    /\ (workingSelected st = JNull ->
        displayedSelected st' = displayedSelected st
        /\ workingSelected st' = JNull).
Proof.
  intros HM HO. destruct c; simpl.
  - eexists; split; [reflexivity|]. now apply handleClickOutside_merges.
  - eexists; split; [reflexivity|]. now apply handleBlur_merges.
  - rewrite Escape_closes by assumption.
    eexists; split; [reflexivity|]. now apply handleKeyboardClose_merges.
  - rewrite Tab_closes by assumption.
    eexists; split; [reflexivity|]. now apply handleKeyboardClose_merges.
Qed.

(** C1.  In multi-select mode, closing an open dropdown by an outside
    click, a blur, Escape or Tab closes it; when the Tentative Selection is
    not [null] the Committed Selection becomes the Tentative Selection and
    the Tentative Selection becomes [null]; when it is [null] the Committed
    Selection is left as it is. *)
Theorem C1_close_merges (st : state) (c : Spec.closing) :
  multipleSelect P = true ->
  isOpen st = true ->
  exists st',
    Spec.close P c st = Ok st'
    /\ isOpen st' = false
    /\ (workingSelected st <> JNull ->
        displayedSelected st' = workingSelected st
        /\ workingSelected st' = JNull)
    /\ (workingSelected st = JNull ->
        displayedSelected st' = displayedSelected st
        /\ workingSelected st' = JNull).
Proof. exact (close_merges st c). Qed.

End Closing.

Lemma C1_close_merges_witness :
  exists st',
    Spec.close multiProps Spec.ByOutsideClick betaPicked = Ok st'
    /\ isOpen st' = false
    /\ displayedSelected st' = JArr [JStr "Beta"]
    /\ workingSelected st' = JNull.
Proof.
  destruct (C1_close_merges multiProps betaPicked Spec.ByOutsideClick
              eq_refl eq_refl) as (st' & Hc & Ho & Hm & _).
  exists st'. split; [exact Hc|]. split; [exact Ho|].
  apply Hm. vm_compute. discriminate.
Defined.

(** ** The asynchronous provider *)

Section Provider.

Variable P : LookupProps.

Lemma resume_stops_loading (r : request) (how : settlement) (st : state) :
  isLoading (resume P r how st) = false.
Proof. reflexivity. Qed.

Lemma catchBlock_requests (e : thrown) (st : state) :
  requests (catchBlock e st) = requests st.
Proof.
  destruct e as [name message|v]; simpl; [|reflexivity].
  destruct (String.eqb name "AbortError"); reflexivity.
Qed.

Lemma resume_requests (r : request) (how : settlement) (st : state) :
  requests (resume P r how st) = requests st.
Proof.
  unfold resume. simpl. destruct how as [results|e].
  - destruct (aborted st (signal r)); [reflexivity|].
    destruct (validateResults results) as [elems|e]; simpl;
      [|apply catchBlock_requests].
    destruct (FilteredItems.filterItems _ _ _ _ _) as [shown|e]; simpl;
      [|apply catchBlock_requests].
    destruct (0 <? List.length elems)%nat; reflexivity.
  - apply catchBlock_requests.
Qed.

(** A fulfilment that arrives for a superseded call changes nothing but the
    loading flag. *)
Lemma superseded_fulfilment_discarded (r : request) (results : jsval) (st : state) :
  aborted st (signal r) = true ->
  resume P r (Fulfilled results) st = setIsLoading false st.
Proof. intros H. unfold resume. rewrite H. reflexivity. Qed.

(** A rejection is handled the same whether or not its call was
    superseded: unless the reason is an [Error] named [AbortError], its
    message is shown and the candidate set is emptied. *)
Lemma rejection_surfaces (r : request) (name message : string) (st : state) :
  String.eqb name "AbortError" = false ->
  error (resume P r (Rejected (ErrorObj name message)) st) = Some message
  /\ filteredItems (resume P r (Rejected (ErrorObj name message)) st) = [].
Proof. intros H. unfold resume, catchBlock. rewrite H. split; reflexivity. Qed.

(** Issuing a call aborts the controller that was current. *)
Lemma executeCallback_aborts (value : string) (st : state) (c : nat) :
  abortControllerRef st = Some c ->
  (c < List.length (controllers st))%nat ->
  aborted (executeCallback P value st) c = true.
Proof.
  intros Hc Hlt. unfold executeCallback. rewrite Hc. simpl.
  assert (Hlook : (<[c := true]> (controllers st) ++ [false])%list !! c = Some true).
  { rewrite lookup_app_l by (rewrite length_insert; exact Hlt).
    apply list_lookup_insert_eq. exact Hlt. }
  destruct (_ <? _); unfold aborted; simpl; rewrite Hlook; reflexivity.
Qed.

(** C10.  Let a call A be the one in flight, let a call B be issued, and
    let A's promise settle, in any way, before B's.  Issuing B aborts A's
    controller and sets the loading flag; A's completion then clears the
    loading flag although B is still pending. *)
Theorem C10_superseded_call_clears_loading
    (st : state) (a : nat) (A : request) (valueB : string) (how : settlement) :
  requests st !! a = Some A ->
  pending A = true ->
  abortControllerRef st = Some (signal A) ->
  (signal A < List.length (controllers st))%nat ->
  minSearchLength P <= Z.of_nat (String.length valueB) ->
  let B := {| searchText := valueB;
              signal := List.length (controllers st);
              pending := true |} in
  let b := List.length (requests st) in
  let issued := executeCallback P valueB st in
  let settled := step P issued (ProviderSettles a how) in
  aborted issued (signal A) = true
  /\ isLoading issued = true
  /\ requests issued !! b = Some B
  /\ isLoading settled = false
  /\ requests settled !! b = Some B.
Proof.
  intros Ha Hp Hc Hlt Hmin B b issued settled.
  assert (Hab : aborted issued (signal A) = true)
    by (apply executeCallback_aborts; assumption).
  assert (Hlen : (a < List.length (requests st))%nat)
    by (eapply lookup_lt_Some; exact Ha).
  assert (Hreq : requests issued = (requests st ++ [B])%list).
  { unfold issued, executeCallback. rewrite Hc. simpl.
    destruct (Z.ltb_spec (Z.of_nat (String.length valueB)) (minSearchLength P));
      [lia|]. simpl. rewrite length_insert. reflexivity. }
  assert (Hload : isLoading issued = true).
  { unfold issued, executeCallback. rewrite Hc. simpl.
    destruct (Z.ltb_spec (Z.of_nat (String.length valueB)) (minSearchLength P));
      [lia|]. reflexivity. }
  assert (HB : requests issued !! b = Some B).
  { rewrite Hreq. unfold b. apply list_lookup_middle. reflexivity. }
  repeat split; try assumption.
  - unfold settled, step.
    rewrite Hreq, lookup_app_l, Ha, Hp by exact Hlen.
    apply resume_stops_loading.
  - unfold settled, step.
    rewrite Hreq, lookup_app_l, Ha, Hp by exact Hlen.
    rewrite resume_requests. simpl.
    rewrite list_lookup_insert_ne by (unfold b; lia).
    unfold b. apply list_lookup_middle. reflexivity.
Qed.

End Provider.

Lemma C10_superseded_call_clears_loading_witness :
  let st := run asyncProps (initial asyncProps JUndefined)
              [InputFocus; InputChange "a"] in
  let issued := executeCallback asyncProps "ab" st in
  isLoading issued = true
  /\ isLoading
       (step asyncProps issued
          (ProviderSettles 0 (Fulfilled (JArr [JStr "abacus"])))) = false
  /\ requests
       (step asyncProps issued
          (ProviderSettles 0 (Fulfilled (JArr [JStr "abacus"])))) !! 1%nat
     = Some {| searchText := "ab"; signal := 1; pending := true |}.
Proof.
  pose proof (C10_superseded_call_clears_loading asyncProps
                (run asyncProps (initial asyncProps JUndefined)
                   [InputFocus; InputChange "a"])
                0 {| searchText := "a"; signal := 0; pending := true |}
                "ab" (Fulfilled (JArr [JStr "abacus"]))
                eq_refl eq_refl eq_refl ltac:(vm_compute; lia)
                ltac:(vm_compute; discriminate)) as H.
  cbv zeta in H. destruct H as (_ & H1 & _ & H2 & H3).
  cbv zeta. split; [exact H1|]. split; [exact H2|exact H3].
Defined.

(** C2 fails on the code.  A second call, for "ap", is superseded by a third
    and then rejects with an ordinary error: the error is shown and the
    candidate set that was on screen is emptied, although the call had been
    aborted. *)
Theorem C2_superseded_rejection_is_surfaced :
  let before := run asyncProps (initial asyncProps JUndefined) staleCall in
  let after :=
    step asyncProps before
      (ProviderSettles 1 (Rejected (ErrorObj "Error" "boom"))) in
  requests before !! 1%nat
    = Some {| searchText := "ap"; signal := 1; pending := true |}
  /\ aborted before 1 = true
  /\ error before = None
  /\ filteredItems before = [JStr "apple"]
  /\ error after = Some "boom"
  /\ filteredItems after = [].
Proof. vm_compute. repeat split; reflexivity. Qed.

(** ** Validation of what the provider resolves with *)

Section Validation.

Variable P : LookupProps.

Lemma validateResults_accepts (results : jsval) :
  Spec.first_element_checked results = true ->
  exists elems, results = JArr elems /\ validateResults results = Ok elems.
Proof.
  destruct results as [| | | | |fields|elems]; try discriminate.
  destruct elems as [|first rest]; intros H; [eexists; split; reflexivity|].
  exists (first :: rest). split; [reflexivity|].
  destruct first; try discriminate; reflexivity.
Qed.



End Validation.



(** ** The shape of the items *)




(** ** What the host is notified with *)

Section Notification.

Variable P : LookupProps.
Hypothesis host_listens : onSelect P = true.

Lemma notify_passed (v : jsval) (st : state) : Spec.passed st (notify P v st) v.
Proof. unfold Spec.passed, notify. rewrite host_listens. reflexivity. Qed.







End Notification.



(** ** Filtering *)

Lemma prefix_app (n h : string) :
  String.prefix n h = true <-> exists post, h = n ++ post.
Proof.
  revert h. induction n as [|c n IH]; intros h.
  - split; [intros _; exists h; reflexivity|destruct h; reflexivity].
  - destruct h as [|d h]; simpl;
      [split; [discriminate|intros (post & [=])]|].
    destruct (Ascii.ascii_dec c d) as [<-|Hne].
    + rewrite IH. split; intros (post & Hp); exists post.
      * now rewrite Hp.
      * now injection Hp.
    + split; [discriminate|]. intros (post & [= Hcd _]). congruence.
Qed.

Lemma includes_app (h n : string) :
  Str.includes h n = true <-> exists pre post, h = pre ++ n ++ post.
Proof.
  induction h as [|c h IH]; cbn [Str.includes].
  - rewrite orb_false_r, prefix_app. split.
    + intros (post & Hp). exists "", post. exact Hp.
    + intros (pre & post & Hp). destruct pre; [|discriminate].
      exists post. exact Hp.
  - rewrite orb_true_iff, prefix_app, IH. split.
    + intros [(post & Hp)|(pre & post & Hp)].
      * exists "", post. exact Hp.
      * exists (String c pre), post. simpl. now rewrite Hp.
    + intros (pre & post & Hp). destruct pre as [|d pre].
      * left. exists post. exact Hp.
      * right. simpl in Hp. injection Hp as _ Hp. exists pre, post. exact Hp.
Qed.



Lemma eq_ignoring_case_lower (m q : string) :
  Str.eq_ignoring_case m q <-> Str.toLowerCase m = Str.toLowerCase q.
Proof.
  split.
  - induction 1 as [|a b s t Hab _ IH]; simpl; [reflexivity|].
    unfold Str.same_letter in Hab. congruence.
  - revert q. induction m as [|a m IH]; intros [|b q]; simpl; try discriminate.
    + constructor.
    + intros [= Hab Hmq]. constructor; [exact Hab|apply IH; exact Hmq].
Qed.





(** A test that does not throw filters like a boolean test. *)
Lemma filter_total {A} (p : A -> outcome bool) (f : A -> bool) (l : list A) :
  (forall x, In x l -> p x = Ok (f x)) ->
  JS.filter p l = Ok (List.filter f l).
Proof.
  induction l as [|x l IH]; intros H; [reflexivity|].
  cbn [JS.filter List.filter].
  rewrite (H x (or_introl eq_refl)). cbn [bind].
  rewrite IH by (intros y Hy; apply H; right; exact Hy). cbn [bind].
  destruct (f x); reflexivity.
Qed.

Lemma some_total {A} (p : A -> outcome bool) (f : A -> bool) (l : list A) :
  (forall x, In x l -> p x = Ok (f x)) ->
  JS.some p l = Ok (List.existsb f l).
Proof.
  induction l as [|x l IH]; intros H; [reflexivity|].
  cbn [JS.some List.existsb].
  rewrite (H x (or_introl eq_refl)). cbn [bind].
  destruct (f x); [reflexivity|].
  apply IH. intros y Hy. apply H. right. exact Hy.
Qed.


(** What is kept is a part of the candidates, in their order, and holds
    exactly the candidates that satisfy the test. *)
Lemma kept_In (keep : jsval -> Prop) (l shown : list jsval) :
  Spec.kept keep l shown ->
  forall x, In x shown <-> In x l /\ keep x.
Proof.
  induction 1 as [|item l shown Hk _ IH|item l shown Hk _ IH]; intros x.
  - simpl. tauto.
  - simpl. rewrite IH. split; [intros [<-|[? ?]]; auto|].
    intros [[<-|?] ?]; auto.
  - simpl. rewrite IH. split; [tauto|]. intros [[<-|?] ?]; tauto.
Qed.

Section Filtering.

Variables (P : LookupProps) (query : string).

Let searchLower : string := Str.toLowerCase query.
Let candidates : list jsval := baseItems P.
Let filterItems (q : string) : outcome (list jsval) :=
  FilteredItems.filterItems (isStringType P) (matchFields P) (type P) q candidates.



(** The test [filterItems] applies to a record. *)
Let record_test (fields : list (string * jsval)) : bool :=
  match matchFields P with
  | Some (f :: fs) =>
      List.existsb
        (fun field =>
           Str.includes (Str.toLowerCase (JS.ToString (JS.own field fields)))
             searchLower)
        (f :: fs)
  | _ =>
      List.existsb
        (fun value => Str.includes (Str.toLowerCase (JS.ToString value)) searchLower)
        (JS.own_values fields)
  end.



End Filtering.


Example filterItems_strings :
  FilteredItems.filterItems true None combobox "AL"
    [JStr "Alpha"; JStr "Beta"; JStr "metal"]
  = Ok [JStr "Alpha"; JStr "metal"].
Proof. reflexivity. Qed.

Example filterItems_records :
  FilteredItems.filterItems (isStringType fruitProps) (matchFields fruitProps)
    combobox "re" fruits
  = Ok [JObj [("name", JStr "Apple"); ("color", JStr "Red")];
        JObj [("name", JStr "Fig"); ("color", JStr "Green")]].
Proof. reflexivity. Qed.

(** ** Toggling *)

Lemma strict_eq_refl : forall v : jsval, JS.strict_eq v v = true.
Proof.
  fix IH 1. intros [| |b|n|s|fields|elems]; simpl; try reflexivity.
  - destruct b; reflexivity.
  - apply Z.eqb_refl.
  - apply String.eqb_refl.
  - induction fields as [|[k v] rest IHf]; [reflexivity|].
    rewrite String.eqb_refl, IH, IHf. reflexivity.
  - induction elems as [|x rest IHe]; [reflexivity|].
    rewrite IH, IHe. reflexivity.
Qed.

Lemma find_records (p : jsval -> outcome bool) (f : jsval -> bool) (A : list jsval) :
  (forall x, In x A -> p x = Ok (f x)) ->
  Forall (fun item => JS.is_record item = true) A ->
  exists found,
    JS.find p A = Ok found /\ JS.ToBoolean found = List.existsb f A.
Proof.
  induction A as [|x A IH]; intros Hp Hall.
  - exists JUndefined. split; reflexivity.
  - cbn [JS.find List.existsb]. rewrite (Hp x (or_introl eq_refl)). cbn [bind].
    inversion Hall as [|? ? Hx Hrest]; subst.
    destruct (f x).
    + exists x. split; [reflexivity|]. destruct x; try discriminate. reflexivity.
    + apply IH; [|exact Hrest]. intros y Hy. apply Hp. right. exact Hy.
Qed.

(** A press on a row of a multi-select list of strings. *)
Lemma handleClick_strings (items A : list jsval) (index : nat) (item : jsval) :
  Forall (fun item => JS.is_string item = true) items ->
  Forall (fun item => JS.is_string item = true) A ->
  items !! index = Some item ->
  VirtualizedList.handleClick
    {| VirtualizedList.items := items;
       VirtualizedList.selected := JArr A;
       VirtualizedList.multipleSelect := true;
       VirtualizedList.itemKey := None |} index
  = Ok (JArr (if List.existsb (fun s => JS.strict_eq s item) A
              then List.filter (fun s => negb (JS.strict_eq s item)) A
              else (A ++ [item])%list)).
Proof.
  intros Hitems HA Hlook.
  unfold VirtualizedList.handleClick, VirtualizedList.isSelected,
    VirtualizedList.itemValue, VirtualizedList.isStringList,
    VirtualizedList.selectedIsString, VirtualizedList.selectedItems.
  cbn [VirtualizedList.items VirtualizedList.selected
       VirtualizedList.multipleSelect VirtualizedList.itemKey].
  rewrite (nth_lookup_Some _ _ JUndefined _ Hlook).
  destruct items as [|first rest]; [discriminate|].
  inversion Hitems as [|? ? Hfirst _]; subst.
  destruct first; try discriminate.
  cbn [JS.typeof String.eqb Ascii.eqb Bool.eqb andb bind].
  destruct A as [|a A'].
  - reflexivity.
  - inversion HA as [|? ? Ha _]; subst.
    destruct a as [| | | |sa| |]; try discriminate.
    cbn [JS.typeof String.eqb Ascii.eqb Bool.eqb andb orb bind].
    destruct (List.existsb (fun s => JS.strict_eq s item) (JStr sa :: A')) eqn:Hsel.
    + rewrite (filter_total _ (fun s => negb (JS.strict_eq s item)))
        by (intros; reflexivity).
      reflexivity.
    + reflexivity.
Qed.

(** A press on a row of a multi-select list of records. *)
Lemma handleClick_records (key : option string) (items A : list jsval)
    (index : nat) (fields : list (string * jsval)) :
  Forall (fun item => JS.is_record item = true) items ->
  Forall (fun item => JS.is_record item = true) A ->
  items !! index = Some (JObj fields) ->
  let same := fun s =>
    JS.strict_eq
      match s with
      | JObj f => JS.own (JS.key_name key) f
      | _ => JUndefined
      end
      (JS.own (JS.key_name key) fields) in
  VirtualizedList.handleClick
    {| VirtualizedList.items := items;
       VirtualizedList.selected := JArr A;
       VirtualizedList.multipleSelect := true;
       VirtualizedList.itemKey := key |} index
  = Ok (JArr (if List.existsb same A
              then List.filter (fun s => negb (same s)) A
              else (A ++ [JObj fields])%list)).
Proof.
  intros Hitems HA Hlook same.
  unfold VirtualizedList.handleClick, VirtualizedList.isSelected,
    VirtualizedList.itemValue, VirtualizedList.isStringList,
    VirtualizedList.selectedIsString, VirtualizedList.selectedItems.
  cbn [VirtualizedList.items VirtualizedList.selected
       VirtualizedList.multipleSelect VirtualizedList.itemKey].
  rewrite (nth_lookup_Some _ _ JUndefined _ Hlook).
  destruct items as [|first rest]; [discriminate|].
  inversion Hitems as [|? ? Hfirst _]; subst.
  destruct first; try discriminate.
  cbn [JS.typeof String.eqb Ascii.eqb Bool.eqb andb JS.get bind].
  assert (Hsame : forall x, In x A ->
            (let* k := JS.get x (JS.key_name key) in
             Ok (JS.strict_eq k (JS.own (JS.key_name key) fields)))
            = Ok (same x)).
  { intros x Hx. rewrite List.Forall_forall in HA. specialize (HA x Hx).
    destruct x; try discriminate. reflexivity. }
  assert (Hstr : match A with
                 | [] => false
                 | first :: _ => String.eqb (JS.typeof first) "string"
                 end = false).
  { destruct A as [|a A']; [reflexivity|].
    inversion HA as [|? ? Ha _]; subst. destruct a; try discriminate.
    reflexivity. }
  cbn [orb]. rewrite Hstr.
  destruct (find_records _ same A Hsame HA) as (found & Hfound & Htruthy).
  rewrite Hfound. cbn [bind]. rewrite Htruthy.
  destruct (List.existsb same A).
  - rewrite (filter_total _ (fun s => negb (same s))).
    + reflexivity.
    + intros x Hx. rewrite List.Forall_forall in HA. specialize (HA x Hx).
      destruct x; try discriminate. reflexivity.
  - reflexivity.
Qed.

Section Toggling.

Variable P : LookupProps.
Hypothesis multi : multipleSelect P = true.
















End Toggling.



(** * Further properties of the code *)

Import LookupView.
Import Invariant.

(** ** What the handlers leave alone *)

Lemma handleKeyboardSelect_cases (P : LookupProps) (index : Z) (st st' : state) :
  handleKeyboardSelect P index st = Ok st' ->
  st' = st \/ exists v, st' = handleSelectItem P v st.
Proof.
  unfold handleKeyboardSelect.
  destruct (_ && _)%bool; [|intros [= <-]; left; reflexivity].
  destruct (multipleSelect P); [|intros [= <-]; right; eauto].
  destruct (if isStringType P then _ else _) as [itemValue|]; simpl;
    [|discriminate].
  destruct (JS.some _ _) as [already|]; simpl; [|discriminate].
  destruct (if already then _ else _) as [newSelected|]; simpl; [|discriminate].
  intros [= <-]. right. eauto.
Qed.

Lemma handleRowClick_cases (P : LookupProps) (index : nat) (st st' : state) :
  handleRowClick P index st = Ok st' ->
  exists v, st' = handleSelectItem P v st.
Proof.
  unfold handleRowClick.
  destruct (VirtualizedList.handleClick _ _) as [v|]; simpl; [|discriminate].
  intros [= <-]. eauto.
Qed.

(** What a key press can do to the state. *)
Lemma handleKeyDown_cases (P : LookupProps) (key : string) (st st' : state) :
  handleKeyDown P key st = Ok st' ->
  st' = st
  \/ st' = setFocusedIndex 0 (setIsOpen true st)
  \/ st' = handleKeyboardClose P st
  \/ (exists v, st' = handleSelectItem P v st)
  \/ (exists d newIndex,
         KeyboardNavigation.called
           (KeyboardNavigation.handleKeyDown (isOpen st) (focusedIndex st)
              (Z.of_nat (List.length (filteredItems st))) (listRendered st) key)
         = Some (KeyboardNavigation.onNavigate d newIndex)
         /\ st' = handleNavigate newIndex st).
Proof.
  unfold handleKeyDown.
  destruct (KeyboardNavigation.called _) as [[| |index|d newIndex]|] eqn:Hc.
  - intros [= <-]. auto.
  - intros [= <-]. auto.
  - intros H. apply handleKeyboardSelect_cases in H as [->|H]; [auto|].
    do 3 right. left. exact H.
  - intros [= <-]. do 4 right. eauto.
  - intros [= <-]. auto.
Qed.

Lemma handleSelectItem_machinery (P : LookupProps) (v : jsval) (st : state) :
  machinery (handleSelectItem P v st) = machinery st.
Proof.
  unfold handleSelectItem, notify.
  destruct (multipleSelect P), (onSelect P); reflexivity.
Qed.

Lemma handleKeyboardClose_machinery (P : LookupProps) (st : state) :
  machinery (handleKeyboardClose P st) = machinery st.
Proof. unfold handleKeyboardClose. destruct (_ && _)%bool; reflexivity. Qed.

(** An event of the user other than typing and taking the focus, and an
    update of the [selected] prop or of the layout, leave the timers, the
    controllers, the calls, the loading flag and the error as they are. *)
Lemma step_machinery (P : LookupProps) (st : state) (ev : event) :
  is_async ev = false ->
  (forall value, ev <> InputChange value) ->
  ev <> InputFocus ->
  machinery (step P st ev) = machinery st.
Proof.
  intros Hasync Hchange Hfocus.
  destruct ev as [value| | |key| | | |index|index| |timer|call how|selected|g];
    try discriminate; try congruence; cbn [step].
  - destruct (inputLive P); [|reflexivity].
    unfold handleBlur. destruct (_ && _)%bool; reflexivity.
  - destruct (inputLive P); [|reflexivity].
    destruct (handleKeyDown P key st) as [st'|] eqn:Hk; [|reflexivity].
    cbn [settled].
    apply handleKeyDown_cases in Hk
      as [->|[->|[->|[(v & ->)|(d & newIndex & _ & ->)]]]];
      try reflexivity.
    + apply handleKeyboardClose_machinery.
    + apply handleSelectItem_machinery.
  - unfold handleClickOutside. destruct (_ && _)%bool; reflexivity.
  - unfold handleInputBoxClick.
    destruct (disabled P); [reflexivity|].
    destruct (type P); [reflexivity|].
    destruct (multipleSelect P), (_ && _)%bool; reflexivity.
  - destruct (_ && _)%bool; [|reflexivity].
    unfold handleSingleValueClick. destruct (isOpen st); reflexivity.
  - destruct (_ && _)%bool; [|reflexivity].
    destruct (handleRowClick P index st) as [st'|] eqn:Hr; [|reflexivity].
    cbn [settled]. apply handleRowClick_cases in Hr as (v & ->).
    apply handleSelectItem_machinery.
  - destruct (_ && _)%bool; [|reflexivity].
    unfold handleRemoveSelected, notify.
    destruct (_ || _)%bool; [reflexivity|].
    destruct (onSelect P); reflexivity.
  - destruct (_ && _)%bool; [|reflexivity].
    unfold handleClearAll, notify.
    destruct (multipleSelect P); [|reflexivity].
    destruct (onSelect P); reflexivity.
  - reflexivity.
  - unfold positionEffect. destruct (isOpen st); reflexivity.
Qed.

Lemma machinery_eq (st st' : state) :
  machinery st' = machinery st ->
  debounceTimeoutRef st' = debounceTimeoutRef st
  /\ abortControllerRef st' = abortControllerRef st
  /\ controllers st' = controllers st
  /\ timers st' = timers st
  /\ requests st' = requests st
  /\ isLoading st' = isLoading st
  /\ error st' = error st.
Proof. unfold machinery. intros [= -> -> -> -> -> -> ->]. repeat split. Qed.

Lemma handleFocus_machinery (P : LookupProps) (st : state) :
  debounceTimeoutRef (handleFocus P st) = debounceTimeoutRef st
  /\ abortControllerRef (handleFocus P st) = abortControllerRef st
  /\ controllers (handleFocus P st) = controllers st
  /\ timers (handleFocus P st) = timers st
  /\ requests (handleFocus P st) = requests st
  /\ isLoading (handleFocus P st) = isLoading st
  /\ error (handleFocus P st) = None.
Proof.
  unfold handleFocus.
  destruct (multipleSelect P), (_ && _)%bool; repeat split; reflexivity.
Qed.

(** Issuing a call: what becomes of the controllers, the calls and the
    loading flag; the timers are not touched. *)
Lemma executeCallback_effect (P : LookupProps) (value : string) (st : state) :
  let aborted_now :=
    match abortControllerRef st with
    | Some previous => <[previous := true]> (controllers st)
    | None => controllers st
    end in
  let current := List.length (controllers st) in
  let st' := executeCallback P value st in
  timers st' = timers st
  /\ debounceTimeoutRef st' = debounceTimeoutRef st
  /\ controllers st' = (aborted_now ++ [false])%list
  /\ abortControllerRef st' = Some current
  /\ error st' = error st
  /\ focusedIndex st' = focusedIndex st
  /\ notified st' = notified st
  /\ if Z.of_nat (String.length value) <? minSearchLength P
     then requests st' = requests st
          /\ isLoading st' = false
          /\ filteredItems st' = []
     else requests st'
          = (requests st
             ++ [{| searchText := value; signal := current; pending := true |}])%list
          /\ isLoading st' = true
          /\ filteredItems st' = filteredItems st.
Proof.
  unfold executeCallback.
  destruct (abortControllerRef st) as [previous|]; cbn zeta;
    destruct (_ <? _); cbn; rewrite ?length_insert; repeat split; reflexivity.
Qed.

Lemma catchBlock_frame (e : thrown) (st : state) :
  timers (catchBlock e st) = timers st
  /\ debounceTimeoutRef (catchBlock e st) = debounceTimeoutRef st
  /\ controllers (catchBlock e st) = controllers st
  /\ abortControllerRef (catchBlock e st) = abortControllerRef st
  /\ focusedIndex (catchBlock e st) = focusedIndex st
  /\ notified (catchBlock e st) = notified st.
Proof.
  destruct e as [name message|v]; simpl; [|repeat split; reflexivity].
  destruct (String.eqb name "AbortError"); repeat split; reflexivity.
Qed.

(** The completion of a call touches neither the timers nor the
    controllers nor the host, and moves the focus index to the first row or
    not at all. *)
Lemma resume_frame (P : LookupProps) (r : request) (how : settlement) (st : state) :
  timers (resume P r how st) = timers st
  /\ debounceTimeoutRef (resume P r how st) = debounceTimeoutRef st
  /\ controllers (resume P r how st) = controllers st
  /\ abortControllerRef (resume P r how st) = abortControllerRef st
  /\ notified (resume P r how st) = notified st
  /\ (focusedIndex (resume P r how st) = focusedIndex st
      \/ focusedIndex (resume P r how st) = 0).
Proof.
  unfold resume. destruct how as [results|e].
  - destruct (aborted st (signal r)); [repeat split; auto|].
    destruct (validateResults results) as [elems|e]; cbn [bind].
    + destruct (FilteredItems.filterItems _ _ _ _ _) as [shown|e]; cbn [bind].
      * destruct (0 <? List.length elems)%nat; repeat split; auto.
      * destruct (catchBlock_frame e st) as (? & ? & ? & ? & ? & ?).
        repeat split; auto.
    + destruct (catchBlock_frame e st) as (? & ? & ? & ? & ? & ?).
      repeat split; auto.
  - destruct (catchBlock_frame e st) as (? & ? & ? & ? & ? & ?).
    repeat split; auto.
Qed.

(** An event that leaves the machinery alone: the equations of its
    fields. *)
Ltac frame_event P st :=
  match goal with
  | |- context [step P st ?ev] =>
      let H := fresh "Hframe" in
      assert (H : machinery (step P st ev) = machinery st)
        by (apply step_machinery; [reflexivity|discriminate|discriminate]);
      apply machinery_eq in H;
      destruct H as (Href & Hab & Hctl & Htim & Hreq & Hload & Herr)
  end.

(** ** The debounce timeout *)

Section Debounce.

Variable P : LookupProps.

Lemma cleared_none (st : state) (t : nat) (value : string) :
  one_timer st -> cleared st !! t <> Some (Some value).
Proof.
  unfold one_timer, cleared. intros Hinv H.
  destruct (debounceTimeoutRef st) as [t0|] eqn:Href.
  - destruct (Nat.eq_dec t t0) as [->|Hne].
    + destruct (Nat.lt_ge_cases t0 (List.length (timers st))) as [Hlt|Hge].
      * rewrite list_lookup_insert_eq in H by exact Hlt. discriminate.
      * rewrite lookup_ge_None_2 in H by (rewrite length_insert; exact Hge).
        discriminate.
    + rewrite list_lookup_insert_ne in H by congruence.
      apply Hinv in H. congruence.
  - apply Hinv in H. discriminate.
Qed.

Lemma length_cleared (st : state) :
  List.length (cleared st) = List.length (timers st).
Proof.
  unfold cleared. destruct (debounceTimeoutRef st); [apply length_insert|reflexivity].
Qed.

(** Typing into a combobox over a provider: what becomes of the timers. *)
Lemma handleInputChange_timers (value : string) (st : state) :
  type P = combobox -> isCallback P = true ->
  let st' := handleInputChange P value st in
  match debounceMs P with
  | Some ms =>
      if ms =? 0 then timers st' = cleared st
      else timers st' = (cleared st ++ [Some value])%list
           /\ debounceTimeoutRef st' = Some (List.length (timers st))
           /\ requests st' = requests st
           /\ controllers st' = controllers st
  | None => timers st' = cleared st
  end.
Proof.
  intros Ht Hc. unfold handleInputChange, cleared. rewrite Ht, Hc.
  cbn [debounceTimeoutRef timers setError setFocusedIndex setIsOpen setInputValue].
  destruct (debounceMs P) as [ms|].
  - destruct (ms =? 0).
    + destruct (debounceTimeoutRef st) eqn:Href;
        match goal with
        | |- context [executeCallback P value ?s] =>
            destruct (executeCallback_effect P value s) as (-> & _)
        end; cbn; rewrite ?Href; reflexivity.
    + destruct (debounceTimeoutRef st); cbn; rewrite ?length_insert;
        repeat split; reflexivity.
  - destruct (debounceTimeoutRef st) eqn:Href;
      match goal with
      | |- context [executeCallback P value ?s] =>
          destruct (executeCallback_effect P value s) as (-> & _)
      end; cbn; rewrite ?Href; reflexivity.
Qed.

Lemma handleInputChange_ref (value : string) (st : state) :
  debounceTimeoutRef (handleInputChange P value st) = debounceTimeoutRef st
  \/ debounceTimeoutRef (handleInputChange P value st)
     = Some (List.length (timers st)).
Proof.
  unfold handleInputChange. destruct (type P); [|left; reflexivity].
  cbn [debounceTimeoutRef timers setError setFocusedIndex setIsOpen setInputValue].
  destruct (isCallback P).
  - destruct (debounceMs P) as [ms|].
    + destruct (ms =? 0).
      * left. destruct (debounceTimeoutRef st) eqn:Href;
          match goal with
          | |- context [executeCallback P value ?s] =>
              destruct (executeCallback_effect P value s) as (_ & -> & _)
          end; cbn; rewrite ?Href; reflexivity.
      * right. destruct (debounceTimeoutRef st); cbn; rewrite ?length_insert;
          reflexivity.
    + left. destruct (debounceTimeoutRef st) eqn:Href;
        match goal with
        | |- context [executeCallback P value ?s] =>
            destruct (executeCallback_effect P value s) as (_ & -> & _)
        end; cbn; rewrite ?Href; reflexivity.
  - left. destruct (FilteredItems.filterItems _ _ _ _ _); reflexivity.
Qed.

Lemma handleInputChange_one_timer (value : string) (st : state) :
  one_timer st -> one_timer (handleInputChange P value st).
Proof.
  intros Hinv.
  destruct (type P) eqn:Ht; [|].
  - destruct (isCallback P) eqn:Hc.
    + pose proof (handleInputChange_timers value st Ht Hc) as H. cbv zeta in H.
      intros t v Hlook.
      destruct (debounceMs P) as [ms|]; [destruct (ms =? 0)|].
      * rewrite H in Hlook. now apply cleared_none in Hlook.
      * destruct H as (Htim & Href & _). rewrite Htim in Hlook. rewrite Href.
        destruct (Nat.lt_ge_cases t (List.length (cleared st))) as [Hlt|Hge].
        -- rewrite lookup_app_l in Hlook by exact Hlt.
           now apply cleared_none in Hlook.
        -- pose proof (lookup_lt_Some _ _ _ Hlook) as Hb.
           rewrite length_app in Hb. cbn in Hb. rewrite length_cleared in *.
           f_equal. lia.
      * rewrite H in Hlook. now apply cleared_none in Hlook.
    + unfold handleInputChange. rewrite Ht, Hc.
      destruct (FilteredItems.filterItems _ _ _ _ _); exact Hinv.
  - unfold handleInputChange. rewrite Ht. exact Hinv.
Qed.

Lemma step_one_timer (st : state) (ev : event) :
  one_timer st -> one_timer (step P st ev).
Proof.
  intros Hinv.
  destruct ev as [value| | |key| | | |index|index| |timer|call how|selected|g];
    try (frame_event P st; unfold one_timer; rewrite Href, Htim; exact Hinv).
  - cbn [step]. destruct (inputLive P); [|exact Hinv].
    now apply handleInputChange_one_timer.
  - cbn [step]. destruct (inputLive P); [|exact Hinv].
    destruct (handleFocus_machinery P st) as (Href & _ & _ & Htim & _).
    unfold one_timer. rewrite Href, Htim. exact Hinv.
  - cbn [step]. destruct (timers st !! timer) as [[value|]|] eqn:Hl; try exact Hinv.
    match goal with
    | |- one_timer (executeCallback P value ?s) =>
        destruct (executeCallback_effect P value s) as (Htim & Href & _)
    end.
    unfold one_timer. rewrite Htim, Href. cbn. intros t v Hlook.
    destruct (Nat.eq_dec t timer) as [->|Hne].
    + rewrite list_lookup_insert_eq in Hlook
        by (eapply lookup_lt_Some; exact Hl).
      discriminate.
    + rewrite list_lookup_insert_ne in Hlook by congruence.
      exact (Hinv t v Hlook).
  - cbn [step]. destruct (requests st !! call) as [r|]; [|exact Hinv].
    destruct (pending r); [|exact Hinv].
    match goal with
    | |- one_timer (resume P r how ?s) =>
        destruct (resume_frame P r how s) as (Htim & Href & _)
    end.
    unfold one_timer. rewrite Htim, Href. exact Hinv.
Qed.

Lemma run_one_timer (evs : list event) :
  forall st, one_timer st -> one_timer (run P st evs).
Proof.
  induction evs as [|ev evs IH]; intros st Hinv; [exact Hinv|].
  cbn [run List.fold_left]. apply IH. now apply step_one_timer.
Qed.

Lemma reachable_one_timer (st : state) : reachable P st -> one_timer st.
Proof.
  intros (selected & evs & ->). apply run_one_timer.
  intros t v H. destruct t; discriminate.
Qed.

Lemma one_timer_count (l : list (option string)) :
  (forall i j vi vj,
      l !! i = Some (Some vi) -> l !! j = Some (Some vj) -> i = j) ->
  (List.length
     (List.filter (fun t => match t with Some _ => true | None => false end) l)
   <= 1)%nat.
Proof.
  induction l as [|[v|] l IH]; intros H; cbn [List.filter List.length].
  - lia.
  - assert (Hnone : List.filter
                      (fun t => match t with Some _ => true | None => false end) l
                    = []).
    { clear IH. induction l as [|[w|] l IHl]; cbn [List.filter]; [reflexivity| |].
      - specialize (H 0%nat 1%nat v w eq_refl eq_refl). discriminate.
      - apply IHl. intros i j vi vj Hi Hj.
        destruct i as [|i], j as [|j]; try reflexivity.
        + specialize (H 0%nat (S (S j)) vi vj Hi Hj). discriminate.
        + specialize (H (S (S i)) 0%nat vi vj Hi Hj). discriminate.
        + specialize (H (S (S i)) (S (S j)) vi vj Hi Hj). congruence. }
    rewrite Hnone. cbn. lia.
  - apply IH. intros i j vi vj Hi Hj.
    specialize (H (S i) (S j) vi vj Hi Hj). congruence.
Qed.

(** However the user types and whatever fires or settles, at most one
    debounce timeout is pending, and it is the one the ref points to. *)
Theorem at_most_one_timer_pending (st : state) :
  reachable P st ->
  (pending_timers st <= 1)%nat
  /\ forall t value,
       timers st !! t = Some (Some value) -> debounceTimeoutRef st = Some t.
Proof.
  intros Hr. pose proof (reachable_one_timer st Hr) as Hinv.
  split; [|exact Hinv].
  apply one_timer_count. intros i j vi vj Hi Hj.
  apply Hinv in Hi, Hj. congruence.
Qed.

End Debounce.

Lemma at_most_one_timer_pending_witness :
  (pending_timers
     (run debounceProps (initial debounceProps JUndefined)
        [InputFocus; InputChange "a"; InputChange "ab"; InputChange "abc"])
   <= 1)%nat.
Proof.
  apply (at_most_one_timer_pending debounceProps).
  exists JUndefined, [InputFocus; InputChange "a"; InputChange "ab"; InputChange "abc"].
  reflexivity.
Defined.

Lemma last_default {A} (l : list A) (a b : A) :
  l <> [] -> List.last l a = List.last l b.
Proof.
  induction l as [|x [|y l] IH]; intros H; [contradiction|reflexivity|].
  change (List.last (y :: l) a = List.last (y :: l) b).
  apply IH. discriminate.
Qed.

Section DebouncedTyping.

Variables (P : LookupProps) (ms : Z).
Hypothesis live : inputLive P = true.
Hypothesis provider : isCallback P = true.
Hypothesis debounced : debounceMs P = Some ms.
Hypothesis nonzero : ms <> 0.

Lemma live_combobox : type P = combobox.
Proof. unfold inputLive in live. destruct (type P); [reflexivity|discriminate]. Qed.

(** One keystroke under a debounce: the provider is not called and nothing
    is aborted; the only pending timeout is a new one, for the text just
    typed. *)
Lemma debounced_keystroke (value : string) (st : state) :
  one_timer st ->
  let st' := step P st (InputChange value) in
  let t := List.length (timers st) in
  one_timer st'
  /\ requests st' = requests st
  /\ controllers st' = controllers st
  /\ debounceTimeoutRef st' = Some t
  /\ timers st' !! t = Some (Some value).
Proof.
  intros Hinv. cbn [step]. rewrite live.
  pose proof (handleInputChange_timers P value st live_combobox provider) as H.
  cbv zeta in H. rewrite debounced in H.
  destruct (Z.eqb_spec ms 0) as [|_]; [contradiction|].
  destruct H as (Htim & Href & Hreq & Hctl).
  split; [now apply handleInputChange_one_timer|].
  repeat split; try assumption.
  rewrite Htim, <- length_cleared. apply list_lookup_middle. reflexivity.
Qed.

(** Typing under a debounce.  However many keystrokes follow one another
    before a timeout fires, the provider is not called and no call is
    aborted; one timeout is pending, for the last text typed.  When it fires
    the provider is called once, with that text, unless the text is shorter
    than the minimum search length. *)
Theorem debounced_typing (first : string) (more : list string) (st : state) :
  one_timer st ->
  let typed := first :: more in
  let final := List.last typed first in
  let st' := run P st (List.map InputChange typed) in
  requests st' = requests st
  /\ controllers st' = controllers st
  /\ exists t,
       debounceTimeoutRef st' = Some t
       /\ timers st' !! t = Some (Some final)
       /\ (forall t' value, timers st' !! t' = Some (Some value) -> t' = t)
       /\ requests (step P st' (TimerFires t))
          = if Z.of_nat (String.length final) <? minSearchLength P
            then requests st
            else (requests st
                  ++ [{| searchText := final;
                         signal := List.length (controllers st);
                         pending := true |}])%list.
Proof.
  cbv zeta. revert first st.
  induction more as [|next more IH]; intros first st Hinv.
  - cbn [List.map run List.fold_left List.last].
    destruct (debounced_keystroke first st Hinv) as (Hinv' & Hreq & Hctl & Href & Hl).
    set (st1 := step P st (InputChange first)) in *.
    split; [exact Hreq|]. split; [exact Hctl|].
    exists (List.length (timers st)).
    split; [exact Href|]. split; [exact Hl|]. split.
    + intros t' value Ht'. apply Hinv' in Ht'. congruence.
    + cbn [step]. rewrite Hl.
      match goal with
      | |- requests (executeCallback P first ?s) = _ =>
          destruct (executeCallback_effect P first s) as (_ & _ & _ & _ & _ & _ & _ & H)
      end.
      cbn [requests controllers set_timers] in H.
      destruct (_ <? _).
      * destruct H as (-> & _). exact Hreq.
      * destruct H as (-> & _). rewrite Hreq, Hctl. reflexivity.
  - destruct (debounced_keystroke first st Hinv) as (Hinv' & Hreq & Hctl & _).
    destruct (IH next (step P st (InputChange first)) Hinv')
      as (Hreq' & Hctl' & t & Href & Hl & Huniq & Hfire).
    change (run P st (List.map InputChange (first :: next :: more)))
      with (run P (step P st (InputChange first))
              (List.map InputChange (next :: more))).
    change (List.last (first :: next :: more) first)
      with (List.last (next :: more) first).
    rewrite (last_default _ first next) by discriminate.
    split; [congruence|]. split; [congruence|].
    exists t. split; [exact Href|]. split; [exact Hl|]. split; [exact Huniq|].
    rewrite Hfire, Hreq, Hctl. reflexivity.
Qed.

End DebouncedTyping.

(** The scenario of the specification: with a minimum search length of 2,
    typing "A" then "B" calls the provider once, with "AB". *)
Lemma debounced_typing_witness :
  let st := run debounceProps (initial debounceProps JUndefined)
              [InputChange "A"; InputChange "AB"] in
  requests st = []
  /\ exists t,
       debounceTimeoutRef st = Some t
       /\ requests (step debounceProps st (TimerFires t))
          = [{| searchText := "AB"; signal := 0; pending := true |}].
Proof.
  destruct (debounced_typing debounceProps 300 eq_refl eq_refl eq_refl
              ltac:(discriminate) "A" ["AB"] (initial debounceProps JUndefined)
              ltac:(intros [|t] v H; discriminate))
    as (Hreq & _ & t & Href & _ & _ & Hfire).
  split; [exact Hreq|]. exists t. split; [exact Href|exact Hfire].
Defined.

(** ** The calls of the provider *)

Section Calls.

Variable P : LookupProps.

Lemma calls_ok_ext (st st' : state) :
  abortControllerRef st' = abortControllerRef st ->
  controllers st' = controllers st ->
  requests st' = requests st ->
  calls_ok st -> calls_ok st'.
Proof.
  unfold calls_ok, one_controller, distinct_signals.
  intros -> -> ->. tauto.
Qed.

Lemma executeCallback_calls_ok (value : string) (st : state) :
  calls_ok st -> calls_ok (executeCallback P value st).
Proof.
  intros ((Ha & Hb & Hc) & Hd).
  destruct (executeCallback_effect P value st)
    as (_ & _ & Hctl & Href & _ & _ & _ & Hreq).
  set (st' := executeCallback P value st) in *.
  set (aborted_now := match abortControllerRef st with
                      | Some previous => <[previous := true]> (controllers st)
                      | None => controllers st
                      end) in *.
  assert (Hlen : List.length aborted_now = List.length (controllers st)).
  { unfold aborted_now. destruct (abortControllerRef st);
      [apply length_insert|reflexivity]. }
  assert (Hold : forall c, aborted_now !! c <> Some false).
  { intros c Hl. unfold aborted_now in Hl.
    destruct (abortControllerRef st) as [previous|] eqn:Hp.
    - destruct (Nat.eq_dec c previous) as [->|Hne].
      + rewrite list_lookup_insert_eq in Hl by (apply Ha; reflexivity).
        discriminate.
      + rewrite list_lookup_insert_ne in Hl by congruence.
        apply Hb in Hl. congruence.
    - apply Hb in Hl. discriminate. }
  assert (Hreqs : forall i r,
             requests st' !! i = Some r ->
             requests st !! i = Some r
             \/ (i = List.length (requests st)
                 /\ signal r = List.length (controllers st))).
  { intros i r Hl. destruct (_ <? _).
    - destruct Hreq as (Hreq & _). rewrite Hreq in Hl. auto.
    - destruct Hreq as (Hreq & _). rewrite Hreq in Hl.
      destruct (Nat.lt_ge_cases i (List.length (requests st))) as [Hlt|Hge].
      + rewrite lookup_app_l in Hl by exact Hlt. auto.
      + rewrite lookup_app_r in Hl by exact Hge.
        destruct (i - List.length (requests st))%nat as [|k] eqn:Hk;
          [|destruct k; discriminate].
        injection Hl as <-. right. split; [lia|reflexivity]. }
  split; [split; [|split]|].
  - intros c Hc'. rewrite Href in Hc'. injection Hc' as <-.
    rewrite Hctl, length_app, Hlen. cbn. lia.
  - intros c Hl. rewrite Hctl in Hl. rewrite Href. f_equal.
    destruct (Nat.lt_ge_cases c (List.length aborted_now)) as [Hlt|Hge].
    + rewrite lookup_app_l in Hl by exact Hlt. now apply Hold in Hl.
    + pose proof (lookup_lt_Some _ _ _ Hl) as Hb'.
      rewrite length_app in Hb'. cbn in Hb'. lia.
  - intros i r Hl. rewrite Hctl, length_app, Hlen. cbn.
    apply Hreqs in Hl as [Hl|[_ Hs]]; [apply Hc in Hl|]; lia.
  - intros i j ri rj Hi Hj Hs.
    apply Hreqs in Hi as [Hi|[Hi Hsi]]; apply Hreqs in Hj as [Hj|[Hj Hsj]].
    + exact (Hd i j ri rj Hi Hj Hs).
    + apply Hc in Hi. lia.
    + apply Hc in Hj. lia.
    + congruence.
Qed.

Lemma settle_calls_ok (call : nat) (r : request) (st st' : state) :
  requests st !! call = Some r ->
  abortControllerRef st' = abortControllerRef st ->
  controllers st' = controllers st ->
  requests st' = <[call := done r]> (requests st) ->
  calls_ok st -> calls_ok st'.
Proof.
  intros Hr Href Hctl Hreq ((Ha & Hb & Hc) & Hd).
  assert (Hlook : forall i r',
             requests st' !! i = Some r' ->
             exists r0, requests st !! i = Some r0 /\ signal r' = signal r0).
  { intros i r' Hl. rewrite Hreq in Hl.
    apply list_lookup_insert_Some in Hl as [(-> & <- & _)|(_ & Hl)]; eauto. }
  split; [split; [|split]|].
  - intros c Hc'. rewrite Hctl. apply Ha. congruence.
  - intros c Hl. rewrite Href. apply Hb. congruence.
  - intros i r' Hl. apply Hlook in Hl as (r0 & Hl & ->).
    rewrite Hctl. exact (Hc i r0 Hl).
  - intros i j ri rj Hi Hj Hs.
    apply Hlook in Hi as (ri0 & Hi & Hsi). apply Hlook in Hj as (rj0 & Hj & Hsj).
    apply (Hd i j ri0 rj0 Hi Hj). congruence.
Qed.

Lemma handleInputChange_calls_ok (value : string) (st : state) :
  calls_ok st -> calls_ok (handleInputChange P value st).
Proof.
  intros Hinv. unfold handleInputChange.
  destruct (type P); [|revert Hinv; apply calls_ok_ext; reflexivity].
  destruct (isCallback P).
  - destruct (debounceMs P) as [ms|]; [destruct (ms =? 0)|];
      destruct (debounceTimeoutRef _);
      try (apply executeCallback_calls_ok);
      revert Hinv; apply calls_ok_ext; reflexivity.
  - destruct (FilteredItems.filterItems _ _ _ _ _);
      revert Hinv; apply calls_ok_ext; reflexivity.
Qed.

Lemma step_calls_ok (st : state) (ev : event) :
  calls_ok st -> calls_ok (step P st ev).
Proof.
  intros Hinv.
  destruct ev as [value| | |key| | | |index|index| |timer|call how|selected|g];
    try (frame_event P st; revert Hinv; apply calls_ok_ext; assumption).
  - cbn [step]. destruct (inputLive P); [|exact Hinv].
    now apply handleInputChange_calls_ok.
  - cbn [step]. destruct (inputLive P); [|exact Hinv].
    destruct (handleFocus_machinery P st) as (_ & Hab & Hctl & _ & Hreq & _).
    revert Hinv. apply calls_ok_ext; assumption.
  - cbn [step]. destruct (timers st !! timer) as [[value|]|]; try exact Hinv.
    apply executeCallback_calls_ok.
    revert Hinv. apply calls_ok_ext; reflexivity.
  - cbn [step]. destruct (requests st !! call) as [r|] eqn:Hr; [|exact Hinv].
    destruct (pending r); [|exact Hinv].
    match goal with
    | |- calls_ok (resume P r how ?s) =>
        destruct (resume_frame P r how s) as (_ & _ & Hctl & Hab & _);
        pose proof (resume_requests P r how s) as Hreq
    end.
    apply (settle_calls_ok call r st); assumption.
Qed.

Lemma reachable_calls_ok (st : state) : reachable P st -> calls_ok st.
Proof.
  intros (selected & evs & ->). unfold run.
  assert (H0 : calls_ok (initial P selected)).
  { split; [split; [|split]|].
    - discriminate.
    - intros [|c]; discriminate.
    - intros [|i]; discriminate.
    - intros [|i]; discriminate. }
  revert H0. generalize (initial P selected).
  induction evs as [|ev evs IH]; intros s Hs; [exact Hs|].
  cbn [List.fold_left]. apply IH. now apply step_calls_ok.
Qed.

(** Only the call issued last can have its result accepted.  In every state
    the widget goes through, the fulfilment of a pending call whose
    controller is not the current one leaves the candidate set, the error,
    the focus index and the selection as they are: it marks the call as
    settled and clears the loading flag.  No two pending calls hold the
    current controller. *)
Theorem stale_fulfilment_discarded
    (st : state) (call : nat) (r : request) (results : jsval) :
  reachable P st ->
  requests st !! call = Some r ->
  pending r = true ->
  abortControllerRef st <> Some (signal r) ->
  step P st (ProviderSettles call (Fulfilled results))
  = setIsLoading false (set_requests (<[call := done r]> (requests st)) st)
  /\ (forall i j ri rj,
         requests st !! i = Some ri ->
         requests st !! j = Some rj ->
         abortControllerRef st = Some (signal ri) ->
         abortControllerRef st = Some (signal rj) ->
         i = j).
Proof.
  intros Hreach Hr Hp Hne.
  destruct (reachable_calls_ok st Hreach) as ((Ha & Hb & Hc) & Hd).
  split.
  - cbn [step]. rewrite Hr, Hp.
    assert (Hab : aborted st (signal r) = true).
    { unfold aborted. pose proof (Hc call r Hr) as Hlt.
      destruct (controllers st !! signal r) as [[|]|] eqn:Hl.
      - reflexivity.
      - apply Hb in Hl. contradiction.
      - apply lookup_ge_None in Hl. lia. }
    apply superseded_fulfilment_discarded. exact Hab.
  - intros i j ri rj Hi Hj Hci Hcj. apply (Hd i j ri rj Hi Hj). congruence.
Qed.

End Calls.

Lemma stale_fulfilment_discarded_witness :
  let st := run asyncProps (initial asyncProps JUndefined) staleCall in
  step asyncProps st (ProviderSettles 1 (Fulfilled (JArr [JStr "apricot"])))
  = setIsLoading false
      (set_requests
         (<[1%nat := done {| searchText := "ap"; signal := 1; pending := true |}]>
            (requests st)) st).
Proof.
  cbv zeta.
  refine (proj1 (stale_fulfilment_discarded asyncProps
                   (run asyncProps (initial asyncProps JUndefined) staleCall)
                   1 {| searchText := "ap"; signal := 1; pending := true |}
                   (JArr [JStr "apricot"]) _ eq_refl eq_refl _)).
  - exists JUndefined, staleCall. reflexivity.
  - vm_compute. discriminate.
Defined.

(** ** The loading flag, the error and the gate on short queries *)

Section Loading.

Variable P : LookupProps.

Lemma executeCallback_loading (value : string) (st : state) :
  loading_has_call (executeCallback P value st).
Proof.
  destruct (executeCallback_effect P value st)
    as (_ & _ & _ & _ & _ & _ & _ & H).
  intros Hload. destruct (_ <? _).
  - destruct H as (_ & H & _). congruence.
  - destruct H as (Hreq & _).
    eexists (List.length (requests st)), _. rewrite Hreq.
    split; [apply list_lookup_middle; reflexivity|reflexivity].
Qed.

Lemma loading_ext (st st' : state) :
  isLoading st' = isLoading st -> requests st' = requests st ->
  loading_has_call st -> loading_has_call st'.
Proof. unfold loading_has_call. intros -> ->. tauto. Qed.

Lemma handleInputChange_loading (value : string) (st : state) :
  loading_has_call st -> loading_has_call (handleInputChange P value st).
Proof.
  intros Hinv. unfold handleInputChange.
  destruct (type P); [|revert Hinv; apply loading_ext; reflexivity].
  destruct (isCallback P).
  - destruct (debounceMs P) as [ms|]; [destruct (ms =? 0)|];
      destruct (debounceTimeoutRef _);
      try (apply executeCallback_loading);
      revert Hinv; apply loading_ext; reflexivity.
  - destruct (FilteredItems.filterItems _ _ _ _ _);
      revert Hinv; apply loading_ext; reflexivity.
Qed.

Lemma step_loading (st : state) (ev : event) :
  loading_has_call st -> loading_has_call (step P st ev).
Proof.
  intros Hinv.
  destruct ev as [value| | |key| | | |index|index| |timer|call how|selected|g];
    try (frame_event P st; revert Hinv; apply loading_ext; assumption).
  - cbn [step]. destruct (inputLive P); [|exact Hinv].
    now apply handleInputChange_loading.
  - cbn [step]. destruct (inputLive P); [|exact Hinv].
    destruct (handleFocus_machinery P st) as (_ & _ & _ & _ & Hreq & Hload & _).
    revert Hinv. apply loading_ext; assumption.
  - cbn [step]. destruct (timers st !! timer) as [[value|]|]; try exact Hinv.
    apply executeCallback_loading.
  - cbn [step]. destruct (requests st !! call) as [r|]; [|exact Hinv].
    destruct (pending r); [|exact Hinv].
    intros Hload. rewrite resume_stops_loading in Hload. discriminate.
Qed.

(** The widget shows "Loading..." only while a call of the provider is
    pending: in every state it goes through, a set loading flag comes with a
    pending call. *)
Theorem loading_only_while_pending (st : state) :
  reachable P st ->
  isLoading st = true ->
  exists call r, requests st !! call = Some r /\ pending r = true.
Proof.
  intros (selected & evs & ->). unfold run.
  assert (H0 : loading_has_call (initial P selected)) by discriminate.
  revert H0. generalize (initial P selected).
  induction evs as [|ev evs IH]; intros s Hs; [exact Hs|].
  cbn [List.fold_left]. apply IH. now apply step_loading.
Qed.

(** The gate on short queries.  A text shorter than the minimum search
    length does not call the provider: the calls are as they were, the
    candidate set is emptied and the loading flag cleared.  The call in
    flight is aborted all the same. *)
Theorem short_query_not_sent (value : string) (st : state) :
  Z.of_nat (String.length value) < minSearchLength P ->
  let st' := executeCallback P value st in
  requests st' = requests st
  /\ filteredItems st' = []
  /\ isLoading st' = false
  /\ error st' = error st
  /\ (forall c, abortControllerRef st = Some c ->
                (c < List.length (controllers st))%nat ->
                aborted st' c = true).
Proof.
  intros Hshort st'.
  destruct (executeCallback_effect P value st)
    as (_ & _ & _ & _ & Herr & _ & _ & H).
  destruct (Z.ltb_spec (Z.of_nat (String.length value)) (minSearchLength P));
    [|lia].
  destruct H as (Hreq & Hload & Hitems).
  repeat split; try assumption.
  intros c Hc Hlt. now apply executeCallback_aborts.
Qed.

Lemma handleInputChange_error (value : string) (st : state) :
  error (handleInputChange P value st) = None
  /\ focusedIndex (handleInputChange P value st) = -1
  /\ isOpen (handleInputChange P value st) = true
  /\ inputValue (handleInputChange P value st) = value
  /\ notified (handleInputChange P value st) = notified st.
Proof.
  unfold handleInputChange.
  destruct (type P); [|repeat split; reflexivity].
  destruct (isCallback P).
  - destruct (debounceMs P) as [ms|]; [destruct (ms =? 0)|];
      destruct (debounceTimeoutRef _);
      try (unfold executeCallback; destruct (abortControllerRef _);
           cbn zeta; destruct (_ <? _));
      repeat split; reflexivity.
  - destruct (FilteredItems.filterItems _ _ _ _ _); repeat split; reflexivity.
Qed.

(** A displayed error does not outlive the next keystroke or the next
    focus: both clear it, whatever else they do. *)
Theorem error_cleared_on_input (st : state) (value : string) :
  inputLive P = true ->
  error (step P st (InputChange value)) = None
  /\ error (step P st InputFocus) = None
  /\ shouldShowError (step P st (InputChange value)) = false
  /\ shouldShowError (step P st InputFocus) = false.
Proof.
  intros Hlive. cbn [step]. rewrite Hlive.
  destruct (handleInputChange_error value st) as (He & _).
  destruct (handleFocus_machinery P st) as (_ & _ & _ & _ & _ & _ & Hf).
  unfold shouldShowError. rewrite He, Hf. repeat split.
Qed.

End Loading.

Lemma loading_only_while_pending_witness :
  exists call r,
    requests (run asyncProps (initial asyncProps JUndefined) twoCalls) !! call
    = Some r
    /\ pending r = true.
Proof.
  apply (loading_only_while_pending asyncProps).
  - exists JUndefined, twoCalls. reflexivity.
  - reflexivity.
Defined.

Lemma short_query_not_sent_witness :
  let st := run debounceProps (initial debounceProps JUndefined) [InputFocus] in
  requests (executeCallback debounceProps "A" st) = requests st
  /\ filteredItems (executeCallback debounceProps "A" st) = []
  /\ isLoading (executeCallback debounceProps "A" st) = false.
Proof.
  cbv zeta.
  destruct (short_query_not_sent debounceProps "A"
              (run debounceProps (initial debounceProps JUndefined) [InputFocus])
              ltac:(vm_compute; reflexivity)) as (H1 & H2 & H3 & _).
  split; [exact H1|]. split; [exact H2|exact H3].
Defined.

Lemma error_cleared_on_input_witness :
  let failed :=
    run asyncProps (initial asyncProps JUndefined)
      [InputFocus; InputChange "abc";
       ProviderSettles 0 (Fulfilled (JStr "not-an-array"))] in
  error failed = Some "Async callback must return an array of items"
  /\ error (step asyncProps failed (InputChange "abcd")) = None.
Proof.
  cbv zeta. split; [reflexivity|].
  exact (proj1 (error_cleared_on_input asyncProps _ "abcd" eq_refl)).
Defined.

(** ** More on the keyboard *)

Section Keys.

Variable P : LookupProps.

Lemma eqb_ne (a b : string) : a <> b -> String.eqb a b = false.
Proof. intros H. now apply String.eqb_neq. Qed.

(** A key other than the five the hook knows is not intercepted and does
    nothing, open or closed. *)
Theorem other_keys_ignored (key : string) (st : state) :
  key <> "ArrowDown" -> key <> "ArrowUp" -> key <> "Enter" ->
  key <> "Escape" -> key <> "Tab" ->
  (forall isOpen focusedIndex itemCount listRef,
      KeyboardNavigation.handleKeyDown isOpen focusedIndex itemCount listRef key
      = KeyboardNavigation.ignored)
  /\ handleKeyDown P key st = Ok st.
Proof.
  intros H1 H2 H3 H4 H5.
  assert (Hhook : forall isOpen focusedIndex itemCount listRef,
             KeyboardNavigation.handleKeyDown isOpen focusedIndex itemCount
               listRef key = KeyboardNavigation.ignored).
  { intros. unfold KeyboardNavigation.handleKeyDown.
    rewrite (eqb_ne _ _ H1), (eqb_ne _ _ H2), (eqb_ne _ _ H3),
      (eqb_ne _ _ H4), (eqb_ne _ _ H5).
    destruct isOpen0; reflexivity. }
  split; [exact Hhook|].
  unfold handleKeyDown. rewrite Hhook. reflexivity.
Qed.

(** While the dropdown is closed, ArrowDown and Enter open it with the
    first row focused, whatever the candidate set, and without starting a
    Tentative Selection; every other key, Escape and Tab among them, is left
    to the browser and changes nothing, so that a closed dropdown is not
    merged again. *)
Theorem keys_while_closed (key : string) (st : state) :
  isOpen st = false ->
  ((key = "ArrowDown" \/ key = "Enter") ->
   handleKeyDown P key st = Ok (setFocusedIndex 0 (setIsOpen true st))
   /\ KeyboardNavigation.preventDefault
        (KeyboardNavigation.handleKeyDown false (focusedIndex st)
           (Z.of_nat (List.length (filteredItems st))) (listRendered st) key)
      = true)
  /\ (key <> "ArrowDown" -> key <> "Enter" ->
      handleKeyDown P key st = Ok st
      /\ KeyboardNavigation.preventDefault
           (KeyboardNavigation.handleKeyDown false (focusedIndex st)
              (Z.of_nat (List.length (filteredItems st))) (listRendered st) key)
         = false).
Proof.
  intros Hclosed. unfold handleKeyDown. rewrite Hclosed.
  unfold KeyboardNavigation.handleKeyDown. cbn [negb]. split.
  - intros [->| ->]; split; reflexivity.
  - intros H1 H2. rewrite (eqb_ne _ _ H1), (eqb_ne _ _ H2). split; reflexivity.
Qed.

(** Enter on an open dropdown with no row focused, or with the focus index
    past the candidates, selects nothing: the state is as it was, and the
    key is still suppressed. *)
Theorem Enter_out_of_range (st : state) :
  isOpen st = true ->
  (focusedIndex st < 0
   \/ Z.of_nat (List.length (filteredItems st)) <= focusedIndex st) ->
  handleKeyDown P "Enter" st = Ok st
  /\ notified (settled st (handleKeyDown P "Enter" st)) = notified st
  /\ KeyboardNavigation.preventDefault
       (KeyboardNavigation.handleKeyDown true (focusedIndex st)
          (Z.of_nat (List.length (filteredItems st))) (listRendered st) "Enter")
     = true.
Proof.
  intros Hopen Hout.
  assert (H : handleKeyDown P "Enter" st = Ok st).
  { unfold handleKeyDown, KeyboardNavigation.handleKeyDown. rewrite Hopen.
    cbn [negb String.eqb Ascii.eqb Bool.eqb andb KeyboardNavigation.called].
    replace ((focusedIndex st >=? 0)
             && (focusedIndex st <? Z.of_nat (List.length (filteredItems st))))%bool
      with false; [reflexivity|].
    symmetry. apply andb_false_iff. destruct Hout; [left|right]; lia. }
  rewrite H. repeat split.
Qed.

(** The list is asked to scroll only by an arrow key that moves the focus
    on an open dropdown whose list is mounted, and then to the row the focus
    moves to, one row away. *)
Theorem scroll_only_when_moved
    (isOpen listRef : bool) (focusedIndex itemCount row : Z) (key : string) :
  KeyboardNavigation.scrollToItem
    (KeyboardNavigation.handleKeyDown isOpen focusedIndex itemCount listRef key)
  = Some row ->
  isOpen = true /\ listRef = true
  /\ ((key = "ArrowDown" /\ row = focusedIndex + 1 /\ focusedIndex < itemCount - 1
       /\ KeyboardNavigation.called
            (KeyboardNavigation.handleKeyDown isOpen focusedIndex itemCount
               listRef key)
          = Some (KeyboardNavigation.onNavigate KeyboardNavigation.down row))
      \/ (key = "ArrowUp" /\ row = focusedIndex - 1 /\ focusedIndex > 0
          /\ KeyboardNavigation.called
               (KeyboardNavigation.handleKeyDown isOpen focusedIndex itemCount
                  listRef key)
             = Some (KeyboardNavigation.onNavigate KeyboardNavigation.up row))).
Proof.
  unfold KeyboardNavigation.handleKeyDown.
  destruct isOpen; cbn [negb].
  2:{ destruct (_ || _)%bool; discriminate. }
  destruct (String.eqb_spec key "ArrowDown") as [->|_].
  { cbn [KeyboardNavigation.scrollToItem KeyboardNavigation.called].
    destruct listRef; cbn [andb]; [|discriminate].
    destruct (Z.ltb_spec focusedIndex (itemCount - 1)).
    - destruct (Z.eqb_spec (focusedIndex + 1) focusedIndex); [lia|].
      intros [= <-]. repeat split. left. repeat split. exact H.
    - rewrite Z.eqb_refl. discriminate. }
  destruct (String.eqb_spec key "ArrowUp") as [->|_].
  { cbn [KeyboardNavigation.scrollToItem KeyboardNavigation.called].
    destruct listRef; cbn [andb]; [|discriminate].
    destruct (Z.gtb_spec focusedIndex 0).
    - destruct (Z.eqb_spec (focusedIndex - 1) focusedIndex); [lia|].
      intros [= <-]. repeat split. right. repeat split. lia.
    - rewrite Z.eqb_refl. discriminate. }
  destruct (String.eqb key "Enter"); [discriminate|].
  destruct (String.eqb key "Escape"); [discriminate|].
  destruct (String.eqb key "Tab"); discriminate.
Qed.

End Keys.

Lemma other_keys_ignored_witness :
  handleKeyDown singleProps "a" (initial singleProps JUndefined)
  = Ok (initial singleProps JUndefined).
Proof.
  apply (other_keys_ignored singleProps "a" (initial singleProps JUndefined));
    discriminate.
Defined.

Lemma keys_while_closed_witness :
  handleKeyDown multiProps "Escape" (initial multiProps JUndefined)
  = Ok (initial multiProps JUndefined)
  /\ handleKeyDown multiProps "ArrowDown" (initial multiProps JUndefined)
     = Ok (setFocusedIndex 0 (setIsOpen true (initial multiProps JUndefined))).
Proof.
  destruct (keys_while_closed multiProps "Escape" (initial multiProps JUndefined)
              eq_refl) as (_ & Hother).
  destruct (keys_while_closed multiProps "ArrowDown" (initial multiProps JUndefined)
              eq_refl) as (Hopen & _).
  split.
  - exact (proj1 (Hother ltac:(discriminate) ltac:(discriminate))).
  - exact (proj1 (Hopen (or_introl eq_refl))).
Defined.

Lemma Enter_out_of_range_witness :
  handleKeyDown singleProps "Enter"
    (step singleProps (initial singleProps JUndefined) InputFocus)
  = Ok (step singleProps (initial singleProps JUndefined) InputFocus).
Proof.
  apply (Enter_out_of_range singleProps
           (step singleProps (initial singleProps JUndefined) InputFocus)
           eq_refl).
  left. vm_compute. reflexivity.
Defined.

Lemma scroll_only_when_moved_witness :
  true = true /\ true = true
  /\ (("ArrowDown" = "ArrowDown" /\ 1 = 0 + 1 /\ 0 < 3 - 1
       /\ KeyboardNavigation.called
            (KeyboardNavigation.handleKeyDown true 0 3 true "ArrowDown")
          = Some (KeyboardNavigation.onNavigate KeyboardNavigation.down 1))
      \/ ("ArrowDown" = "ArrowUp" /\ 1 = 0 - 1 /\ 0 > 0
          /\ KeyboardNavigation.called
               (KeyboardNavigation.handleKeyDown true 0 3 true "ArrowDown")
             = Some (KeyboardNavigation.onNavigate KeyboardNavigation.up 1))).
Proof. exact (scroll_only_when_moved true true 0 3 1 "ArrowDown" eq_refl). Defined.

(** ** The focus index along a session *)

Section FocusIndex.

Variable P : LookupProps.

Lemma navigate_target
    (isOpen listRef : bool) (focusedIndex itemCount newIndex : Z)
    (key : string) (d : KeyboardNavigation.direction) :
  KeyboardNavigation.called
    (KeyboardNavigation.handleKeyDown isOpen focusedIndex itemCount listRef key)
  = Some (KeyboardNavigation.onNavigate d newIndex) ->
  newIndex = focusedIndex
  \/ newIndex = focusedIndex + 1
  \/ (newIndex = focusedIndex - 1 /\ focusedIndex > 0).
Proof.
  unfold KeyboardNavigation.handleKeyDown.
  destruct isOpen; cbn [negb].
  2:{ destruct (_ || _)%bool; discriminate. }
  destruct (String.eqb key "ArrowDown").
  { cbn. destruct (_ <? _); intros [= _ <-]; lia. }
  destruct (String.eqb key "ArrowUp").
  { cbn. destruct (Z.gtb_spec focusedIndex 0); intros [= _ <-]; lia. }
  destruct (String.eqb key "Enter").
  { cbn. destruct (_ && _)%bool; discriminate. }
  destruct (String.eqb key "Escape"); [discriminate|].
  destruct (String.eqb key "Tab"); discriminate.
Qed.

Lemma handleSelectItem_focus (v : jsval) (st : state) :
  focusedIndex (handleSelectItem P v st) = focusedIndex st.
Proof.
  unfold handleSelectItem, notify.
  destruct (multipleSelect P), (onSelect P); reflexivity.
Qed.

Lemma step_focus_floor (st : state) (ev : event) :
  -1 <= focusedIndex st -> -1 <= focusedIndex (step P st ev).
Proof.
  intros Hinv.
  destruct ev as [value| | |key| | | |index|index| |timer|call how|selected|g];
    cbn [step].
  - destruct (inputLive P); [|exact Hinv].
    destruct (handleInputChange_error P value st) as (_ & -> & _). lia.
  - destruct (inputLive P); [|exact Hinv].
    unfold handleFocus. destruct (multipleSelect P), (_ && _)%bool; cbn; lia.
  - destruct (inputLive P); [|exact Hinv].
    unfold handleBlur. destruct (_ && _)%bool; exact Hinv.
  - destruct (inputLive P); [|exact Hinv].
    destruct (handleKeyDown P key st) as [st'|] eqn:Hk; [|exact Hinv].
    cbn [settled].
    apply handleKeyDown_cases in Hk
      as [->|[->|[->|[(v & ->)|(d & newIndex & Hc & ->)]]]].
    + exact Hinv.
    + cbn. lia.
    + unfold handleKeyboardClose. destruct (_ && _)%bool; cbn; lia.
    + rewrite handleSelectItem_focus. exact Hinv.
    + apply navigate_target in Hc. cbn. lia.
  - unfold handleClickOutside. destruct (_ && _)%bool; exact Hinv.
  - unfold handleInputBoxClick. destruct (disabled P); [exact Hinv|].
    destruct (type P); [exact Hinv|].
    destruct (multipleSelect P), (_ && _)%bool; cbn; lia.
  - destruct (_ && _)%bool; [|exact Hinv].
    unfold handleSingleValueClick. destruct (isOpen st); exact Hinv.
  - destruct (_ && _)%bool; [|exact Hinv].
    destruct (handleRowClick P index st) as [st'|] eqn:Hr; [|exact Hinv].
    cbn [settled]. apply handleRowClick_cases in Hr as (v & ->).
    rewrite handleSelectItem_focus. exact Hinv.
  - destruct (_ && _)%bool; [|exact Hinv].
    unfold handleRemoveSelected, notify. destruct (_ || _)%bool; [exact Hinv|].
    destruct (onSelect P); exact Hinv.
  - destruct (_ && _)%bool; [|exact Hinv].
    unfold handleClearAll, notify. destruct (multipleSelect P); [|exact Hinv].
    destruct (onSelect P); exact Hinv.
  - destruct (timers st !! timer) as [[value|]|]; try exact Hinv.
    match goal with
    | |- _ <= focusedIndex (executeCallback P value ?s) =>
        destruct (executeCallback_effect P value s)
          as (_ & _ & _ & _ & _ & -> & _)
    end.
    exact Hinv.
  - destruct (requests st !! call) as [r|]; [|exact Hinv].
    destruct (pending r); [|exact Hinv].
    match goal with
    | |- _ <= focusedIndex (resume P r how ?s) =>
        destruct (resume_frame P r how s) as (_ & _ & _ & _ & _ & [-> | ->])
    end; [exact Hinv|lia].
  - exact Hinv.
  - unfold positionEffect. destruct (isOpen st); exact Hinv.
Qed.

(** The focus index never goes below [-1], "none". *)
Theorem focus_index_floor (st : state) :
  reachable P st -> -1 <= focusedIndex st.
Proof.
  intros (selected & evs & ->). unfold run.
  assert (H0 : -1 <= focusedIndex (initial P selected)) by (cbn; lia).
  revert H0. generalize (initial P selected).
  induction evs as [|ev evs IH]; intros s Hs; [exact Hs|].
  cbn [List.fold_left]. apply IH. now apply step_focus_floor.
Qed.

Hypothesis live : inputLive P = true.

Lemma ArrowDown_step (st : state) :
  isOpen st = true ->
  step P st (KeyDown "ArrowDown")
  = setFocusedIndex
      (if focusedIndex st <? Z.of_nat (List.length (filteredItems st)) - 1
       then focusedIndex st + 1 else focusedIndex st) st.
Proof.
  intros Hopen. cbn [step]. rewrite live.
  unfold handleKeyDown, KeyboardNavigation.handleKeyDown. rewrite Hopen.
  reflexivity.
Qed.

Lemma ArrowUp_step (st : state) :
  isOpen st = true ->
  step P st (KeyDown "ArrowUp")
  = setFocusedIndex
      (if focusedIndex st >? 0 then focusedIndex st - 1 else focusedIndex st) st.
Proof.
  intros Hopen. cbn [step]. rewrite live.
  unfold handleKeyDown, KeyboardNavigation.handleKeyDown. rewrite Hopen.
  reflexivity.
Qed.

(** Pressing ArrowDown [n] times on an open dropdown moves the focus [n]
    rows down and stops at the last row: from an index at most that of the
    last row, it ends at [min (focusedIndex + n) (itemCount - 1)], and the
    candidates and the selection are as they were. *)
Theorem ArrowDown_repeated (n : nat) (st : state) :
  isOpen st = true ->
  focusedIndex st <= Z.of_nat (List.length (filteredItems st)) - 1 ->
  let st' := run P st (List.repeat (KeyDown "ArrowDown") n) in
  focusedIndex st'
  = Z.min (focusedIndex st + Z.of_nat n)
      (Z.of_nat (List.length (filteredItems st)) - 1)
  /\ filteredItems st' = filteredItems st
  /\ displayedSelected st' = displayedSelected st
  /\ workingSelected st' = workingSelected st
  /\ isOpen st' = true.
Proof.
  cbv zeta. revert st.
  induction n as [|n IH]; intros st Hopen Hle.
  - cbn. repeat split; try assumption. lia.
  - cbn [List.repeat run List.fold_left]. rewrite (ArrowDown_step st Hopen).
    set (st1 := setFocusedIndex _ st).
    destruct (IH st1 Hopen) as (Hf & Hi & Hd & Hw & Ho).
    { unfold st1. cbn.
      destruct (Z.ltb_spec (focusedIndex st)
                  (Z.of_nat (List.length (filteredItems st)) - 1)); lia. }
    unfold run in *. rewrite Hf, Hi, Hd, Hw, Ho.
    repeat split. unfold st1. cbn.
    destruct (Z.ltb_spec (focusedIndex st)
                (Z.of_nat (List.length (filteredItems st)) - 1)); lia.
Qed.

(** ArrowDown and ArrowUp undo each other strictly inside the list, and
    not at its ends: from a row that is not the last, down then up comes
    back to it; from a row that is not the first, up then down comes back to
    it; from "none", down then up stops on the first row, so that the
    keyboard never returns the focus to "none". *)
Theorem arrows_round_trip (st : state) :
  isOpen st = true ->
  let count := Z.of_nat (List.length (filteredItems st)) in
  let down_up := run P st [KeyDown "ArrowDown"; KeyDown "ArrowUp"] in
  let up_down := run P st [KeyDown "ArrowUp"; KeyDown "ArrowDown"] in
  (0 <= focusedIndex st < count - 1 -> focusedIndex down_up = focusedIndex st)
  /\ (0 < focusedIndex st <= count - 1 -> focusedIndex up_down = focusedIndex st)
  /\ (focusedIndex st = -1 -> 0 < count -> focusedIndex down_up = 0)
  /\ (0 <= focusedIndex st -> 0 <= focusedIndex down_up /\ 0 <= focusedIndex up_down).
Proof.
  intros Hopen. cbv zeta. cbn [run List.fold_left].
  rewrite (ArrowDown_step st Hopen), (ArrowUp_step st Hopen).
  rewrite ArrowUp_step, ArrowDown_step by exact Hopen. cbn.
  destruct (Z.ltb_spec (focusedIndex st)
              (Z.of_nat (List.length (filteredItems st)) - 1));
    destruct (Z.gtb_spec (focusedIndex st) 0);
    repeat split; intros;
    repeat match goal with
           | |- context [?a >? ?b] => destruct (Z.gtb_spec a b)
           | |- context [?a <? ?b] => destruct (Z.ltb_spec a b)
           end; lia.
Qed.

End FocusIndex.

Lemma focus_index_floor_witness :
  -1 <= focusedIndex
          (run singleProps (initial singleProps JUndefined)
             [InputFocus; KeyDown "ArrowUp"; KeyDown "ArrowUp"]).
Proof.
  apply (focus_index_floor singleProps).
  exists JUndefined, [InputFocus; KeyDown "ArrowUp"; KeyDown "ArrowUp"].
  reflexivity.
Defined.

Lemma ArrowDown_repeated_witness :
  focusedIndex
    (run singleProps (step singleProps (initial singleProps JUndefined) InputFocus)
       (List.repeat (KeyDown "ArrowDown") 5))
  = 1.
Proof.
  exact (proj1 (ArrowDown_repeated singleProps eq_refl 5
                  (step singleProps (initial singleProps JUndefined) InputFocus)
                  eq_refl ltac:(vm_compute; discriminate))).
Defined.

Lemma arrows_round_trip_witness :
  focusedIndex
    (run singleProps (step singleProps (initial singleProps JUndefined) InputFocus)
       [KeyDown "ArrowDown"; KeyDown "ArrowUp"])
  = 0.
Proof.
  destruct (arrows_round_trip singleProps eq_refl
              (step singleProps (initial singleProps JUndefined) InputFocus)
              eq_refl) as (_ & _ & H & _).
  exact (H eq_refl ltac:(vm_compute; reflexivity)).
Defined.

(** ** The two layers of the selection along a session *)

Section Layers.

Variable P : LookupProps.

(** Opening the dropdown by focusing the input and closing it again, in any
    of the four ways, without a toggle in between, leaves the Committed
    Selection as it was, in single-select and in multi-select mode. *)
Theorem open_close_unchanged (st : state) (c : Spec.closing) :
  exists st',
    Spec.close P c (handleFocus P st) = Ok st'
    /\ displayedSelected st' = displayedSelected st
    /\ isOpen st' = false
    /\ notified st' = notified st.
Proof.
  assert (Hopen : isOpen (handleFocus P st) = true).
  { unfold handleFocus. destruct (multipleSelect P), (_ && _)%bool; reflexivity. }
  assert (Hcases :
            forall h,
              (h = handleClickOutside P \/ h = handleBlur P
               \/ h = handleKeyboardClose P) ->
              displayedSelected (h (handleFocus P st)) = displayedSelected st
              /\ isOpen (h (handleFocus P st)) = false
              /\ notified (h (handleFocus P st)) = notified st).
  { intros h [->|[->| ->]];
      unfold handleClickOutside, handleBlur, handleKeyboardClose, handleFocus;
      destruct (multipleSelect P), (negb (isCallback P) && _)%bool;
      cbn; try (repeat split; reflexivity);
      destruct (JS.strict_eq (displayedSelected st) JNull);
      repeat split; reflexivity. }
  destruct c; cbn [Spec.close].
  - eexists. split; [reflexivity|]. apply Hcases. auto.
  - eexists. split; [reflexivity|]. apply Hcases. auto.
  - rewrite Escape_closes by exact Hopen.
    eexists. split; [reflexivity|]. apply Hcases. auto.
  - rewrite Tab_closes by exact Hopen.
    eexists. split; [reflexivity|]. apply Hcases. auto.
Qed.

(** A close commits the Tentative Selection over whatever was written to
    the Committed Selection during the session. *)
Lemma close_overwrites (st st1 : state) (c : Spec.closing) :
  multipleSelect P = true ->
  isOpen st1 = true ->
  workingSelected st1 = workingSelected st ->
  workingSelected st <> JNull ->
  exists st',
    Spec.close P c st1 = Ok st'
    /\ displayedSelected st' = workingSelected st
    /\ notified st' = notified st1.
Proof.
  intros Hmulti Hopen Hsame Hset.
  assert (Hne : JS.strict_eq (workingSelected st1) JNull = false)
    by (apply strict_eq_null_false; congruence).
  assert (Hcases :
            forall h,
              (h = handleClickOutside P \/ h = handleBlur P
               \/ h = handleKeyboardClose P) ->
              displayedSelected (h st1) = workingSelected st
              /\ notified (h st1) = notified st1).
  { intros h [->|[->| ->]];
      unfold handleClickOutside, handleBlur, handleKeyboardClose;
      rewrite Hmulti, Hne; cbn; rewrite Hsame; split; reflexivity. }
  destruct c; cbn [Spec.close].
  - eexists. split; [reflexivity|]. apply Hcases. auto.
  - eexists. split; [reflexivity|]. apply Hcases. auto.
  - rewrite Escape_closes by exact Hopen.
    eexists. split; [reflexivity|]. apply Hcases. auto.
  - rewrite Tab_closes by exact Hopen.
    eexists. split; [reflexivity|]. apply Hcases. auto.
Qed.

(** An update of the [selected] prop that arrives while a multi-select
    session has a Tentative Selection is shown at once, but the next close
    replaces it by the Tentative Selection: the update of the host does not
    survive the session. *)
Theorem external_update_overwritten_on_close
    (st : state) (selected : jsval) (c : Spec.closing) :
  multipleSelect P = true ->
  isOpen st = true ->
  workingSelected st <> JNull ->
  displayedSelected (step P st (SelectedProp selected)) = selected
  /\ workingSelected (step P st (SelectedProp selected)) = workingSelected st
  /\ exists st',
       Spec.close P c (step P st (SelectedProp selected)) = Ok st'
       /\ displayedSelected st' = workingSelected st.
Proof.
  intros Hmulti Hopen Hset. cbn [step].
  split; [reflexivity|]. split; [reflexivity|].
  destruct (close_overwrites st (setDisplayedSelected selected st) c
              Hmulti Hopen eq_refl Hset) as (st' & Hc & Hd & _).
  exists st'. split; assumption.
Qed.

(** Clear-all and the removal of a pill write the Committed Selection and
    notify the host, but leave the Tentative Selection alone; while a session
    has one, the next close puts the Tentative Selection back, so that the
    host has been told of a selection the widget no longer shows. *)
Theorem direct_edit_overwritten_on_close
    (st : state) (index : nat) (c : Spec.closing) :
  multipleSelect P = true ->
  onSelect P = true ->
  isOpen st = true ->
  workingSelected st <> JNull ->
  (exists st',
      Spec.close P c (handleClearAll P st) = Ok st'
      /\ displayedSelected (handleClearAll P st) = JArr []
      /\ displayedSelected st' = workingSelected st
      /\ notified st' = (notified st ++ [JArr []])%list)
  /\ (exists st',
         Spec.close P c (handleRemoveSelected P index st) = Ok st'
         /\ displayedSelected st' = workingSelected st).
Proof.
  intros Hmulti Hhost Hopen Hset. split.
  - destruct (close_overwrites st (handleClearAll P st) c Hmulti)
      as (st' & Hc & Hd & Hn); try assumption.
    + unfold handleClearAll, notify. rewrite Hmulti, Hhost. exact Hopen.
    + unfold handleClearAll, notify. rewrite Hmulti, Hhost. reflexivity.
    + exists st'. split; [exact Hc|].
      split; [unfold handleClearAll, notify; rewrite Hmulti, Hhost; reflexivity|].
      split; [exact Hd|]. rewrite Hn.
      unfold handleClearAll, notify. rewrite Hmulti, Hhost. reflexivity.
  - destruct (close_overwrites st (handleRemoveSelected P index st) c Hmulti)
      as (st' & Hc & Hd & _); try assumption.
    + unfold handleRemoveSelected, notify. rewrite Hhost.
      destruct (_ || _)%bool; exact Hopen.
    + unfold handleRemoveSelected, notify. rewrite Hhost.
      destruct (_ || _)%bool; reflexivity.
    + exists st'. split; assumption.
Qed.

(** In a dropdown-type multi-select widget, a click on the trigger while
    the list is open closes it without a merge: the Tentative Selection is
    reset to the Committed Selection.  A toggle made just before is thereby
    dropped, although the host was notified of it, and a close that follows
    commits nothing new. *)
Theorem trigger_click_discards_toggle (st : state) (v : jsval) :
  type P = dropdown ->
  disabled P = false ->
  multipleSelect P = true ->
  onSelect P = true ->
  isOpen st = true ->
  let toggled := handleSelectItem P v st in
  let clicked := handleInputBoxClick P toggled in
  workingSelected toggled = v
  /\ notified toggled = (notified st ++ [v])%list
  /\ isOpen clicked = false
  /\ displayedSelected clicked = displayedSelected st
  /\ workingSelected clicked = displayedSelected st
  /\ displayedSelected (handleClickOutside P clicked) = displayedSelected st.
Proof.
  intros Htype Hen Hmulti Hhost Hopen. cbv zeta.
  unfold handleClickOutside, handleInputBoxClick, handleSelectItem, notify.
  rewrite Htype, Hen, Hmulti, Hhost. cbn. rewrite Hopen.
  destruct (negb (isCallback P) && true)%bool; cbn;
    destruct (JS.strict_eq (displayedSelected st) JNull); repeat split.
Qed.

End Layers.

Lemma external_update_overwritten_on_close_witness :
  exists st',
    Spec.close multiProps Spec.ByBlur
      (step multiProps betaPicked (SelectedProp (JArr [JStr "Alpha"]))) = Ok st'
    /\ displayedSelected st' = JArr [JStr "Beta"].
Proof.
  destruct (external_update_overwritten_on_close multiProps betaPicked
              (JArr [JStr "Alpha"]) Spec.ByBlur eq_refl eq_refl
              ltac:(vm_compute; discriminate)) as (_ & _ & st' & Hc & Hd).
  exists st'. split; [exact Hc|exact Hd].
Defined.

Lemma direct_edit_overwritten_on_close_witness :
  exists st',
    Spec.close multiProps Spec.ByOutsideClick (handleClearAll multiProps betaPicked)
    = Ok st'
    /\ displayedSelected (handleClearAll multiProps betaPicked) = JArr []
    /\ displayedSelected st' = JArr [JStr "Beta"].
Proof.
  destruct (direct_edit_overwritten_on_close multiProps betaPicked 0
              Spec.ByOutsideClick eq_refl eq_refl eq_refl
              ltac:(vm_compute; discriminate))
    as ((st' & Hc & He & Hd & _) & _).
  exists st'. split; [exact Hc|]. split; [exact He|exact Hd].
Defined.

Lemma trigger_click_discards_toggle_witness :
  let opened := step dropdownMultiProps (initial dropdownMultiProps JUndefined)
                  InputBoxClick in
  let clicked :=
    handleInputBoxClick dropdownMultiProps
      (handleSelectItem dropdownMultiProps (JArr [JStr "One"]) opened) in
  isOpen clicked = false
  /\ displayedSelected clicked = JUndefined
  /\ displayedSelected (handleClickOutside dropdownMultiProps clicked) = JUndefined.
Proof.
  cbv zeta.
  destruct (trigger_click_discards_toggle dropdownMultiProps
              (step dropdownMultiProps (initial dropdownMultiProps JUndefined)
                 InputBoxClick)
              (JArr [JStr "One"]) eq_refl eq_refl eq_refl eq_refl eq_refl)
    as (_ & _ & H1 & H2 & _ & H3).
  split; [exact H1|]. split; [exact H2|exact H3].
Defined.

(** ** Pills *)

Section Pills.

Variable P : LookupProps.

Lemma without_index_length {A} (index : nat) (arr : list A) :
  (index < List.length arr)%nat ->
  S (List.length (without_index index arr)) = List.length arr.
Proof.
  revert index. induction arr as [|x arr IH]; intros [|index] H; cbn in *;
    try lia. rewrite IH by lia. reflexivity.
Qed.

Lemma without_index_out {A} (index : nat) (arr : list A) :
  (List.length arr <= index)%nat -> without_index index arr = arr.
Proof.
  revert index. induction arr as [|x arr IH]; intros [|index] H; cbn in *;
    try reflexivity; try lia. rewrite IH by lia. reflexivity.
Qed.

Lemma without_index_In {A} (index : nat) (arr : list A) (x : A) :
  In x (without_index index arr) -> In x arr.
Proof.
  revert index. induction arr as [|y arr IH]; intros [|index] H; cbn in *;
    auto. destruct H as [->|H]; eauto.
Qed.

(** Removing a pill and reading the selection back.  For a selection of
    items that are truthy and are not arrays (records, non-empty strings),
    removing the pill at [index] leaves exactly the other items, in order,
    one fewer when the index is in range, although the host is handed the
    bare item when one is left. *)
Theorem remove_pill_read_back (index : nat) (st : state) :
  multipleSelect P = true ->
  Forall (fun item => JS.ToBoolean item = true /\ JS.isArray item = false)
    (selectedArray st) ->
  selectedArray (handleRemoveSelected P index st)
  = without_index index (selectedArray st)
  /\ ((index < List.length (selectedArray st))%nat ->
      S (List.length (selectedArray (handleRemoveSelected P index st)))
      = List.length (selectedArray st))
  /\ workingSelected (handleRemoveSelected P index st) = workingSelected st.
Proof.
  intros Hmulti Hall.
  assert (Hread : selectedArray (handleRemoveSelected P index st)
                  = without_index index (selectedArray st)).
  { unfold handleRemoveSelected, notify. rewrite Hmulti. cbn [negb orb].
    destruct (selectedArray st) as [|x l] eqn:Hsel.
    - cbn [List.length Nat.eqb]. rewrite Hsel. destruct index; reflexivity.
    - cbn [List.length Nat.eqb].
      assert (Hin : forall y, In y (without_index index (x :: l)) ->
                              JS.ToBoolean y = true /\ JS.isArray y = false).
      { intros y Hy. apply without_index_In in Hy.
        rewrite List.Forall_forall in Hall. exact (Hall y Hy). }
      destruct (without_index index (x :: l)) as [|a [|b rest]];
        destruct (onSelect P); unfold selectedArray, asArray;
        cbn [displayedSelected setDisplayedSelected set_notified];
        try reflexivity;
        destruct (Hin a (or_introl eq_refl)) as [Ht Ha]; rewrite Ht;
        cbn [negb]; destruct a; try discriminate; reflexivity. }
  split; [exact Hread|]. split.
  - intros Hlt. rewrite Hread. now apply without_index_length.
  - unfold handleRemoveSelected, notify.
    destruct (_ || _)%bool; [reflexivity|]. destruct (onSelect P); reflexivity.
Qed.

End Pills.

Lemma remove_pill_read_back_witness :
  selectedArray
    (handleRemoveSelected multiProps 0
       (initial multiProps (JArr [JStr "Alpha"; JStr "Beta"])))
  = [JStr "Beta"].
Proof.
  refine (proj1 (remove_pill_read_back multiProps 0
                   (initial multiProps (JArr [JStr "Alpha"; JStr "Beta"]))
                   eq_refl _)).
  repeat constructor.
Defined.

(** A selected empty string is lost when it is the one item left: the host
    is handed [""], which reads back as no selection. *)
Example remove_pill_empty_string :
  selectedArray
    (handleRemoveSelected multiProps 0
       (initial multiProps (JArr [JStr "Alpha"; JStr ""])))
  = [].
Proof. reflexivity. Qed.

(** ** Committing in single-select mode *)

(** Enter on a focused row in single-select mode commits the candidate at
    that row: it becomes the Committed Selection, the host is notified with
    it, the dropdown closes and the text is cleared; the Tentative Selection
    is not touched.  With a static source, the next focus shows the whole
    collection again, whatever filter was on screen, with the choice kept. *)
Theorem single_select_commit (P : LookupProps) (st : state) :
  multipleSelect P = false ->
  isOpen st = true ->
  0 <= focusedIndex st < Z.of_nat (List.length (filteredItems st)) ->
  exists item,
    filteredItems st !! Z.to_nat (focusedIndex st) = Some item
    /\ handleKeyDown P "Enter" st = Ok (handleSelectItem P item st)
    /\ displayedSelected (handleSelectItem P item st) = item
    /\ workingSelected (handleSelectItem P item st) = workingSelected st
    /\ isOpen (handleSelectItem P item st) = false
    /\ inputValue (handleSelectItem P item st) = ""
    /\ notified (handleSelectItem P item st)
       = (notified st ++ if onSelect P then [item] else [])%list
    /\ (isCallback P = false ->
        filteredItems (handleFocus P (handleSelectItem P item st)) = baseItems P
        /\ displayedSelected (handleFocus P (handleSelectItem P item st)) = item).
Proof.
  intros Hsingle Hopen Hrange.
  destruct (lookup_lt_is_Some_2 (filteredItems st) (Z.to_nat (focusedIndex st)))
    as (item & Hitem); [lia|].
  exists item. split; [exact Hitem|].
  split.
  - unfold handleKeyDown, KeyboardNavigation.handleKeyDown. rewrite Hopen.
    cbn [negb String.eqb Ascii.eqb Bool.eqb andb KeyboardNavigation.called].
    replace ((focusedIndex st >=? 0)
             && (focusedIndex st <? Z.of_nat (List.length (filteredItems st))))%bool
      with true by (symmetry; apply andb_true_iff; split; lia).
    unfold handleKeyboardSelect.
    replace ((focusedIndex st >=? 0)
             && (focusedIndex st <? Z.of_nat (List.length (filteredItems st))))%bool
      with true by (symmetry; apply andb_true_iff; split; lia).
    rewrite Hsingle, (nth_lookup_Some _ _ JUndefined _ Hitem). reflexivity.
  - unfold handleFocus, handleSelectItem, notify. rewrite Hsingle.
    destruct (onSelect P); cbn; rewrite ?app_nil_r;
      (split; [reflexivity|]); (split; [reflexivity|]);
      (split; [reflexivity|]); (split; [reflexivity|]);
      (split; [reflexivity|]); intros ->; split; reflexivity.
Qed.

Lemma single_select_commit_witness :
  exists item,
    handleKeyDown singleProps "Enter"
      (run singleProps (initial singleProps JUndefined)
         [InputFocus; InputChange "be"; KeyDown "ArrowDown"])
    = Ok (handleSelectItem singleProps item
            (run singleProps (initial singleProps JUndefined)
               [InputFocus; InputChange "be"; KeyDown "ArrowDown"]))
    /\ item = JStr "Beta"
    /\ filteredItems
         (handleFocus singleProps
            (handleSelectItem singleProps item
               (run singleProps (initial singleProps JUndefined)
                  [InputFocus; InputChange "be"; KeyDown "ArrowDown"])))
       = [JStr "Alpha"; JStr "Beta"].
Proof.
  destruct (single_select_commit singleProps
              (run singleProps (initial singleProps JUndefined)
                 [InputFocus; InputChange "be"; KeyDown "ArrowDown"])
              eq_refl eq_refl ltac:(vm_compute; split; [discriminate|reflexivity]))
    as (item & Hitem & Hk & _ & _ & _ & _ & _ & Hfocus).
  exists item. split; [exact Hk|].
  assert (Hi : item = JStr "Beta") by (vm_compute in Hitem; congruence).
  split; [exact Hi|]. exact (proj1 (Hfocus eq_refl)).
Defined.

(** ** More on filtering *)

Lemma filter_throws {A} (p : A -> outcome bool) (l : list A) (x : A) (e0 : thrown) :
  In x l -> p x = Throw e0 ->
  exists y e, In y l /\ p y = Throw e /\ JS.filter p l = Throw e.
Proof.
  induction l as [|a l IH]; intros Hin Hx; [contradiction|].
  cbn [JS.filter]. destruct (p a) as [b|e] eqn:Ha.
  - destruct Hin as [->|Hin]; [congruence|].
    destruct (IH Hin Hx) as (y & e & Hy & Hpy & Hf).
    exists y, e. cbn [bind]. rewrite Hf. split; [right; exact Hy|]. split; auto.
  - exists a, e. split; [left; reflexivity|]. split; auto.
Qed.

Lemma filter_ok {A} (p : A -> outcome bool) (l r : list A) :
  JS.filter p l = Ok r ->
  (forall x, In x r -> In x l /\ p x = Ok true)
  /\ (List.length r <= List.length l)%nat.
Proof.
  revert r. induction l as [|a l IH]; intros r; cbn [JS.filter].
  - intros [= <-]. split; [contradiction|reflexivity].
  - destruct (p a) as [b|] eqn:Ha; cbn [bind]; [|discriminate].
    destruct (JS.filter p l) as [kept|]; cbn [bind]; [|discriminate].
    destruct (IH kept eq_refl) as (Hin & Hlen).
    intros [= <-]. destruct b.
    + split; [|cbn; lia]. intros x [Hax|Hx].
      * subst x. split; [left; reflexivity|exact Ha].
      * destruct (Hin x Hx). split; [right; assumption|assumption].
    + split; [|cbn; lia]. intros x Hx. destruct (Hin x Hx).
      split; [right; assumption|assumption].
Qed.

Lemma filter_all {A} (f : A -> bool) (l : list A) :
  (forall x, In x l -> f x = true) -> List.filter f l = l.
Proof.
  induction l as [|a l IH]; intros H; [reflexivity|]. cbn [List.filter].
  rewrite (H a (or_introl eq_refl)), IH by (intros; apply H; right; assumption).
  reflexivity.
Qed.

Section MoreFiltering.

Variables (isStringType : bool) (matchFields : option (list string))
  (type : lookupType).

Let filterItems := FilteredItems.filterItems isStringType matchFields type.

(** What [filterItems] returns is made of candidates, in no greater
    number, and filtering it again with the same text gives it back. *)
Theorem filterItems_idempotent (query : string) (candidates shown : list jsval) :
  filterItems query candidates = Ok shown ->
  (forall item, In item shown -> In item candidates)
  /\ (List.length shown <= List.length candidates)%nat
  /\ filterItems query shown = Ok shown.
Proof.
  unfold filterItems, FilteredItems.filterItems.
  destruct (String.eqb query ""); [intros [= <-]; auto|].
  destruct type; [|intros [= <-]; auto].
  destruct isStringType.
  - intros [= <-]. split; [|split].
    + intros item Hin. apply List.filter_In in Hin. tauto.
    + apply List.filter_length_le.
    + f_equal. apply filter_all. intros x Hx.
      apply List.filter_In in Hx. tauto.
  - intros H. destruct (filter_ok _ _ _ H) as (Hin & Hlen).
    split; [intros item Hi; apply Hin; exact Hi|]. split; [exact Hlen|].
    rewrite (filter_total _ (fun _ => true))
      by (intros x Hx; apply Hin; exact Hx).
    f_equal. apply filter_all. reflexivity.
Qed.

(** The case of the letters of the query does not matter: two queries
    that differ only in case filter alike, whatever the candidates. *)
Theorem filterItems_query_case (query query' : string) (candidates : list jsval) :
  Str.eq_ignoring_case query query' ->
  filterItems query candidates = filterItems query' candidates.
Proof.
  intros Heq.
  assert (Hempty : String.eqb query "" = String.eqb query' "")
    by (destruct Heq; reflexivity).
  apply eq_ignoring_case_lower in Heq.
  unfold filterItems, FilteredItems.filterItems. rewrite Hempty, Heq.
  reflexivity.
Qed.

End MoreFiltering.

Lemma filterItems_idempotent_witness :
  FilteredItems.filterItems true None combobox "al" [JStr "Alpha"]
  = Ok [JStr "Alpha"].
Proof.
  exact (proj2 (proj2 (filterItems_idempotent true None combobox "al"
                         [JStr "Alpha"; JStr "Beta"] [JStr "Alpha"] eq_refl))).
Defined.

Lemma filterItems_query_case_witness :
  FilteredItems.filterItems true None combobox "AL" [JStr "Alpha"; JStr "Beta"]
  = FilteredItems.filterItems true None combobox "al" [JStr "Alpha"; JStr "Beta"].
Proof.
  apply filterItems_query_case. repeat constructor.
Defined.

(** ** Results of a provider under the record filter *)

Section ProviderResults.

Variable P : LookupProps.
Hypothesis provider : items P = SourceCallback.
Hypothesis typing : type P = combobox.

Lemma provider_shape : isStringType P = false.
Proof. unfold isStringType, baseItems. rewrite provider. reflexivity. Qed.

(** The test of the record branch of [filterItems]. *)
Let record_test (searchLower : string) (item : jsval) : outcome bool :=
  match matchFields P with
  | Some ((_ :: _) as fields) =>
      JS.some
        (fun field =>
           let* value := JS.get item field in
           Ok (Str.includes (Str.toLowerCase (JS.ToString value)) searchLower))
        fields
  | _ =>
      let* values := JS.Object_values item in
      Ok (List.existsb
            (fun value =>
               Str.includes (Str.toLowerCase (JS.ToString value)) searchLower)
            values)
  end.

Lemma record_test_null (searchLower : string) (item : jsval) :
  item = JNull \/ item = JUndefined ->
  exists message, record_test searchLower item = Throw (ErrorObj "TypeError" message).
Proof.
  unfold record_test. intros [->| ->];
    destruct (matchFields P) as [[|f fs]|]; cbn; eauto.
Qed.

Lemma record_test_throws (searchLower : string) (item : jsval) (e : thrown) :
  record_test searchLower item = Throw e ->
  exists message, e = ErrorObj "TypeError" message.
Proof.
  unfold record_test.
  destruct item as [| |b|n|s|fields|elems];
    try (destruct (matchFields P) as [[|f fs]|]; cbn; intros [= <-]; eauto; fail);
    destruct (matchFields P) as [[|f fs]|]; cbn [JS.Object_values bind];
    try discriminate;
    match goal with
    | |- JS.some ?p ?l = Throw e -> _ =>
        rewrite (some_total p
                   (fun field =>
                      match p field with Ok b => b | Throw _ => false end) l);
        [discriminate|]
    end;
    intros field _; cbn [JS.get];
    repeat match goal with
           | |- context [if ?c then _ else _] => destruct c
           | |- context [match ?c with Some _ => _ | None => _ end] => destruct c
           end; reflexivity.
Qed.

(** A provider's array that passes the check on its first element and
    holds [null] or [undefined] further on: with a text to filter by, the
    filter throws on that element, and the [TypeError] of the engine is shown
    to the user with the candidate set emptied, like a failure of the
    provider. *)
Theorem null_result_surfaces_type_error
    (r : request) (elems : list jsval) (st : state) :
  aborted st (signal r) = false ->
  searchText r <> "" ->
  Spec.first_element_checked (JArr elems) = true ->
  In JNull elems \/ In JUndefined elems ->
  exists message,
    FilteredItems.filterItems (isStringType P) (matchFields P) (type P)
      (searchText r) elems = Throw (ErrorObj "TypeError" message)
    /\ error (resume P r (Fulfilled (JArr elems)) st) = Some message
    /\ filteredItems (resume P r (Fulfilled (JArr elems)) st) = []
    /\ isLoading (resume P r (Fulfilled (JArr elems)) st) = false.
Proof.
  intros Hcur Hq Hfirst Hnull.
  assert (Hthrow : exists message,
             FilteredItems.filterItems (isStringType P) (matchFields P) (type P)
               (searchText r) elems = Throw (ErrorObj "TypeError" message)).
  { unfold FilteredItems.filterItems.
    rewrite (eqb_ne _ _ Hq), typing, provider_shape.
    assert (Hx : exists x, In x elems /\ (x = JNull \/ x = JUndefined))
      by (destruct Hnull; eauto).
    destruct Hx as (x & Hin & Hx).
    destruct (record_test_null (Str.toLowerCase (searchText r)) x Hx)
      as (m0 & Hm0).
    destruct (filter_throws (record_test (Str.toLowerCase (searchText r)))
                elems x _ Hin Hm0) as (y & e & _ & Hy & Hf).
    destruct (record_test_throws _ _ _ Hy) as (message & ->).
    exists message. exact Hf. }
  destruct Hthrow as (message & Hthrow). exists message.
  split; [exact Hthrow|].
  destruct (validateResults_accepts _ Hfirst) as (elems' & [= <-] & Hv).
  unfold resume. rewrite Hcur, Hv. cbn [bind]. rewrite Hthrow.
  repeat split; reflexivity.
Qed.

Lemma length_append (s t : string) :
  String.length (s ++ t) = (String.length s + String.length t)%nat.
Proof. induction s as [|c s IH]; cbn; [reflexivity|now rewrite IH]. Qed.

Lemma includes_length (h n : string) :
  Str.includes h n = true -> (String.length n <= String.length h)%nat.
Proof.
  intros H. apply includes_app in H as (pre & post & ->).
  rewrite !length_append. lia.
Qed.

Lemma toLowerCase_length (s : string) :
  String.length (Str.toLowerCase s) = String.length s.
Proof. induction s as [|c s IH]; cbn; [reflexivity|now rewrite IH]. Qed.

Lemma chars_single (s : string) (v : jsval) :
  In v (List.map JStr (Str.chars s)) -> String.length (JS.ToString v) = 1%nat.
Proof.
  induction s as [|c s IH]; cbn; [contradiction|].
  intros [<-|H]; [reflexivity|exact (IH H)].
Qed.

(** Strings that come from a provider are filtered as records: the shape
    flag is "record" for a provider, so each string is matched character by
    character.  With no match fields and a text of two characters or more,
    no string is kept, whatever it contains: the candidate set is empty,
    without an error, and the focus index is still set to the first row when
    the provider returned something. *)
Theorem provider_strings_filtered_out
    (r : request) (elems : list jsval) (st : state) :
  matchFields P = None ->
  aborted st (signal r) = false ->
  (2 <= String.length (searchText r))%nat ->
  Forall (fun item => JS.is_string item = true) elems ->
  let st' := resume P r (Fulfilled (JArr elems)) st in
  filteredItems st' = []
  /\ error st' = error st
  /\ focusedIndex st' = (if (0 <? List.length elems)%nat then 0 else focusedIndex st).
Proof.
  intros Hmf Hcur Hlen Hall st'.
  assert (Hq : searchText r <> "")
    by (intros Hq; rewrite Hq in Hlen; cbn in Hlen; lia).
  assert (Hfilter :
            FilteredItems.filterItems (isStringType P) (matchFields P) (type P)
              (searchText r) elems = Ok []).
  { unfold FilteredItems.filterItems.
    rewrite (eqb_ne _ _ Hq), typing, provider_shape, Hmf.
    rewrite (filter_total _ (fun _ => false)).
    - f_equal. clear. induction elems as [|x l IH]; [reflexivity|exact IH].
    - intros x Hx. rewrite List.Forall_forall in Hall. specialize (Hall x Hx).
      destruct x as [| | | |s| |]; try discriminate. cbn [JS.Object_values bind].
      f_equal. apply not_true_is_false. intros Hex.
      apply existsb_exists in Hex as (v & Hv & Hinc).
      apply includes_length in Hinc.
      rewrite !toLowerCase_length, (chars_single s v Hv) in Hinc. lia. }
  assert (Hfirst : Spec.first_element_checked (JArr elems) = true).
  { destruct elems as [|x l]; [reflexivity|].
    inversion Hall as [|? ? Hx _]; subst. destruct x; try discriminate.
    reflexivity. }
  destruct (validateResults_accepts _ Hfirst) as (elems' & [= <-] & Hv).
  unfold st', resume. rewrite Hcur, Hv. cbn [bind]. rewrite Hfilter. cbn [bind].
  destruct (0 <? List.length elems)%nat; repeat split; reflexivity.
Qed.

End ProviderResults.

Lemma null_result_surfaces_type_error_witness :
  exists message,
    error
      (resume asyncProps {| searchText := "a"; signal := 0; pending := true |}
         (Fulfilled (JArr [JStr "a"; JNull]))
         (run asyncProps (initial asyncProps JUndefined)
            [InputFocus; InputChange "a"]))
    = Some message.
Proof.
  destruct (null_result_surfaces_type_error asyncProps eq_refl eq_refl
              {| searchText := "a"; signal := 0; pending := true |}
              [JStr "a"; JNull]
              (run asyncProps (initial asyncProps JUndefined)
                 [InputFocus; InputChange "a"])
              eq_refl ltac:(discriminate) eq_refl
              (or_introl (or_intror (or_introl eq_refl))))
    as (message & _ & He & _).
  exists message. exact He.
Defined.

Lemma provider_strings_filtered_out_witness :
  filteredItems
    (resume asyncProps {| searchText := "Al"; signal := 0; pending := true |}
       (Fulfilled (JArr [JStr "Alpha"]))
       (run asyncProps (initial asyncProps JUndefined)
          [InputFocus; InputChange "Al"]))
  = [].
Proof.
  exact (proj1 (provider_strings_filtered_out asyncProps eq_refl eq_refl
                  {| searchText := "Al"; signal := 0; pending := true |}
                  [JStr "Alpha"]
                  (run asyncProps (initial asyncProps JUndefined)
                     [InputFocus; InputChange "Al"])
                  eq_refl eq_refl ltac:(cbn; lia) ltac:(repeat constructor))).
Defined.

(** ** What the host hears *)

Section Host.

Variable P : LookupProps.

Lemma handleSelectItem_notified (v : jsval) (st : state) :
  notified (handleSelectItem P v st)
  = (notified st ++ if onSelect P then [v] else [])%list.
Proof.
  unfold handleSelectItem, notify.
  destruct (multipleSelect P), (onSelect P); cbn; rewrite ?app_nil_r; reflexivity.
Qed.

(** One event calls [onSelect] at most once, and only a key press, a press
    on a row, the removal of a pill or clear-all can call it: typing, focus,
    blur, outside clicks, timeouts, the settling of a provider call, updates
    of the [selected] prop and layout never notify the host, and nothing is
    ever taken back from what it was told. *)
Theorem at_most_one_notification (st : state) (ev : event) :
  exists said,
    notified (step P st ev) = (notified st ++ said)%list
    /\ (List.length said <= 1)%nat
    /\ (can_notify ev = false -> said = [])
    /\ (onSelect P = false -> said = []).
Proof.
  assert (Hsame : forall st', notified st' = notified st ->
            exists said,
              notified st' = (notified st ++ said)%list
              /\ (List.length said <= 1)%nat
              /\ (can_notify ev = false -> said = [])
              /\ (onSelect P = false -> said = [])).
  { intros st' ->. exists []. rewrite app_nil_r. repeat split; auto. }
  assert (Hone : forall st' v,
            can_notify ev = true ->
            notified st' = (notified st ++ if onSelect P then [v] else [])%list ->
            exists said,
              notified st' = (notified st ++ said)%list
              /\ (List.length said <= 1)%nat
              /\ (can_notify ev = false -> said = [])
              /\ (onSelect P = false -> said = [])).
  { intros st' v Hcan ->. exists (if onSelect P then [v] else []).
    split; [reflexivity|].
    split; [destruct (onSelect P); cbn; lia|].
    split; [congruence|]. intros ->. reflexivity. }
  destruct ev as [value| | |key| | | |index|index| |timer|call how|selected|g];
    cbn [step].
  - apply Hsame. destruct (inputLive P); [|reflexivity].
    apply handleInputChange_error.
  - apply Hsame. destruct (inputLive P); [|reflexivity].
    unfold handleFocus. destruct (multipleSelect P), (_ && _)%bool; reflexivity.
  - apply Hsame. destruct (inputLive P); [|reflexivity].
    unfold handleBlur. destruct (_ && _)%bool; reflexivity.
  - destruct (inputLive P); [|apply Hsame; reflexivity].
    destruct (handleKeyDown P key st) as [st'|] eqn:Hk;
      [|apply Hsame; reflexivity].
    cbn [settled].
    apply handleKeyDown_cases in Hk
      as [->|[->|[->|[(v & ->)|(d & newIndex & _ & ->)]]]];
      try (apply Hsame; reflexivity).
    + apply Hsame. unfold handleKeyboardClose.
      destruct (_ && _)%bool; reflexivity.
    + apply (Hone _ v eq_refl). apply handleSelectItem_notified.
  - apply Hsame. unfold handleClickOutside. destruct (_ && _)%bool; reflexivity.
  - apply Hsame. unfold handleInputBoxClick.
    destruct (disabled P); [reflexivity|]. destruct (type P); [reflexivity|].
    destruct (multipleSelect P), (_ && _)%bool; reflexivity.
  - apply Hsame. destruct (_ && _)%bool; [|reflexivity].
    unfold handleSingleValueClick. destruct (isOpen st); reflexivity.
  - destruct (_ && _)%bool; [|apply Hsame; reflexivity].
    destruct (handleRowClick P index st) as [st'|] eqn:Hr;
      [|apply Hsame; reflexivity].
    cbn [settled]. apply handleRowClick_cases in Hr as (v & ->).
    apply (Hone _ v eq_refl). apply handleSelectItem_notified.
  - destruct (_ && _)%bool; [|apply Hsame; reflexivity].
    unfold handleRemoveSelected.
    destruct (_ || _)%bool; [apply Hsame; reflexivity|].
    match goal with
    | |- context [notify P ?v ?s] => apply (Hone _ v eq_refl)
    end.
    unfold notify. destruct (onSelect P); cbn; rewrite ?app_nil_r; reflexivity.
  - destruct (_ && _)%bool; [|apply Hsame; reflexivity].
    unfold handleClearAll.
    destruct (multipleSelect P); [|apply Hsame; reflexivity].
    apply (Hone _ (JArr []) eq_refl).
    unfold notify. destruct (onSelect P); cbn; rewrite ?app_nil_r; reflexivity.
  - apply Hsame. destruct (timers st !! timer) as [[value|]|]; try reflexivity.
    match goal with
    | |- notified (executeCallback P value ?s) = _ =>
        destruct (executeCallback_effect P value s)
          as (_ & _ & _ & _ & _ & _ & -> & _)
    end.
    reflexivity.
  - apply Hsame. destruct (requests st !! call) as [r|]; [|reflexivity].
    destruct (pending r); [|reflexivity].
    match goal with
    | |- notified (resume P r how ?s) = _ =>
        destruct (resume_frame P r how s) as (_ & _ & _ & _ & -> & _)
    end.
    reflexivity.
  - apply Hsame. reflexivity.
  - apply Hsame. unfold positionEffect. destruct (isOpen st); reflexivity.
Qed.

End Host.

(** ** Teardown *)

Lemma none_pending (l : list (option string)) :
  (forall t value, l !! t <> Some (Some value)) ->
  List.filter (fun t => match t with Some _ => true | None => false end) l = [].
Proof.
  induction l as [|[v|] l IH]; intros H; cbn [List.filter].
  - reflexivity.
  - exfalso. exact (H 0%nat v eq_refl).
  - apply IH. intros t value. exact (H (S t) value).
Qed.

(** When the widget is torn down, in whatever state it is, no timeout is
    left pending and every controller is aborted, so that the fulfilment of
    any call still in flight is discarded. *)
Theorem cleanup_releases (P : LookupProps) (st : state) :
  reachable P st ->
  pending_timers (cleanup st) = 0%nat
  /\ (forall c, (c < List.length (controllers (cleanup st)))%nat ->
                aborted (cleanup st) c = true)
  /\ (forall call r results,
         requests st !! call = Some r ->
         resume P r (Fulfilled results) (cleanup st)
         = setIsLoading false (cleanup st)).
Proof.
  intros Hreach.
  pose proof (reachable_one_timer P st Hreach) as Htimer.
  destruct (reachable_calls_ok P st Hreach) as ((Ha & Hb & Hc) & _).
  assert (Htimers : timers (cleanup st) = cleared st).
  { unfold cleanup, cleared.
    destruct (abortControllerRef st); cbn;
      destruct (debounceTimeoutRef st); reflexivity. }
  assert (Hctl : controllers (cleanup st)
                 = match abortControllerRef st with
                   | Some current => <[current := true]> (controllers st)
                   | None => controllers st
                   end).
  { unfold cleanup.
    destruct (abortControllerRef st); cbn;
      destruct (debounceTimeoutRef st); reflexivity. }
  assert (Hall : forall c, (c < List.length (controllers st))%nat ->
                           aborted (cleanup st) c = true).
  { intros c Hlt. unfold aborted. rewrite Hctl.
    destruct (abortControllerRef st) as [current|] eqn:Href.
    - destruct (Nat.eq_dec c current) as [->|Hne].
      + rewrite list_lookup_insert_eq by exact Hlt. reflexivity.
      + rewrite list_lookup_insert_ne by congruence.
        destruct (controllers st !! c) as [[|]|] eqn:Hl; try reflexivity.
        * apply Hb in Hl. congruence.
        * apply lookup_ge_None in Hl. lia.
    - destruct (controllers st !! c) as [[|]|] eqn:Hl; try reflexivity.
      + apply Hb in Hl. discriminate.
      + apply lookup_ge_None in Hl. lia. }
  assert (Hlen : List.length (controllers (cleanup st))
                 = List.length (controllers st)).
  { rewrite Hctl. destruct (abortControllerRef st);
      [apply length_insert|reflexivity]. }
  split; [|split].
  - unfold pending_timers. rewrite Htimers, none_pending; [reflexivity|].
    intros t value. now apply cleared_none.
  - intros c Hlt. apply Hall. lia.
  - intros call r results Hr.
    apply superseded_fulfilment_discarded. apply Hall. exact (Hc call r Hr).
Qed.

Lemma cleanup_releases_witness :
  pending_timers
    (cleanup (run debounceProps (initial debounceProps JUndefined)
                [InputFocus; InputChange "ab"])) = 0%nat.
Proof.
  refine (proj1 (cleanup_releases debounceProps _ _)).
  exists JUndefined, [InputFocus; InputChange "ab"]. reflexivity.
Defined.

(** ** What stands in for the input *)

(** The input is hidden exactly when there is a selection and the widget
    does not have the focus, in either mode; then the pills (multi-select) or
    the single value (single-select) stand in for it.  The pills and the
    single value are never shown together, and the pills are never shown
    without the clear-all button. *)
Theorem input_hidden_behind_selection (P : LookupProps) (st : state) :
  shouldHideInput P st
  = ((0 <? List.length (selectedArray st))%nat && negb (isFocused st))%bool
  /\ shouldHideInput P st
     = (showPills P st || (shouldShowSingleValue P st && negb (isFocused st)))%bool
  /\ (showPills P st && shouldShowSingleValue P st)%bool = false
  /\ (showPills P st = true -> shouldShowClearButton P st = true).
Proof.
  unfold shouldHideInput, showPills, shouldShowSingleValue, shouldShowClearButton.
  destruct (multipleSelect P), (0 <? List.length (selectedArray st))%nat,
    (isFocused st), (type P); repeat split; try reflexivity; discriminate.
Qed.

Lemma at_most_one_notification_witness :
  exists said,
    notified (step asyncProps
                (run asyncProps (initial asyncProps JUndefined) twoCalls)
                (ProviderSettles 1 (Fulfilled (JArr [JStr "ab"]))))
    = (notified (run asyncProps (initial asyncProps JUndefined) twoCalls)
       ++ said)%list
    /\ said = [].
Proof.
  destruct (at_most_one_notification asyncProps
              (run asyncProps (initial asyncProps JUndefined) twoCalls)
              (ProviderSettles 1 (Fulfilled (JArr [JStr "ab"]))))
    as (said & Hlog & _ & Hquiet & _).
  exists said. split; [exact Hlog|exact (Hquiet eq_refl)].
Defined.

Lemma input_hidden_behind_selection_witness :
  shouldShowClearButton multiProps
    (initial multiProps (JArr [JStr "Alpha"])) = true.
Proof.
  destruct (input_hidden_behind_selection multiProps
              (initial multiProps (JArr [JStr "Alpha"]))) as (_ & _ & _ & H).
  exact (H eq_refl).
Defined.

(** ** The checkbox of a row *)

Lemma isSelected_strings (items A : list jsval) (index : nat) (item : jsval) :
  items !! index = Some item ->
  Forall (fun item => JS.is_string item = true) items ->
  Forall (fun item => JS.is_string item = true) A ->
  VirtualizedList.isSelected
    {| VirtualizedList.items := items;
       VirtualizedList.selected := JArr A;
       VirtualizedList.multipleSelect := true;
       VirtualizedList.itemKey := None |} index
  = Ok (List.existsb (fun s => JS.strict_eq s item) A).
Proof.
  intros Hlook Hitems HA.
  unfold VirtualizedList.isSelected, VirtualizedList.itemValue,
    VirtualizedList.isStringList, VirtualizedList.selectedIsString,
    VirtualizedList.selectedItems.
  cbn [VirtualizedList.items VirtualizedList.selected
       VirtualizedList.multipleSelect VirtualizedList.itemKey].
  rewrite (nth_lookup_Some _ _ JUndefined _ Hlook).
  destruct items as [|first rest]; [discriminate|].
  inversion Hitems as [|? ? Hfirst _]; subst.
  destruct first; try discriminate.
  cbn [JS.typeof String.eqb Ascii.eqb Bool.eqb andb bind].
  destruct A as [|a A']; [reflexivity|].
  inversion HA as [|? ? Ha _]; subst.
  destruct a; try discriminate. reflexivity.
Qed.

Lemma isSelected_records (key : option string) (items A : list jsval)
    (index : nat) (fields : list (string * jsval)) :
  items !! index = Some (JObj fields) ->
  Forall (fun item => JS.is_record item = true) items ->
  Forall (fun item => JS.is_record item = true) A ->
  VirtualizedList.isSelected
    {| VirtualizedList.items := items;
       VirtualizedList.selected := JArr A;
       VirtualizedList.multipleSelect := true;
       VirtualizedList.itemKey := key |} index
  = Ok (List.existsb
          (fun s =>
             JS.strict_eq
               match s with
               | JObj f => JS.own (JS.key_name key) f
               | _ => JUndefined
               end
               (JS.own (JS.key_name key) fields)) A).
Proof.
  intros Hlook Hitems HA.
  unfold VirtualizedList.isSelected, VirtualizedList.itemValue,
    VirtualizedList.isStringList, VirtualizedList.selectedIsString,
    VirtualizedList.selectedItems.
  cbn [VirtualizedList.items VirtualizedList.selected
       VirtualizedList.multipleSelect VirtualizedList.itemKey].
  rewrite (nth_lookup_Some _ _ JUndefined _ Hlook).
  destruct items as [|first rest]; [discriminate|].
  inversion Hitems as [|? ? Hfirst _]; subst.
  destruct first; try discriminate.
  cbn [JS.typeof String.eqb Ascii.eqb Bool.eqb andb orb JS.get bind].
  assert (Hstr : match A with
                 | [] => false
                 | first :: _ => String.eqb (JS.typeof first) "string"
                 end = false).
  { destruct A as [|a A']; [reflexivity|].
    inversion HA as [|? ? Ha _]; subst. destruct a; try discriminate.
    reflexivity. }
  rewrite Hstr.
  match goal with
  | |- (let* found := JS.find ?p A in _) = Ok (List.existsb ?f A) =>
      destruct (find_records p f A) as (found & Hfound & Htruthy)
  end.
  - intros x Hx. rewrite List.Forall_forall in HA. specialize (HA x Hx).
    destruct x; try discriminate. reflexivity.
  - exact HA.
  - rewrite Hfound. cbn [bind]. rewrite Htruthy. reflexivity.
Qed.

Lemma existsb_added (f : jsval -> bool) (l : list jsval) (x : jsval) :
  f x = true -> List.existsb f (l ++ [x]) = true.
Proof.
  intros H. rewrite existsb_app. cbn. rewrite H. apply orb_true_r.
Qed.

Lemma existsb_removed (f : jsval -> bool) (l : list jsval) :
  List.existsb f (List.filter (fun s => negb (f s)) l) = false.
Proof.
  induction l as [|x l IH]; [reflexivity|]. cbn [List.filter].
  destruct (f x) eqn:Hx; cbn [negb List.existsb]; [exact IH|].
  rewrite Hx, IH. reflexivity.
Qed.

(** A press on a row of a multi-select list flips its checkbox: with the
    selection the press hands to [onSelect], the row is selected if and only
    if it was not.  This holds over a list and a selection of strings, and
    over a list and a selection of records compared by the item key. *)
Theorem click_flips_checkbox
    (key : option string) (items A : list jsval) (index : nat) (item : jsval) :
  items !! index = Some item ->
  (Forall (fun item => JS.is_string item = true) items
   /\ Forall (fun item => JS.is_string item = true) A
   /\ key = None)
  \/ (Forall (fun item => JS.is_record item = true) items
      /\ Forall (fun item => JS.is_record item = true) A) ->
  let list selected :=
    {| VirtualizedList.items := items;
       VirtualizedList.selected := JArr selected;
       VirtualizedList.multipleSelect := true;
       VirtualizedList.itemKey := key |} in
  exists before A',
    VirtualizedList.isSelected (list A) index = Ok before
    /\ VirtualizedList.handleClick (list A) index = Ok (JArr A')
    /\ VirtualizedList.isSelected (list A') index = Ok (negb before).
Proof.
  intros Hlook [(Hitems & HA & ->)|(Hitems & HA)]; cbv zeta.
  - assert (Hitem : JS.is_string item = true).
    { rewrite List.Forall_forall in Hitems. apply Hitems.
      apply list_elem_of_In. eapply list_elem_of_lookup_2. exact Hlook. }
    exists (List.existsb (fun s => JS.strict_eq s item) A),
      (if List.existsb (fun s => JS.strict_eq s item) A
       then List.filter (fun s => negb (JS.strict_eq s item)) A
       else (A ++ [item])%list).
    split; [now apply isSelected_strings|].
    split; [now apply handleClick_strings|].
    destruct (List.existsb (fun s => JS.strict_eq s item) A) eqn:Hsel.
    + rewrite (isSelected_strings _ _ _ _ Hlook Hitems).
      * rewrite (existsb_removed (fun s => JS.strict_eq s item)). reflexivity.
      * rewrite List.Forall_forall in *. intros x Hx.
        apply List.filter_In in Hx as [Hx _]. exact (HA x Hx).
    + rewrite (isSelected_strings _ _ _ _ Hlook Hitems).
      * rewrite (existsb_added (fun s => JS.strict_eq s item))
          by apply strict_eq_refl.
        reflexivity.
      * apply List.Forall_app. split; [exact HA|]. repeat constructor.
        exact Hitem.
  - assert (Hitem : JS.is_record item = true).
    { rewrite List.Forall_forall in Hitems. apply Hitems.
      apply list_elem_of_In. eapply list_elem_of_lookup_2. exact Hlook. }
    destruct item as [| | | | |fields|]; try discriminate.
    set (same := fun s : jsval =>
           JS.strict_eq
             match s with
             | JObj f => JS.own (JS.key_name key) f
             | _ => JUndefined
             end (JS.own (JS.key_name key) fields)).
    exists (List.existsb same A),
      (if List.existsb same A
       then List.filter (fun s => negb (same s)) A
       else (A ++ [JObj fields])%list).
    split; [now apply isSelected_records|].
    split; [exact (handleClick_records key _ _ _ _ Hitems HA Hlook)|].
    destruct (List.existsb same A) eqn:Hsel.
    + rewrite (isSelected_records _ _ _ _ _ Hlook Hitems).
      * fold same. rewrite (existsb_removed same). reflexivity.
      * rewrite List.Forall_forall in *. intros x Hx.
        apply List.filter_In in Hx as [Hx _]. exact (HA x Hx).
    + rewrite (isSelected_records _ _ _ _ _ Hlook Hitems).
      * fold same. rewrite (existsb_added same) by apply strict_eq_refl.
        reflexivity.
      * apply List.Forall_app. split; [exact HA|]. repeat constructor.
Qed.

(** The test of the list: "A" selected among "A" and "B"; a press on "A"
    hands the empty selection to [onSelect] and clears its checkbox. *)
Lemma click_flips_checkbox_witness :
  exists before A',
    VirtualizedList.isSelected
      {| VirtualizedList.items := [JStr "A"; JStr "B"];
         VirtualizedList.selected := JArr [JStr "A"];
         VirtualizedList.multipleSelect := true;
         VirtualizedList.itemKey := None |} 0 = Ok before
    /\ VirtualizedList.handleClick
         {| VirtualizedList.items := [JStr "A"; JStr "B"];
            VirtualizedList.selected := JArr [JStr "A"];
            VirtualizedList.multipleSelect := true;
            VirtualizedList.itemKey := None |} 0 = Ok (JArr A')
    /\ VirtualizedList.isSelected
         {| VirtualizedList.items := [JStr "A"; JStr "B"];
            VirtualizedList.selected := JArr A';
            VirtualizedList.multipleSelect := true;
            VirtualizedList.itemKey := None |} 0 = Ok (negb before).
Proof.
  apply (click_flips_checkbox None [JStr "A"; JStr "B"] [JStr "A"] 0 (JStr "A")
           eq_refl).
  left. repeat constructor.
Defined.
